(** * MedScope backend: retrieval and index life cycle

    A shallow embedding of the request handlers of [backend/main.py]
    (upload, deletion, query, attribution, relatedness, index health and
    the start-up sequence) together with the properties the specification
    states about them.

    Conventions of the embedding.
    - A Python [dict] is an association list in insertion order with
      pairwise distinct keys (module [PyDict]).
    - [list.sort(key=..., reverse=True)] is a stable descending sort
      (module [PySort]).
    - A cosine similarity is a double-precision number, and so is the
      confidence computed from similarities; they are primitive floats,
      compared through the real numbers they stand for.  The score of a
      related document, one quotient of two small integers, is kept as an
      exact rational: its rounding to a double keeps order and equality.
    - A handler that raises [HTTPException] returns [HTTPException status
      detail]; a handler that returns a body returns [OK body].
    - The file system is a tree of directories and regular files with a
      working directory; paths are resolved component by component, and
      the errors are those of Linux.  Symbolic links, permissions, limits
      on names and device faults are not represented. *)

From Stdlib Require Import Ascii String QArith Lqa Sorted.
From Stdlib Require Import PrimFloat FloatOps SpecFloat.
From Stdlib Require Uint63.
From stdpp Require Import base list strings gmap sets.

Local Open Scope string_scope.

(** ** Handler results *)

Inductive Response (A : Type) : Type :=
  | OK (body : A)
  | HTTPException (status : nat) (detail : string).
Arguments OK {A} body.
Arguments HTTPException {A} status detail.

Definition is_ok {A} (r : Response A) : bool :=
  match r with OK _ => true | HTTPException _ _ => false end.

(** ** Python dictionaries, in insertion order *)

Module PyDict.

Definition dict (V : Type) : Type := list (string * V).

Section ops.
Context {V : Type}.

(** [d.get(k)] / [d[k]] *)
Fixpoint get (k : string) (d : dict V) : option V :=
  match d with
  | [] => None
  | (k', v) :: d' => if String.eqb k k' then Some v else get k d'
  end.

(** [k in d] *)
Definition mem (k : string) (d : dict V) : bool :=
  match get k d with Some _ => true | None => false end.

(** [d[k] = v]: an existing key keeps its position, a new key goes last. *)
Fixpoint set (k : string) (v : V) (d : dict V) : dict V :=
  match d with
  | [] => [(k, v)]
  | (k', v') :: d' =>
      if String.eqb k k' then (k, v) :: d' else (k', v') :: set k v d'
  end.

(** [del d[k]] *)
Fixpoint del (k : string) (d : dict V) : dict V :=
  match d with
  | [] => []
  | (k', v') :: d' =>
      if String.eqb k k' then d' else (k', v') :: del k d'
  end.

Definition keys (d : dict V) : list string := map fst d.
Definition values (d : dict V) : list V := map snd d.
Definition items (d : dict V) : list (string * V) := d.

(** The representation invariant: no key occurs twice. *)
Definition wf (d : dict V) : Prop := NoDup (keys d).
End ops.

End PyDict.

(** ** [list.sort(key=..., reverse=True)] *)

Module PySort.

Section sort.
Context {A : Type} (key : A -> Q).

(** [x] is placed before the first element whose key does not exceed its
    own, so that it stays in front of the equal keys that followed it. *)
Fixpoint insert_desc (x : A) (l : list A) : list A :=
  match l with
  | [] => [x]
  | y :: l' =>
      if Qlt_le_dec (key x) (key y) then y :: insert_desc x l' else x :: l
  end.

Definition sort_reverse (l : list A) : list A := foldr insert_desc [] l.

(** [b] may follow [a] in a descending list. *)
Definition desc (a b : A) : Prop := (key b <= key a)%Q.

(** The elements of key [v], in the order they occur. *)
Definition with_key (v : Q) (l : list A) : list A :=
  List.filter (fun e => Qeq_bool (key e) v) l.
End sort.

End PySort.

(** ** Data model *)

(** Python exceptions: a call either returns a value or raises, and
    [str(e)] is the message carried. *)
Inductive Raises (A : Type) : Type :=
  | Returns (a : A)
  | Raised (msg : string).
Arguments Returns {A} a.
Arguments Raised {A} msg.

Definition bind_raises {A B} (m : Raises A) (k : A -> Raises B) : Raises B :=
  match m with Returns a => k a | Raised msg => Raised msg end.

Notation "x ←! m ; k" := (bind_raises m (fun x => k))
  (at level 100, m at next level, right associativity).

(** Modelled from the spec: the metadata of a chunk ([Document.metadata]),
    a dictionary filled by the document parser, which is not among the
    sources; the specification's data model gives its three fields. *)
Record Metadata : Type := {
  document_id : string;
  section_name : string;
  chunk_index : nat
}.

(** A langchain [Document]: one chunk. *)
Record Document : Type := {
  page_content : string;
  metadata : Metadata
}.

(** The [doc_info] dictionary kept in [document_sections]; an absent key
    is [None]. *)
Record DocInfo : Type := {
  sections : PyDict.dict string;
  title : option string;          (* doc_info["metadata"]["title"] *)
  creation_date : option string;  (* doc_info["metadata"]["creation_date"] *)
  topics : option (list string);  (* doc_info["topics"] *)
  chunking_method : option string
}.

Definition Embedding : Type := list float.

(** The FAISS index behind the vector store, as far as the handlers read
    it. *)
Record FaissIndex : Type := {
  ntotal : nat;
  index_d : nat;
  is_trained : bool
}.

Record VectorStore : Type := {
  index : FaissIndex;
  docstore : list Document  (* the documents the store was built from *)
}.

(** [rage_engine]: the live vector store, the question-answering chain
    (identified with the store it retrieves from) and the index path. *)
Record RAGEngine : Type := {
  vector_store : option VectorStore;
  qa_chain : option VectorStore;
  faiss_index_path : string
}.

(** What a path names on disk. *)
Inductive FileKind : Type := RegularFile | Directory.

(** The disk as the process sees it: what is at each absolute path, a
    path being the list of its components from the root, and the working
    directory, against which relative paths are resolved.  The root is a
    directory.  Of two entries for one path the first counts. *)
Record FileSystem : Type := {
  entries : list (list string * FileKind);
  cwd : list string
}.

(** The module-level state of [main.py], with the file system. *)
Record State : Type := {
  fs : FileSystem;
  processed_documents : PyDict.dict (list Document);
  document_sections : PyDict.dict DocInfo;
  rage_engine : RAGEngine
}.

(** An entry of the list [similarities]; ["similarity"] holds
    [float(similarity)], a double. *)
Record Scored : Type := {
  content : string;
  similarity : float;
  sc_metadata : Metadata
}.

Record ChainOutput : Type := {
  co_answer : option string;
  co_source_documents : option (list Document)
}.

Record AnswerResult : Type := {
  ar_answer : option string;
  ar_citations : option (list string)
}.

(** The collaborators [main.py] calls and does not define: the embedding
    model, scikit-learn's cosine similarity, the PDF processor, the LLM
    service, FAISS, the question-answering chain and its set-up. *)
Class Collaborators : Type := {
  (** [rage_engine.embeddings.embed_query] and its awaitable form
      [aembed_query] *)
  aembed_query : string -> Raises Embedding;
  (** [float(cosine_similarity(a, b)[0][0])] *)
  cosine_similarity : Embedding -> Embedding -> float;
  (** [enhanced_processor.process_pdf_enhanced(file_path)], which reads
      the file at that path *)
  process_pdf_enhanced :
    string -> list Byte.byte -> Raises (list Document * DocInfo);
  (** [llm_service.extract_key_topics] *)
  extract_key_topics : string -> Raises (list string);
  (** [llm_service.answer_with_citations] *)
  answer_with_citations : string -> list Scored -> Raises AnswerResult;
  (** the construction of a FAISS index over the given documents *)
  build_index : list Document -> Raises FaissIndex;
  (** [index.search(query, k)]: the distance and the identifier rows *)
  index_search :
    FaissIndex -> Embedding -> nat -> Raises (list (list Q) * list (list Z));
  (** [qa_chain.ainvoke({"question": q})] *)
  ainvoke : VectorStore -> string -> Raises ChainOutput;
  (** [rage_engine.setup_qa_chain()] for an engine in the given state: the
      message of the exception it raises, if it raises *)
  setup_qa_chain_error : RAGEngine -> option string;
  (** the chain a set-up that raised leaves in [rage_engine.qa_chain] *)
  qa_chain_after_error : RAGEngine -> option VectorStore
}.

(** ** The file system *)

Definition UPLOAD_DIR : string := "uploads".

Definition starts_with_slash (s : string) : bool :=
  match s with
  | String c _ => Ascii.eqb c "/"%char
  | EmptyString => false
  end.

(** [os.path.join(UPLOAD_DIR, name)] *)
Definition path_join (dir name : string) : string :=
  if starts_with_slash name then name else dir +:+ "/" +:+ name.

(** The error numbers of the [OSError]s met here. *)
Inductive Errno : Type := ENOENT | ENOTDIR | EISDIR.

(** [str(e)] for the [OSError] raised for [path]. *)
Definition os_error (e : Errno) (path : string) : string :=
  match e with
  | ENOENT => "[Errno 2] No such file or directory: '"
  | ENOTDIR => "[Errno 20] Not a directory: '"
  | EISDIR => "[Errno 21] Is a directory: '"
  end +:+ path +:+ "'".

Fixpoint entry_at (k : list string) (es : list (list string * FileKind))
  : option FileKind :=
  match es with
  | [] => None
  | (k', kind) :: es' => if decide (k = k') then Some kind else entry_at k es'
  end.

Fixpoint remove_entry (k : list string) (es : list (list string * FileKind))
  : list (list string * FileKind) :=
  match es with
  | [] => []
  | (k', kind) :: es' =>
      if decide (k = k') then remove_entry k es'
      else (k', kind) :: remove_entry k es'
  end.

Definition kind_of (disk : FileSystem) (k : list string) : option FileKind :=
  match k with
  | [] => Some Directory
  | _ => entry_at k (entries disk)
  end.

(** The components of a path, cut at every "/". *)
Fixpoint split_path (path : string) : list string :=
  match path with
  | EmptyString => [EmptyString]
  | String c rest =>
      if Ascii.eqb c "/"%char then EmptyString :: split_path rest
      else match split_path rest with
           | [] => [String c EmptyString]
           | w :: ws => String c w :: ws
           end
  end.

Inductive Resolved : Type :=
  | At (k : list string)
  | Fails (e : Errno).

(** Path resolution from the directory [cur]: a component is looked up
    in a directory only; an empty component and "." stay, ".." goes to
    the parent, the root being its own parent.  The place arrived at may
    hold nothing. *)
Fixpoint walk (disk : FileSystem) (cur : list string)
    (components : list string) : Resolved :=
  match components with
  | [] => At cur
  | c :: rest =>
      match kind_of disk cur with
      | Some Directory =>
          if String.eqb c EmptyString || String.eqb c "."
          then walk disk cur rest
          else if String.eqb c ".." then walk disk (removelast cur) rest
          else walk disk (cur ++ [c])%list rest
      | Some RegularFile => Fails ENOTDIR
      | None => Fails ENOENT
      end
  end.

(** The empty path names nothing; a path that starts with "/" is
    resolved from the root, any other from the working directory. *)
Definition resolve (disk : FileSystem) (path : string) : Resolved :=
  match path with
  | EmptyString => Fails ENOENT
  | _ => walk disk (if starts_with_slash path then [] else cwd disk)
           (split_path path)
  end.

(** [os.path.exists]: true for a regular file and for a directory, false
    when the resolution fails. *)
Definition path_exists (path : string) (disk : FileSystem) : bool :=
  match resolve disk path with
  | At k => match kind_of disk k with Some _ => true | None => false end
  | Fails _ => false
  end.

(** The path names a regular file. *)
Definition is_file (path : string) (disk : FileSystem) : bool :=
  match resolve disk path with
  | At k =>
      match kind_of disk k with Some RegularFile => true | _ => false end
  | Fails _ => false
  end.

(** The path names a directory. *)
Definition is_dir (path : string) (disk : FileSystem) : bool :=
  match resolve disk path with
  | At k =>
      match kind_of disk k with Some Directory => true | _ => false end
  | Fails _ => false
  end.

Definition unlink (k : list string) (disk : FileSystem) : FileSystem :=
  {| entries := remove_entry k (entries disk); cwd := cwd disk |}.

Definition write (k : list string) (disk : FileSystem) : FileSystem :=
  {| entries := (k, RegularFile) :: remove_entry k (entries disk);
     cwd := cwd disk |}.

(** [os.remove]: removes a regular file, and raises [OSError] for a
    directory and for a path that names nothing. *)
Definition os_remove (path : string) (disk : FileSystem)
  : Raises FileSystem :=
  match resolve disk path with
  | Fails e => Raised (os_error e path)
  | At k =>
      match kind_of disk k with
      | Some RegularFile => Returns (unlink k disk)
      | Some Directory => Raised (os_error EISDIR path)
      | None => Raised (os_error ENOENT path)
      end
  end.

(** [with open(path, "wb") as f: f.write(contents)]: creates the file in
    an existing directory or overwrites it, and raises [OSError] when the
    path names a directory or its directory cannot be reached. *)
Definition open_write (path : string) (disk : FileSystem)
  : Raises FileSystem :=
  match resolve disk path with
  | Fails e => Raised (os_error e path)
  | At k =>
      match kind_of disk k with
      | Some Directory => Raised (os_error EISDIR path)
      | _ => Returns (write k disk)
      end
  end.

(** Two disks with the same working directory and the same directories:
    they resolve every path alike. *)
Definition same_dirs (disk disk' : FileSystem) : Prop :=
  cwd disk = cwd disk' ∧
  ∀ k, kind_of disk k = Some Directory ↔ kind_of disk' k = Some Directory.

(** [s.endswith(suffix)] *)
Definition endswith (s suffix : string) : bool :=
  let n := String.length s in
  let m := String.length suffix in
  (m <=? n)%nat && String.eqb (substring (n - m) m s) suffix.

(** ** The RAG engine *)

(** Modelled from the spec: [RAGEngine.create_vector_store_from_documents],
    defined in [rag_engine.py], which is not among the sources.  A
    successful build replaces the live store by one over exactly the
    documents given; a failed build leaves the previous store in place. *)
Definition create_vector_store_from_documents `{Collaborators}
    (e : RAGEngine) (docs : list Document) : Raises RAGEngine :=
  ix ←! build_index docs;
  Returns {| vector_store := Some {| index := ix; docstore := docs |};
             qa_chain := qa_chain e;
             faiss_index_path := faiss_index_path e |}.

(** [rage_engine.setup_qa_chain()], defined in [rag_engine.py], which is
    not among the sources; the result is the engine left behind, with the
    message of the exception if one was raised.  Whether the set-up raises
    and what chain it then leaves is the collaborators' to say.  A set-up
    that returns has built the chain over the live store: the chain is
    what [query_papers] invokes, and it retrieves from "the globally
    loaded/updated vector store" ([main.py], comment of [query_papers]). *)
Definition setup_qa_chain `{Collaborators} (e : RAGEngine)
  : RAGEngine * option string :=
  match setup_qa_chain_error e with
  | None =>
      ({| vector_store := vector_store e;
          qa_chain := vector_store e;
          faiss_index_path := faiss_index_path e |}, None)
  | Some msg =>
      ({| vector_store := vector_store e;
          qa_chain := qa_chain_after_error e;
          faiss_index_path := faiss_index_path e |}, Some msg)
  end.

(** The loop [for doc_list in processed_documents.values(): extend]. *)
Definition all_processed_documents (pd : PyDict.dict (list Document))
  : list Document :=
  concat (PyDict.values pd).

(** The block "Update vector store" shared by upload and deletion, with
    its [except Exception]: the engine left behind and [str(e)] of the
    exception caught, if any.  Nothing is built when no chunk is left. *)
Definition update_vector_store `{Collaborators}
    (e : RAGEngine) (pd : PyDict.dict (list Document))
  : RAGEngine * option string :=
  match all_processed_documents pd with
  | [] => (e, None)
  | docs =>
      match create_vector_store_from_documents e docs with
      | Raised msg => (e, Some msg)
      | Returns e' => setup_qa_chain e'
      end
  end.

(** ** Upload *)

Record UploadFile : Type := {
  uf_filename : option string;
  uf_contents : list Byte.byte
}.

Record UploadReply : Type := {
  up_filename : string;
  up_message : string;
  up_warning : option string
}.

Definition newline : string := String "010"%char EmptyString.

(** The clean-up of the handler of a failed save: [os.remove] when the
    path exists, an [OSError] being passed over. *)
Definition cleanup_partial (path : string) (files : FileSystem)
  : FileSystem :=
  if path_exists path files
  then match os_remove path files with
       | Returns files' => files'
       | Raised _ => files
       end
  else files.

(** The clean-up of the handler of a failed processing: [os.remove], an
    [OSError] being logged. *)
Definition cleanup_upload (path : string) (files : FileSystem)
  : FileSystem :=
  match os_remove path files with
  | Returns files' => files'
  | Raised _ => files
  end.

Definition set_topics (ts : list string) (info : DocInfo) : DocInfo :=
  {| sections := sections info;
     title := title info;
     creation_date := creation_date info;
     topics := Some ts;
     chunking_method := chunking_method info |}.

(** The second [try] block of [upload_pdf], from the call of the processor
    on.  [Raised] stands for an exception reaching the handler at the end
    of the block; the state is the one reached when it was raised. *)
Definition process_upload `{Collaborators}
    (filename file_path : string) (contents : list Byte.byte) (s : State)
  : State * Raises UploadReply :=
  match process_pdf_enhanced file_path contents with
  | Raised msg => (s, Raised msg)
  | Returns ([], _) =>
      (s, Raised "400: Could not extract any content from the PDF")
  | Returns (lc_documents, doc_info) =>
      let pd := PyDict.set filename lc_documents (processed_documents s) in
      let ds := PyDict.set filename doc_info (document_sections s) in
      let s1 := {| fs := fs s; processed_documents := pd;
                   document_sections := ds; rage_engine := rage_engine s |} in
      let full_text :=
        String.concat newline (map page_content (take 5 lc_documents)) in
      match extract_key_topics full_text with
      | Raised msg => (s1, Raised msg)
      | Returns ts =>
          (* [doc_info] is the object stored in [document_sections] *)
          let ds' := PyDict.set filename (set_topics ts doc_info) ds in
          let '(e', warning) := update_vector_store (rage_engine s) pd in
          ({| fs := fs s; processed_documents := pd;
              document_sections := ds'; rage_engine := e' |},
           Returns {| up_filename := filename;
                      up_message :=
                        match warning with
                        | None => "File uploaded and processed successfully"
                        | Some _ =>
                            "File uploaded and processed, but vector store update failed. Some features may be limited."
                        end;
                      up_warning := warning |})
      end
  end.

Definition with_fs (files : FileSystem) (s : State) : State :=
  {| fs := files; processed_documents := processed_documents s;
     document_sections := document_sections s;
     rage_engine := rage_engine s |}.

(** [upload_pdf]; [timestamp] is [datetime.now().strftime(...)].  An
    exception of the first [try] block, the [HTTPException]s raised inside
    it included, reaches the handler of that block. *)
Definition upload_pdf `{Collaborators}
    (timestamp : string) (file : UploadFile) (s : State)
  : State * Response UploadReply :=
  match uf_filename file with
  | None => (s, HTTPException 400 "Only PDF files are allowed")
  | Some name =>
      if negb (0 <? String.length name)%nat || negb (endswith name ".pdf")
      then (s, HTTPException 400 "Only PDF files are allowed")
      else
        let filename := timestamp +:+ "_" +:+ name in
        let file_path := path_join UPLOAD_DIR filename in
        match uf_contents file with
        | [] =>
            (with_fs (cleanup_partial file_path (fs s)) s,
             HTTPException 500
               "Error saving file: 400: Uploaded file is empty")
        | contents =>
            match open_write file_path (fs s) with
            | Raised msg =>
                (with_fs (cleanup_partial file_path (fs s)) s,
                 HTTPException 500 ("Error saving file: " +:+ msg))
            | Returns files =>
                if path_exists file_path files
                then
                  match process_upload filename file_path contents
                          (with_fs files s) with
                  | (s', Returns reply) => (s', OK reply)
                  | (s', Raised msg) =>
                      (with_fs (cleanup_upload file_path (fs s')) s',
                       HTTPException 500 ("Error processing PDF: " +:+ msg))
                  end
                else
                  (with_fs (cleanup_partial file_path files) s,
                   HTTPException 500
                     "Error saving file: 500: File save verification failed")
            end
        end
  end.

(** ** Deletion *)

Record DeleteReply : Type := {
  del_message : string;
  del_warning : option string
}.

Definition delete_file `{Collaborators} (filename : string) (s : State)
  : State * Response DeleteReply :=
  let file_path := path_join UPLOAD_DIR filename in
  if negb (path_exists file_path (fs s))
  then (s, HTTPException 404 "File not found")
  else
    match os_remove file_path (fs s) with
    | Raised msg =>
        (s, HTTPException 500 ("Error deleting file: " +:+ msg))
    | Returns files =>
        let pd :=
          if PyDict.mem filename (processed_documents s)
          then PyDict.del filename (processed_documents s)
          else processed_documents s in
        let '(e', warning) := update_vector_store (rage_engine s) pd in
        ({| fs := files; processed_documents := pd;
            document_sections := document_sections s;
            rage_engine := e' |},
         OK {| del_message :=
                 match warning with
                 | None => "File deleted successfully"
                 | Some _ =>
                     "File deleted, but vector store update failed. Some features may be limited."
                 end;
               del_warning := warning |})
    end.

(** ** Query over the whole corpus *)

Record QueryRequest : Type := {
  query : string;
  filenames : option (list string)
}.

Record QueryReply : Type := {
  q_message : string;
  q_sources : list Document
}.

(** An absent chain makes [rage_engine.qa_chain.ainvoke] raise, and the
    handler of the exception answers 503. *)
Definition query_papers `{Collaborators} (request : QueryRequest) (s : State)
  : Response QueryReply :=
  match filenames request with
  | None | Some [] => HTTPException 400 "No papers specified for query"
  | Some _ =>
      match qa_chain (rage_engine s) with
      | None =>
          HTTPException 503
            "RAG system not ready. Please upload and process a document."
      | Some chain =>
          match ainvoke chain (query request) with
          | Raised msg =>
              HTTPException 500 ("Error during RAG query: " +:+ msg)
          | Returns out =>
              OK {| q_message :=
                      default "Could not find an answer." (co_answer out);
                    q_sources := default [] (co_source_documents out) |}
          end
      end
  end.

(** ** Similarity against the chunks of one document *)

(** The loop that embeds each chunk and records its similarity to the
    embedded text. *)
Fixpoint score_chunks `{Collaborators}
    (text_embedding : Embedding) (chunks : list Document)
  : Raises (list Scored) :=
  match chunks with
  | [] => Returns []
  | doc :: rest =>
      chunk_embedding ←! aembed_query (page_content doc);
      scored ←! score_chunks text_embedding rest;
      Returns ({| content := page_content doc;
                  similarity :=
                    cosine_similarity text_embedding chunk_embedding;
                  sc_metadata := metadata doc |} :: scored)
  end.

(** The real number a double stands for.  The infinities and NaN, which
    the cosine of two finite vectors is not, are given 0. *)
Definition float_to_Q (x : float) : Q :=
  match Prim2SF x with
  | S754_finite sign m e =>
      let v := (inject_Z (Z.pos m) * Qpower 2 e)%Q in
      if sign then (- v)%Q else v
  | _ => 0%Q
  end.

(** The doubles written 0.9, 0.8, 0.7, 0.4 and 0.1, and the double next
    above 0.7, written 0.7000000000000001. *)
Definition f0_9 : float := 0x1.ccccccccccccdp-1%float.
Definition f0_8 : float := 0x1.999999999999ap-1%float.
Definition f0_7 : float := 0x1.6666666666666p-1%float.
Definition f0_7_up : float := 0x1.6666666666667p-1%float.
Definition f0_4 : float := 0x1.999999999999ap-2%float.
Definition f0_1 : float := 0x1.999999999999ap-4%float.

(** The key [lambda x: x["similarity"]] as the sort compares it. *)
Definition similarity_value (c : Scored) : Q := float_to_Q (similarity c).

(** [float(n)] for a length [n]. *)
Definition float_of_nat (n : nat) : float :=
  PrimFloat.of_uint63 (Uint63.of_Z (Z.of_nat n)).

(** The built-in [sum] over doubles.  CPython up to 3.11 adds the items
    from the left; from 3.12 on it carries the rounding errors along in a
    compensation term (Neumaier's summation) and adds the term at the
    end. *)
Inductive SumAlgorithm : Type := LeftToRight | Compensated.

Class PythonRuntime : Type := { sum_algorithm : SumAlgorithm }.

Definition sum_left (l : list float) : float :=
  foldl PrimFloat.add 0%float l.

(** One step of the compensated loop, on the running sum and the
    compensation. *)
Definition compensate (state : float * float) (x : float) : float * float :=
  let '(f_result, c) := state in
  let t := (f_result + x)%float in
  (t, if PrimFloat.leb (PrimFloat.abs x) (PrimFloat.abs f_result)
      then (c + ((f_result - t) + x))%float
      else (c + ((x - t) + f_result))%float).

(** The first item is added to the integer 0 with which [sum] starts;
    the compensated loop runs over the items after it. *)
Definition sum_compensated (l : list float) : float :=
  match l with
  | [] => 0%float
  | x :: rest =>
      let '(f_result, c) := foldl compensate ((0 + x)%float, 0%float) rest in
      if negb (PrimFloat.is_zero c) && PrimFloat.is_finite c
      then (f_result + c)%float
      else f_result
  end.

Definition float_sum `{PythonRuntime} (l : list float) : float :=
  match sum_algorithm with
  | LeftToRight => sum_left l
  | Compensated => sum_compensated l
  end.

(** [sum(chunk["similarity"] for chunk in l)] *)
Definition sum_similarity `{PythonRuntime} (l : list Scored) : float :=
  float_sum (map similarity l).

(** [sum(...) / len(top_chunks) if top_chunks else 0] *)
Definition mean_similarity `{PythonRuntime} (l : list Scored) : float :=
  match l with
  | [] => 0%float
  | _ => (sum_similarity l / float_of_nat (length l))%float
  end.

Record ExplanationRequest : Type := {
  er_filename : string;
  er_sentence : string
}.

Record Explanation : Type := {
  source_chunks : list Scored;
  confidence : float
}.

Definition get_sentence_explanation `{Collaborators} `{PythonRuntime}
    (request : ExplanationRequest) (s : State) : Response Explanation :=
  match PyDict.get (er_filename request) (processed_documents s) with
  | None => HTTPException 404 "Processed data not found for this file."
  | Some document_chunks =>
      match (sentence_embedding ←! aembed_query (er_sentence request);
             score_chunks sentence_embedding document_chunks) with
      | Raised msg =>
          HTTPException 500 ("Error getting sentence explanation: " +:+ msg)
      | Returns similarities =>
          let top_chunks :=
            take 3 (PySort.sort_reverse similarity_value similarities) in
          OK {| source_chunks := top_chunks;
                confidence := mean_similarity top_chunks |}
      end
  end.

Record QueryDocRequest : Type := {
  qd_question : string;
  qd_document_id : string
}.

Record QueryDocReply : Type := {
  qd_answer : string;
  qd_citations : list string;
  qd_reply_document_id : string
}.

(** The chunks [query_document] hands to the LLM: the five most similar
    chunks of the document. *)
Definition relevant_chunks `{Collaborators}
    (question : string) (doc_chunks : list Document) : Raises (list Scored) :=
  query_embedding ←! aembed_query question;
  similarities ←! score_chunks query_embedding doc_chunks;
  Returns (take 5 (PySort.sort_reverse similarity_value similarities)).

Definition query_document `{Collaborators}
    (request : QueryDocRequest) (s : State) : Response QueryDocReply :=
  match PyDict.get (qd_document_id request) (processed_documents s) with
  | None => HTTPException 404 "Document not found"
  | Some doc_chunks =>
      match (chunks ←! relevant_chunks (qd_question request) doc_chunks;
             answer_with_citations (qd_question request) chunks) with
      | Raised msg =>
          HTTPException 500 ("Error querying document: " +:+ msg)
      | Returns answer_result =>
          OK {| qd_answer := default EmptyString (ar_answer answer_result);
                qd_citations := default [] (ar_citations answer_result);
                qd_reply_document_id := qd_document_id request |}
      end
  end.

(** ** Related documents *)

Record Related : Type := {
  r_filename : string;
  r_title : string;
  common_topics : list string;
  similarity_score : Q
}.

(** [set(info.get("topics", []))] *)
Definition topic_set (info : DocInfo) : gset string :=
  list_to_set (default [] (topics info)).

(** [overlap / len(target_topics.union(other_topics))] *)
Definition overlap_score (target other : gset string) : Q :=
  Z.of_nat (size (target ∩ other)) # Pos.of_nat (size (target ∪ other)).

(** The body of the loop over [document_sections.items()]: the entry
    appended for one other document, if any.  [common_topics] is
    [list(target_topics.intersection(other_topics))], whose order follows
    the hashes of the strings and changes from one process to the next;
    the model lists the same topics in the one order of [elements], and
    nothing below depends on that order. *)
Definition related_entry (filename : string) (target_topics : gset string)
    (item : string * DocInfo) : option Related :=
  let '(other_filename, other_info) := item in
  if String.eqb other_filename filename then None
  else
    let other_topics := topic_set other_info in
    let overlap := size (target_topics ∩ other_topics) in
    if (0 <? overlap)%nat
    then Some {| r_filename := other_filename;
                 r_title := default other_filename (title other_info);
                 common_topics := elements (target_topics ∩ other_topics);
                 similarity_score := overlap_score target_topics other_topics |}
    else None.

(** The list [related] before it is sorted. *)
Definition related_candidates (filename : string)
    (target_topics : gset string) (ds : PyDict.dict DocInfo) : list Related :=
  omap (related_entry filename target_topics) (PyDict.items ds).

Definition get_related_documents (filename : string) (s : State)
  : Response (list Related) :=
  match PyDict.get filename (document_sections s) with
  | None => HTTPException 404 "Document not found"
  | Some info =>
      let target_topics := topic_set info in
      if bool_decide (target_topics = ∅) then OK []
      else
        let related :=
          related_candidates filename target_topics (document_sections s) in
        OK (take 5 (PySort.sort_reverse similarity_score related))
  end.

(** ** Index health *)

Inductive HealthReport : Type :=
  | Healthy (total_vectors dimension : nat) (trained : bool)
      (test_search_successful : bool) (index_path : string)
      (index_file_exists : bool)
  | Unhealthy (error : string).

Definition check_index_health `{Collaborators} (s : State)
  : Response HealthReport :=
  match vector_store (rage_engine s) with
  | None => HTTPException 400 "Vector store not initialized"
  | Some store =>
      let idx := index store in
      match (test_embedding ←! aembed_query "This is a test query";
             index_search idx test_embedding 1) with
      | Raised msg => OK (Unhealthy msg)
      | Returns (dists, ids) =>
          OK (Healthy (ntotal idx) (index_d idx) (is_trained idx)
                ((0 <? length dists)%nat && (0 <? length ids)%nat)
                (faiss_index_path (rage_engine s))
                (path_exists (faiss_index_path (rage_engine s)) (fs s)))
      end
  end.

(** ** Start-up

    The asyncio event loop runs one task at a time, from one suspension
    point ([await]) to the next.  A coroutine is represented by its
    position; a task that has returned leaves the loop. *)

Module Startup.

Record StartupState : Type := {
  faiss_initialized : bool;
  arxiv_initialized : bool;
  startup_in_progress : bool
}.

(** How the awaited, time-bounded operation of a subtask ends. *)
Inductive Outcome : Type := Success | Failure | Timeout.

Inductive Coroutine : Type :=
  | DelayedStart     (* delayed_initialization, created, not yet run *)
  | DelayedSleeping  (* suspended in [asyncio.sleep(5)] *)
  | FaissStart       (* load_faiss_index_background, created *)
  | FaissWaiting     (* suspended in [asyncio.wait_for(..., 30.0)] *)
  | ArxivStart       (* initialize_arxiv_search_background, created *)
  | ArxivWaiting.    (* suspended in [asyncio.wait_for(..., 60.0)] *)

Record Loop : Type := {
  startup_state : StartupState;
  tasks : list Coroutine  (* the tasks that have not returned *)
}.

Definition set_in_progress (b : bool) (st : StartupState) : StartupState :=
  {| faiss_initialized := faiss_initialized st;
     arxiv_initialized := arxiv_initialized st;
     startup_in_progress := b |}.

Definition set_faiss (b : bool) (st : StartupState) : StartupState :=
  {| faiss_initialized := b;
     arxiv_initialized := arxiv_initialized st;
     startup_in_progress := startup_in_progress st |}.

Definition set_arxiv (b : bool) (st : StartupState) : StartupState :=
  {| faiss_initialized := faiss_initialized st;
     arxiv_initialized := b;
     startup_in_progress := startup_in_progress st |}.

(** [startup_event]: returns at once when a start-up is in progress;
    otherwise raises the flag and creates the delayed task. *)
Definition startup_event (l : Loop) : Loop :=
  if startup_in_progress (startup_state l) then l
  else {| startup_state := set_in_progress true (startup_state l);
          tasks := (tasks l ++ [DelayedStart])%list |}.

(** One run of a task, up to its next suspension point or its return:
    the new flags, the continuation of the task if it is suspended, and
    the tasks it created. *)
Definition resume (c : Coroutine) (o : Outcome) (st : StartupState)
  : StartupState * option Coroutine * list Coroutine :=
  match c with
  | DelayedStart => (st, Some DelayedSleeping, [])
  | DelayedSleeping =>
      let created :=
        ((if faiss_initialized st then [] else [FaissStart]) ++
         (if arxiv_initialized st then [] else [ArxivStart]))%list in
      (* finally: *)
      (set_in_progress false st, None, created)
  | FaissStart =>
      if faiss_initialized st then (st, None, [])
      else (st, Some FaissWaiting, [])
  | FaissWaiting =>
      match o with
      | Success => (set_faiss true st, None, [])
      | Failure | Timeout => (st, None, [])
      end
  | ArxivStart =>
      if arxiv_initialized st then (st, None, [])
      else (st, Some ArxivWaiting, [])
  | ArxivWaiting =>
      match o with
      | Success => (set_arxiv true st, None, [])
      | Failure | Timeout => (st, None, [])
      end
  end.

(** What happens on the loop: the framework fires the start-up event, or
    the scheduler resumes the task at some position of the task list (the
    outcome is read only by a subtask waiting for its operation). *)
Inductive Event : Type :=
  | FireStartup
  | Resume (i : nat) (o : Outcome).

Definition step (e : Event) (l : Loop) : option Loop :=
  match e with
  | FireStartup => Some (startup_event l)
  | Resume i o =>
      match tasks l !! i with
      | None => None
      | Some c =>
          let '(st, cont, created) := resume c o (startup_state l) in
          Some {| startup_state := st;
                  tasks :=
                    (take i (tasks l) ++ option_list cont ++
                     drop (S i) (tasks l) ++ created)%list |}
      end
  end.

Fixpoint run (es : list Event) (l : Loop) : option Loop :=
  match es with
  | [] => Some l
  | e :: es' =>
      match step e l with
      | Some l' => run es' l'
      | None => None
      end
  end.

(** The process as it starts: no flag set, no task. *)
Definition initial : Loop :=
  {| startup_state := {| faiss_initialized := false;
                         arxiv_initialized := false;
                         startup_in_progress := false |};
     tasks := [] |}.

Definition is_faiss_task (c : Coroutine) : bool :=
  match c with FaissStart | FaissWaiting => true | _ => false end.

Definition is_arxiv_task (c : Coroutine) : bool :=
  match c with ArxivStart | ArxivWaiting => true | _ => false end.

(** A subtask is unsettled while it is on the loop: created or suspended,
    not yet returned. *)
Definition unsettled (l : Loop) : bool :=
  existsb (fun c => is_faiss_task c || is_arxiv_task c) (tasks l).

(** What the specification asks of the flag: it is not false while a
    subtask is unsettled. *)
Definition flag_guards_subtasks (l : Loop) : Prop :=
  startup_in_progress (startup_state l) = false → unsettled l = false.

End Startup.

(** ** What the specification asks of a state *)

(** The live index is built from exactly the chunks of the corpus, in
    corpus order. *)
Definition index_reflects_corpus (s : State) : Prop :=
  option_map docstore (vector_store (rage_engine s)) =
  Some (all_processed_documents (processed_documents s)).

(** A scored chunk is the record built from the stored chunk [doc]. *)
Definition scored_from (c : Scored) (doc : Document) : Prop :=
  content c = page_content doc ∧ sc_metadata c = metadata doc.

(** What the scoring loop records for a stored chunk: its text, its
    metadata and the cosine similarity of its embedding to the text's. *)
Definition scores `{Collaborators}
    (text_embedding : Embedding) (c : Scored) (doc : Document) : Prop :=
  scored_from c doc ∧
  ∃ chunk_embedding,
    aembed_query (page_content doc) = Returns chunk_embedding ∧
    similarity c = cosine_similarity text_embedding chunk_embedding.

(** The processor call of an upload fails: it raises, or extracts no
    chunk, upon which the handler raises inside the same block. *)
Definition pdf_processing_raises `{Collaborators}
    (file_path : string) (contents : list Byte.byte) : bool :=
  match process_pdf_enhanced file_path contents with
  | Raised _ | Returns ([], _) => true
  | Returns (_ :: _, _) => false
  end.

(** The entry of a related list for the document [k] of information
    [info], seen from a document of topics [T]. *)
Definition entry_for (T : gset string) (k : string) (info : DocInfo)
  : Related :=
  {| r_filename := k;
     r_title := default k (title info);
     common_topics := elements (T ∩ topic_set info);
     similarity_score := overlap_score T (topic_set info) |}.

(** The ranking behind a related list: the candidates, sorted. *)
Definition ranking (filename : string) (info : DocInfo)
    (ds : PyDict.dict DocInfo) : list Related :=
  PySort.sort_reverse similarity_score
    (related_candidates filename (topic_set info) ds).

(** Equal scores are ordered by document id, ascending or descending:
    of two entries of equal score, the earlier one has the smaller,
    respectively the larger, file name. *)
Definition ties_by_document_id (before : string -> string -> bool)
    (rs : list Related) : Prop :=
  ∀ i j ri rj,
    (i < j)%nat → rs !! i = Some ri → rs !! j = Some rj →
    (similarity_score ri == similarity_score rj)%Q →
    before (r_filename ri) (r_filename rj) = true.

(** The entry of document [B] in a related list. *)
Definition listed (B : string) (score : Q) (rs : list Related) : Prop :=
  ∃ r, r ∈ rs ∧ r_filename r = B ∧ (similarity_score r == score)%Q.

(** Blank text: empty, or white space only. *)
Definition is_space (c : ascii) : bool :=
  let n := nat_of_ascii c in
  ((n =? 32) || ((9 <=? n) && (n <=? 13)))%nat.

Definition blank (text : string) : bool :=
  forallb is_space (list_ascii_of_string text).

(** ** Test doubles and sample states *)

Module Fixture.

Definition chunk (doc : string) (i : nat) (text : string) : Document :=
  {| page_content := text;
     metadata := {| document_id := doc; section_name := "body";
                    chunk_index := i |} |}.

Definition info (ts : list string) : DocInfo :=
  {| sections := []; title := None; creation_date := None;
     topics := Some ts; chunking_method := None |}.

(** A one-coordinate embedding read off a table. *)
Definition embed_table (text : string) : float :=
  if String.eqb text "c0" then f0_9
  else if String.eqb text "c1" then f0_4
  else if String.eqb text "c2" then f0_8
  else if String.eqb text "c3" then f0_1
  else 0%float.

Definition cpython311 : PythonRuntime := {| sum_algorithm := LeftToRight |}.
Definition cpython312 : PythonRuntime := {| sum_algorithm := Compensated |}.

(** The working directory of the server, with its [uploads] directory,
    and the regular files uploaded there. *)
Definition backend_dir : list string := ["srv"; "medscope"; "backend"].

Definition disk_of (uploaded : list string) : FileSystem :=
  {| entries :=
       ([(["srv"], Directory);
         (["srv"; "medscope"], Directory);
         (backend_dir, Directory);
         (backend_dir ++ ["uploads"], Directory)]
        ++ map (fun name => (backend_dir ++ ["uploads"; name], RegularFile))
             uploaded)%list;
     cwd := backend_dir |}.

(** Collaborators that always answer; the processor rejects every file. *)
Definition stub : Collaborators :=
  {| aembed_query text := Returns [embed_table text];
     cosine_similarity a b := hd 0%float b;
     process_pdf_enhanced path contents := Raised "cannot parse";
     extract_key_topics text := Returns [];
     answer_with_citations question chunks :=
       Returns {| ar_answer := Some "answer";
                  ar_citations := Some (map content chunks) |};
     build_index docs :=
       Returns {| ntotal := length docs; index_d := 1; is_trained := true |};
     index_search idx e k := Returns ([[0%Q]], [[0%Z]]);
     ainvoke store question :=
       Returns {| co_answer := Some "answer";
                  co_source_documents := Some (docstore store) |};
     setup_qa_chain_error e := None;
     qa_chain_after_error e := qa_chain e |}.

(** The same, with a processor that yields one chunk and a topic
    extraction that raises. *)
Definition stub_topics_fail : Collaborators :=
  {| aembed_query := @aembed_query stub;
     cosine_similarity := @cosine_similarity stub;
     process_pdf_enhanced path contents :=
       Returns ([chunk path 0 "c0"], info []);
     extract_key_topics text := Raised "topic extraction failed";
     answer_with_citations := @answer_with_citations stub;
     build_index := @build_index stub;
     index_search := @index_search stub;
     ainvoke := @ainvoke stub;
     setup_qa_chain_error := @setup_qa_chain_error stub;
     qa_chain_after_error := @qa_chain_after_error stub |}.

Definition store_of (docs : list Document) : VectorStore :=
  {| index := {| ntotal := length docs; index_d := 1; is_trained := true |};
     docstore := docs |}.

Definition engine_of (docs : list Document) : RAGEngine :=
  {| vector_store := Some (store_of docs);
     qa_chain := Some (store_of docs);
     faiss_index_path := "faiss_index" |}.

Definition no_engine : RAGEngine :=
  {| vector_store := None; qa_chain := None;
     faiss_index_path := "faiss_index" |}.

Definition a_chunks : list Document := [chunk "a.pdf" 0 "c0"].
Definition b_chunks : list Document :=
  [chunk "b.pdf" 0 "c1"; chunk "b.pdf" 1 "c2"].

(** One document, indexed. *)
Definition one_document : State :=
  {| fs := disk_of ["a.pdf"];
     processed_documents := [("a.pdf", a_chunks)];
     document_sections := [("a.pdf", info ["cancer"])];
     rage_engine := engine_of a_chunks |}.

(** Two documents, indexed. *)
Definition two_documents : State :=
  {| fs := disk_of ["a.pdf"; "b.pdf"];
     processed_documents := [("a.pdf", a_chunks); ("b.pdf", b_chunks)];
     document_sections :=
       [("a.pdf", info ["cancer"]); ("b.pdf", info ["therapy"])];
     rage_engine := engine_of (a_chunks ++ b_chunks)%list |}.

(** A corpus record whose file is gone, and a file without a record. *)
Definition record_without_file : State :=
  {| fs := disk_of ["orphan.pdf"];
     processed_documents := [("a.pdf", a_chunks)];
     document_sections := [("a.pdf", info ["cancer"])];
     rage_engine := engine_of a_chunks |}.

(** The document of the attribution scenario: four chunks, of
    similarities 0.9, 0.4, 0.8 and 0.1 to every sentence. *)
Definition d1_chunks : list Document :=
  [chunk "D1" 0 "c0"; chunk "D1" 1 "c1"; chunk "D1" 2 "c2"; chunk "D1" 3 "c3"].

Definition four_chunks : State :=
  {| fs := disk_of ["D1"];
     processed_documents := [("D1", d1_chunks); ("b.pdf", b_chunks)];
     document_sections := [("D1", info ["cancer"]); ("b.pdf", info [])];
     rage_engine := engine_of (d1_chunks ++ b_chunks)%list |}.

Definition corpus_of (ds : PyDict.dict DocInfo) : State :=
  {| fs := disk_of [];
     processed_documents := map (fun kv => (fst kv, [])) ds;
     document_sections := ds;
     rage_engine := no_engine |}.

(** The relatedness scenario of the specification. *)
Definition scenario : State :=
  corpus_of [("D1", info ["cancer"; "therapy"]);
             ("D2", info ["therapy"; "genomics"])].

(** Three documents uploaded within one second, in the order b, a, c,
    after a first one; all four share their only topic. *)
Definition same_second : State :=
  corpus_of [("20250101_115959_t.pdf", info ["therapy"]);
             ("20250101_120000_b.pdf", info ["therapy"]);
             ("20250101_120000_a.pdf", info ["therapy"]);
             ("20250101_120000_c.pdf", info ["therapy"])].

(** [A] shares one topic with [B]; five further documents share two
    topics with [B] and none with [A]. *)
Definition crowded : State :=
  corpus_of [("A", info ["t"; "x"]);
             ("B", info ["t"; "a"; "b"]);
             ("C1", info ["a"; "b"]);
             ("C2", info ["a"; "b"]);
             ("C3", info ["a"; "b"]);
             ("C4", info ["a"; "b"]);
             ("C5", info ["a"; "b"])].

Definition empty_state : State :=
  {| fs := disk_of []; processed_documents := []; document_sections := [];
     rage_engine := no_engine |}.

Definition pdf_upload : UploadFile :=
  {| uf_filename := Some "paper.pdf";
     uf_contents := [Byte.x25; Byte.x50; Byte.x44; Byte.x46] |}.

End Fixture.

(** * The remaining handlers of [main.py] *)

(** ** Strings *)

(** [str.lower()], on ASCII letters. *)
Definition lower_ascii (c : ascii) : ascii :=
  let n := nat_of_ascii c in
  if ((65 <=? n) && (n <=? 90))%nat then ascii_of_nat (n + 32) else c.

Fixpoint lower (s : string) : string :=
  match s with
  | EmptyString => EmptyString
  | String c s' => String (lower_ascii c) (lower s')
  end.

(** [needle in s] *)
Definition py_in (needle s : string) : bool :=
  match String.index 0 needle s with
  | Some _ => true
  | None => false
  end.

(** [s[:n]] *)
Definition str_prefix (n : nat) (s : string) : string := substring 0 n s.

(** [len(s.split(sep))] for a one-character separator: the pieces are
    counted as they are cut. *)
Fixpoint split_count (sep : ascii) (s : string) : nat :=
  match s with
  | EmptyString => 1
  | String c s' =>
      if Ascii.eqb c sep then S (split_count sep s') else split_count sep s'
  end.

(** ** Python slices *)

(** The bound of a slice of a sequence of length [len]: a negative bound
    counts from the end, and both ends are clamped to the sequence. *)
Definition slice_bound (len i : Z) : Z :=
  if (i <? 0)%Z then Z.max 0 (i + len) else Z.min i len.

(** [l[start:stop]] *)
Definition py_slice {A} (l : list A) (start stop : Z) : list A :=
  let len := Z.of_nat (length l) in
  let a := slice_bound len start in
  let b := slice_bound len stop in
  take (Z.to_nat (b - a)) (drop (Z.to_nat a) l).

(** ** The LLM service of the remaining handlers *)

(** The dictionary [generate_summary] returns. *)
Record SummaryResult : Type := {
  sr_status : option string;
  sr_error : option string;
  sr_summary : option string
}.

(** The dictionary built for each paper by [synthesize_topic]. *)
Record PaperData : Type := {
  pd_title : string;
  pd_year : string;
  pd_topics : list string;
  pd_sections : PyDict.dict string;
  pd_findings : option string;
  pd_methods : option string
}.

Class LLMService : Type := {
  (** what [explain_text] and [synthesize_papers] return *)
  llm_result : Type;
  generate_summary :
    string -> option string -> PyDict.dict string -> Raises SummaryResult;
  explain_text :
    string -> string -> string -> option string -> Raises llm_result;
  synthesize_papers : list PaperData -> option string -> Raises llm_result
}.

(** ** Serving a file *)

(** [serve_pdf]; the body is the path handed to [FileResponse]. *)
Definition serve_pdf (filename : string) (s : State) : Response string :=
  let file_path := path_join UPLOAD_DIR filename in
  if negb (path_exists file_path (fs s))
  then HTTPException 404 "File not found"
  else if negb (endswith (lower filename) ".pdf")
  then HTTPException 400 "Only PDF files are served"
  else OK file_path.

(** ** Summary *)

Record SummarizeRequest : Type := {
  sum_filename : string;
  sum_audience_type : option string
}.

Record SummarizeReply : Type := {
  sum_message : string;
  sum_audience : option string
}.

(** The text handed to the LLM: the chunks, one per line. *)
Definition full_text_of (chunks : list Document) : string :=
  String.concat newline (map page_content chunks).

(** [summarize_paper].  The [HTTPException] raised inside the [try] block
    for a summary of status "error" is caught by the handler of the block
    and raised again with its text prefixed. *)
Definition summarize_paper `{LLMService}
    (request : SummarizeRequest) (s : State) : Response SummarizeReply :=
  match PyDict.get (sum_filename request) (processed_documents s) with
  | None => HTTPException 404 "Processed data not found for this file"
  | Some [] => HTTPException 400 "No content available for summarization"
  | Some document_chunks =>
      let sections_ :=
        match PyDict.get (sum_filename request) (document_sections s) with
        | Some doc_info => sections doc_info
        | None => []
        end in
      match generate_summary (full_text_of document_chunks)
              (sum_audience_type request) sections_ with
      | Raised msg =>
          HTTPException 500 ("Error during summarization: " +:+ msg)
      | Returns summary_result =>
          if bool_decide (sr_status summary_result = Some "error")
          then HTTPException 500
                 ("Error during summarization: 500: Summarization failed: "
                  +:+ default "None" (sr_error summary_result))
          else OK {| sum_message :=
                       default "Summarization failed"
                         (sr_summary summary_result);
                     sum_audience := sum_audience_type request |}
      end
  end.

(** ** Explanation of highlighted text *)

Record ExplainTextRequest : Type := {
  et_filename : string;
  et_selected_text : string;
  et_context : string;
  et_question : string;
  et_audience_type : option string
}.

Definition explain_highlighted_text `{LLMService}
    (request : ExplainTextRequest) (s : State) : Response llm_result :=
  if negb (PyDict.mem (et_filename request) (processed_documents s))
  then HTTPException 404 "Document not found"
  else
    match explain_text (et_selected_text request) (et_context request)
            (et_question request) (et_audience_type request) with
    | Returns result => OK result
    | Raised msg => HTTPException 500 ("Error explaining text: " +:+ msg)
    end.

(** ** Synthesis across papers *)

Record SynthesizeRequest : Type := {
  sy_filenames : list string;
  sy_synthesis_type : option string
}.

Definition set_findings (text : string) (p : PaperData) : PaperData :=
  {| pd_title := pd_title p; pd_year := pd_year p; pd_topics := pd_topics p;
     pd_sections := pd_sections p; pd_findings := Some text;
     pd_methods := pd_methods p |}.

Definition set_methods (text : string) (p : PaperData) : PaperData :=
  {| pd_title := pd_title p; pd_year := pd_year p; pd_topics := pd_topics p;
     pd_sections := pd_sections p; pd_findings := pd_findings p;
     pd_methods := Some text |}.

Definition is_findings_section (section_name : string) : bool :=
  py_in "finding" (lower section_name) || py_in "result" (lower section_name).

Definition is_methods_section (section_name : string) : bool :=
  py_in "method" (lower section_name).

(** The body of the loop over [sections.items()]. *)
Definition extract_section (p : PaperData) (item : string * string)
  : PaperData :=
  let '(section_name, section_content) := item in
  if is_findings_section section_name
  then set_findings (str_prefix 1000 section_content) p
  else if is_methods_section section_name
  then set_methods (str_prefix 1000 section_content) p
  else p.

(** The [paper_data] of one file. *)
Definition paper_data_of (filename : string) (doc_info : DocInfo)
  : PaperData :=
  foldl extract_section
    {| pd_title := default filename (title doc_info);
       pd_year := default "Unknown" (creation_date doc_info);
       pd_topics := default [] (topics doc_info);
       pd_sections := sections doc_info;
       pd_findings := None;
       pd_methods := None |}
    (PyDict.items (sections doc_info)).

(** The entry appended for one requested file name, if any. *)
Definition paper_entry (s : State) (filename : string) : option PaperData :=
  if PyDict.mem filename (processed_documents s)
  then match PyDict.get filename (document_sections s) with
       | Some doc_info => Some (paper_data_of filename doc_info)
       | None => None
       end
  else None.

Definition papers_data_of (filenames : list string) (s : State)
  : list PaperData :=
  omap (paper_entry s) filenames.

Definition synthesize_topic `{LLMService}
    (request : SynthesizeRequest) (s : State) : Response llm_result :=
  match papers_data_of (sy_filenames request) s with
  | [] => HTTPException 400 "No valid papers found for synthesis"
  | papers_data =>
      match synthesize_papers papers_data (sy_synthesis_type request) with
      | Returns result => OK result
      | Raised msg => HTTPException 500 ("Error synthesizing papers: " +:+ msg)
      end
  end.

(** ** Inspection of chunks *)

Record ChunkView : Type := {
  cv_content : string;
  cv_metadata : Metadata;
  cv_length : nat;
  cv_sentences : nat
}.

(** The reply of [debug_chunks]; [dc_showing] holds the two numbers of
    the text "start to end-1". *)
Record DebugChunks : Type := {
  dc_total_chunks : nat;
  dc_showing : Z * Z;
  dc_chunks : list ChunkView
}.

Definition chunk_view (chunk : Document) : ChunkView :=
  {| cv_content := page_content chunk;
     cv_metadata := metadata chunk;
     cv_length := String.length (page_content chunk);
     cv_sentences := split_count "."%char (page_content chunk) |}.

Definition debug_chunks (filename : string) (start_idx limit : Z) (s : State)
  : Response DebugChunks :=
  match PyDict.get filename (processed_documents s) with
  | None => HTTPException 404 "Document not found"
  | Some chunks =>
      let total_chunks := length chunks in
      let end_idx := Z.min (start_idx + limit) (Z.of_nat total_chunks) in
      let selected_chunks := py_slice chunks start_idx end_idx in
      OK {| dc_total_chunks := total_chunks;
            dc_showing := (start_idx, (end_idx - 1)%Z);
            dc_chunks := map chunk_view selected_chunks |}
  end.

(** ** Invariants of the corpus *)

(** What the handlers keep true of the two maps: keys are distinct, no
    document is stored without chunks, and every processed document has
    its section information. *)
Definition corpus_ok (s : State) : Prop :=
  PyDict.wf (processed_documents s) ∧
  PyDict.wf (document_sections s) ∧
  (∀ k chunks,
     PyDict.get k (processed_documents s) = Some chunks → chunks ≠ []) ∧
  (∀ k, PyDict.mem k (processed_documents s) = true →
        PyDict.mem k (document_sections s) = true).

(** The status code a client sees. *)
Definition http_status {A} (r : Response A) : nat :=
  match r with OK _ => 200 | HTTPException st _ => st end.

(** The upload has no file name, an empty one, or one that does not end
    in ".pdf". *)
Definition invalid_upload_name (file : UploadFile) : Prop :=
  match uf_filename file with
  | None => True
  | Some name => name = EmptyString ∨ endswith name ".pdf" = false
  end.

(** The name under which an upload is stored. *)
Definition stored_name (timestamp name : string) : string :=
  timestamp +:+ "_" +:+ name.

(** ** Invariants of the start-up *)

Module StartupInv.
Import Startup.

Definition is_delayed_task (c : Coroutine) : bool :=
  match c with DelayedStart | DelayedSleeping => true | _ => false end.

(** The number of delayed-initialization tasks on the loop. *)
Definition delayed_count (l : Loop) : nat :=
  length (List.filter is_delayed_task (tasks l)).

(** Exactly one delayed-initialization task while the flag is up, none
    while it is down. *)
Definition single_initializer (l : Loop) : Prop :=
  delayed_count l = if startup_in_progress (startup_state l) then 1%nat
                    else 0%nat.

End StartupInv.

(** Collaborators for the remaining handlers: a summary reported as an
    error by the LLM, and answers for the rest. *)
Module Fixture2.
Import Fixture.

Definition llm_stub : LLMService :=
  {| llm_result := string;
     generate_summary text audience secs :=
       Returns {| sr_status := Some "error"; sr_error := Some "quota";
                  sr_summary := None |};
     explain_text selected context question audience :=
       Returns "explanation";
     synthesize_papers papers kind := Returns "synthesis" |}.

(** A processor that yields two chunks, with topics extracted. *)
Definition stub_accepts : Collaborators :=
  {| aembed_query := @aembed_query stub;
     cosine_similarity := @cosine_similarity stub;
     process_pdf_enhanced path contents :=
       Returns ([chunk path 0 "c0"; chunk path 1 "c1"], info []);
     extract_key_topics text := Returns ["cancer"];
     answer_with_citations := @answer_with_citations stub;
     build_index := @build_index stub;
     index_search := @index_search stub;
     ainvoke := @ainvoke stub;
     setup_qa_chain_error := @setup_qa_chain_error stub;
     qa_chain_after_error := @qa_chain_after_error stub |}.

(** The same with an index construction that raises. *)
Definition stub_build_fails : Collaborators :=
  {| aembed_query := @aembed_query stub;
     cosine_similarity := @cosine_similarity stub;
     process_pdf_enhanced := @process_pdf_enhanced stub_accepts;
     extract_key_topics := @extract_key_topics stub_accepts;
     answer_with_citations := @answer_with_citations stub;
     build_index docs := Raised "embedding service unavailable";
     index_search := @index_search stub;
     ainvoke := @ainvoke stub;
     setup_qa_chain_error := @setup_qa_chain_error stub;
     qa_chain_after_error := @qa_chain_after_error stub |}.

(** The same as [stub_accepts] with a set-up of the chain that raises,
    leaving the chain it found. *)
Definition stub_setup_fails : Collaborators :=
  {| aembed_query := @aembed_query stub;
     cosine_similarity := @cosine_similarity stub;
     process_pdf_enhanced := @process_pdf_enhanced stub_accepts;
     extract_key_topics := @extract_key_topics stub_accepts;
     answer_with_citations := @answer_with_citations stub;
     build_index := @build_index stub;
     index_search := @index_search stub;
     ainvoke := @ainvoke stub;
     setup_qa_chain_error e := Some "no language model";
     qa_chain_after_error e := qa_chain e |}.

(** A document of three chunks, each of similarity 0.1 to every
    sentence. *)
Definition three_tenths : State :=
  {| fs := disk_of ["T"];
     processed_documents :=
       [("T", [chunk "T" 0 "c3"; chunk "T" 1 "c3"; chunk "T" 2 "c3"])];
     document_sections := [("T", info [])];
     rage_engine := no_engine |}.

(** An embedder that fails on the chunk "c2". *)
Definition stub_embed_fails : Collaborators :=
  {| aembed_query text :=
       if String.eqb text "c2" then Raised "rate limit"
       else Returns [embed_table text];
     cosine_similarity := @cosine_similarity stub;
     process_pdf_enhanced := @process_pdf_enhanced stub;
     extract_key_topics := @extract_key_topics stub;
     answer_with_citations := @answer_with_citations stub;
     build_index := @build_index stub;
     index_search := @index_search stub;
     ainvoke := @ainvoke stub;
     setup_qa_chain_error := @setup_qa_chain_error stub;
     qa_chain_after_error := @qa_chain_after_error stub |}.

Definition empty_upload : UploadFile :=
  {| uf_filename := Some "paper.pdf"; uf_contents := [] |}.

Definition sectioned : DocInfo :=
  {| sections := [("Abstract", "a"); ("Results and Methods", "r");
                  ("METHODS", "m"); ("Key Findings", "f")];
     title := Some "A paper"; creation_date := None;
     topics := Some ["cancer"]; chunking_method := None |}.

Definition with_sections : State :=
  {| fs := disk_of ["a.pdf"];
     processed_documents := [("a.pdf", a_chunks)];
     document_sections := [("a.pdf", sectioned)];
     rage_engine := engine_of a_chunks |}.

End Fixture2.

(** * Properties of the containers *)

Module PyDictFacts.
Import PyDict.

Section facts.
Context {V : Type}.
Implicit Types (d : dict V) (k : string) (v : V).

Lemma get_set_eq k v d : get k (set k v d) = Some v.
Proof.
  induction d as [|[k' v'] d IH]; simpl.
  - by rewrite String.eqb_refl.
  - destruct (String.eqb k k') eqn:E; simpl; rewrite ?String.eqb_refl, ?E; done.
Qed.

Lemma get_set_ne k k' v d : k ≠ k' → get k' (set k v d) = get k' d.
Proof.
  intros Hne. induction d as [|[k0 v0] d IH]; simpl.
  - destruct (String.eqb k' k) eqn:E; [|done].
    apply String.eqb_eq in E. congruence.
  - destruct (String.eqb k k0) eqn:E; simpl.
    + apply String.eqb_eq in E. subst k0.
      destruct (String.eqb k' k) eqn:E'; [|done].
      apply String.eqb_eq in E'. congruence.
    + by rewrite IH.
Qed.

Lemma get_Some_elem k v d : get k d = Some v → (k, v) ∈ d.
Proof.
  induction d as [|[k' v'] d IH]; simpl; [done|].
  destruct (String.eqb k k') eqn:E.
  - apply String.eqb_eq in E. intros Hv. injection Hv as Hv.
    rewrite E, Hv. left.
  - intros H. right. auto.
Qed.

Lemma get_None_keys k d : get k d = None ↔ k ∉ keys d.
Proof.
  induction d as [|[k' v'] d IH]; simpl.
  - split; [intros _; apply not_elem_of_nil|done].
  - destruct (String.eqb k k') eqn:E.
    + apply String.eqb_eq in E. subst. split; [done|].
      intros H. exfalso. apply H. left.
    + apply String.eqb_neq in E. rewrite IH. rewrite not_elem_of_cons.
      tauto.
Qed.

Lemma elem_get k v d : wf d → (k, v) ∈ d → get k d = Some v.
Proof.
  unfold wf. induction d as [|[k' v'] d IH]; simpl.
  - intros _ H. by apply elem_of_nil in H.
  - intros Hnd Hin. apply NoDup_cons in Hnd as [Hk Hnd].
    apply elem_of_cons in Hin as [[= -> ->]|Hin].
    + by rewrite String.eqb_refl.
    + destruct (String.eqb k k') eqn:E; [|auto].
      apply String.eqb_eq in E. subst k'. exfalso. apply Hk.
      apply list_elem_of_fmap. by exists (k, v).
Qed.

Lemma del_absent k d : get k d = None → del k d = d.
Proof.
  induction d as [|[k' v'] d IH]; simpl; [done|].
  destruct (String.eqb k k'); [done|]. intros H. by rewrite IH.
Qed.

Lemma keys_del_sub k d : keys (del k d) ⊆ keys d.
Proof.
  induction d as [|[k' v'] d IH]; simpl; [done|].
  destruct (String.eqb k k'); simpl.
  - intros x Hx. by right.
  - intros x Hx. apply elem_of_cons in Hx as [->|Hx]; [left|right; auto].
Qed.

Lemma wf_del k d : wf d → wf (del k d).
Proof.
  unfold wf. induction d as [|[k' v'] d IH]; simpl; [done|].
  intros Hnd. apply NoDup_cons in Hnd as [Hk Hnd].
  destruct (String.eqb k k'); simpl; [done|].
  apply NoDup_cons. split; [|auto].
  intros Hin. apply Hk. by apply (keys_del_sub k d).
Qed.

Lemma get_del_eq k d : wf d → get k (del k d) = None.
Proof.
  unfold wf. induction d as [|[k' v'] d IH]; simpl; [done|].
  intros Hnd. apply NoDup_cons in Hnd as [Hk Hnd].
  destruct (String.eqb k k') eqn:E; simpl.
  - apply String.eqb_eq in E. subst. by apply get_None_keys.
  - rewrite E. auto.
Qed.

Lemma get_del_ne k k' d : k ≠ k' → get k' (del k d) = get k' d.
Proof.
  intros Hne. induction d as [|[k0 v0] d IH]; simpl; [done|].
  destruct (String.eqb k k0) eqn:E; simpl.
  - apply String.eqb_eq in E. subst k0.
    destruct (String.eqb k' k) eqn:E'; [|done].
    apply String.eqb_eq in E'. congruence.
  - by rewrite IH.
Qed.
End facts.

End PyDictFacts.

(** * Properties of the descending stable sort *)

Module PySortFacts.
Import PySort.

Section facts.
Context {A : Type} (key : A -> Q).
Implicit Types (x y : A) (l : list A).

Lemma insert_desc_perm x l : insert_desc key x l ≡ₚ x :: l.
Proof.
  induction l as [|y l IH]; simpl; [done|].
  destruct (Qlt_le_dec (key x) (key y)); [|done].
  rewrite IH. apply Permutation_swap.
Qed.

Lemma sort_reverse_perm l : sort_reverse key l ≡ₚ l.
Proof.
  induction l as [|x l IH]; simpl; [done|].
  unfold sort_reverse in *. simpl. rewrite insert_desc_perm. by rewrite IH.
Qed.

Lemma sort_reverse_length l : length (sort_reverse key l) = length l.
Proof. apply Permutation_length, sort_reverse_perm. Qed.

Lemma sort_reverse_elem x l : x ∈ sort_reverse key l ↔ x ∈ l.
Proof. by rewrite sort_reverse_perm. Qed.

Lemma desc_trans x y z : desc key x y → desc key y z → desc key x z.
Proof. unfold desc. intros. by apply Qle_trans with (key y). Qed.

Lemma insert_desc_sorted x l :
  StronglySorted (desc key) l → StronglySorted (desc key) (insert_desc key x l).
Proof.
  induction 1 as [|y l Hs IH Hall]; simpl.
  - repeat constructor.
  - destruct (Qlt_le_dec (key x) (key y)) as [Hlt|Hle].
    + constructor; [done|].
      apply Forall_forall. intros z Hz.
      rewrite insert_desc_perm in Hz. apply elem_of_cons in Hz as [->|Hz].
      * unfold desc. by apply Qlt_le_weak.
      * by eapply Forall_forall in Hall.
    + constructor; [by constructor|].
      constructor; [done|].
      eapply Forall_impl; [exact Hall|].
      intros z Hz. by apply desc_trans with y.
Qed.

Lemma sort_reverse_sorted l : StronglySorted (desc key) (sort_reverse key l).
Proof.
  induction l as [|x l IH]; simpl; [constructor|].
  by apply insert_desc_sorted.
Qed.

(** Stability: the elements of any one key keep their order. *)
Lemma insert_desc_with_key v x l :
  with_key key v (insert_desc key x l) = with_key key v (x :: l).
Proof.
  induction l as [|y l IH]; simpl; [done|].
  destruct (Qlt_le_dec (key x) (key y)) as [Hlt|Hle]; [|done].
  simpl in *. rewrite IH.
  destruct (Qeq_bool (key x) v) eqn:Ex; [|done].
  destruct (Qeq_bool (key y) v) eqn:Ey; [|done].
  apply Qeq_bool_iff in Ex, Ey. exfalso.
  rewrite Ex, Ey in Hlt. by apply Qlt_irrefl in Hlt.
Qed.

Lemma sort_reverse_stable v l :
  with_key key v (sort_reverse key l) = with_key key v l.
Proof.
  induction l as [|x l IH]; simpl; [done|].
  unfold sort_reverse in *. simpl. rewrite insert_desc_with_key.
  simpl. by rewrite IH.
Qed.

(** Whatever is cut off by [take n] scores no more than what is kept. *)
Lemma take_sorted_dominates n l x y :
  StronglySorted (desc key) l → x ∈ take n l → y ∈ drop n l →
  (key y <= key x)%Q.
Proof.
  intros Hs. revert n. induction Hs as [|z l Hs IH Hall]; intros n Hx Hy.
  - rewrite take_nil in Hx. by apply elem_of_nil in Hx.
  - destruct n as [|n]; simpl in *; [by apply elem_of_nil in Hx|].
    apply elem_of_cons in Hx as [->|Hx]; [|by eapply IH].
    eapply Forall_forall in Hall; [exact Hall|].
    by eapply subseteq_drop.
Qed.

End facts.

End PySortFacts.

(** * The file system *)

Section disk.
Implicit Types (disk : FileSystem) (k : list string) (path : string).

Lemma kind_of_root disk : kind_of disk [] = Some Directory.
Proof. reflexivity. Qed.

Lemma entry_at_remove k0 k es :
  entry_at k (remove_entry k0 es) =
    if decide (k = k0) then None else entry_at k es.
Proof.
  induction es as [|[k' kind] es IH]; simpl; [by destruct (decide _)|].
  destruct (decide (k0 = k')) as [<-|Hne]; simpl.
  - rewrite IH. destruct (decide (k = k0)); [done|]. done.
  - rewrite IH. destruct (decide (k = k')) as [->|]; [|done].
    by rewrite decide_False.
Qed.

Lemma remove_entry_idemp k es :
  remove_entry k (remove_entry k es) = remove_entry k es.
Proof.
  induction es as [|[k' kind] es IH]; simpl; [done|].
  destruct (decide (k = k')) as [<-|Hne]; simpl; [done|].
  rewrite decide_False by done. by rewrite IH.
Qed.

Lemma kind_of_unlink k0 disk k :
  kind_of disk k0 = Some RegularFile →
  kind_of (unlink k0 disk) k = if decide (k = k0) then None else kind_of disk k.
Proof.
  intros Hk0. destruct k as [|c k].
  - destruct k0; [discriminate Hk0|]. by rewrite decide_False.
  - apply (entry_at_remove k0 (c :: k) (entries disk)).
Qed.

Lemma kind_of_write k0 disk k :
  kind_of disk k0 ≠ Some Directory →
  kind_of (write k0 disk) k =
    if decide (k = k0) then Some RegularFile else kind_of disk k.
Proof.
  intros Hk0. destruct k as [|c k].
  - destruct k0; [done|]. by rewrite decide_False.
  - change (kind_of (write k0 disk) (c :: k))
      with (if decide (c :: k = k0) then Some RegularFile
            else entry_at (c :: k) (remove_entry k0 (entries disk))).
    destruct (decide (c :: k = k0)) as [?|Hne]; [done|].
    rewrite entry_at_remove. by rewrite decide_False.
Qed.

Lemma same_dirs_sym disk disk' : same_dirs disk disk' → same_dirs disk' disk.
Proof. intros [Hc Hd]. split; [done|]. intros k. by rewrite Hd. Qed.

(** Removing a regular file and writing one change no directory. *)
Lemma same_dirs_unlink k0 disk :
  kind_of disk k0 = Some RegularFile → same_dirs disk (unlink k0 disk).
Proof.
  intros Hk0. split; [done|]. intros k. rewrite kind_of_unlink by done.
  destruct (decide (k = k0)) as [->|]; [|done].
  rewrite Hk0. split; discriminate.
Qed.

Lemma same_dirs_write k0 disk :
  kind_of disk k0 ≠ Some Directory → same_dirs disk (write k0 disk).
Proof.
  intros Hk0. split; [done|]. intros k. rewrite kind_of_write by done.
  destruct (decide (k = k0)) as [->|]; [|done].
  split; [done|discriminate].
Qed.

Lemma walk_same_dirs disk disk' cur components k :
  same_dirs disk disk' →
  walk disk cur components = At k → walk disk' cur components = At k.
Proof.
  intros [_ Hd]. revert cur.
  induction components as [|c rest IH]; intros cur; simpl; [done|].
  destruct (kind_of disk cur) as [[]|] eqn:Hk; try discriminate.
  apply Hd in Hk. rewrite Hk.
  destruct (String.eqb c EmptyString || String.eqb c "."); [apply IH|].
  destruct (String.eqb c ".."); apply IH.
Qed.

Lemma resolve_same_dirs disk disk' path k :
  same_dirs disk disk' →
  resolve disk path = At k → resolve disk' path = At k.
Proof.
  intros Hs. unfold resolve. destruct path as [|c path]; [done|].
  destruct Hs as [Hc Hd]. rewrite <- Hc. by apply walk_same_dirs.
Qed.

Lemma is_file_resolved path disk :
  is_file path disk = true ↔
  ∃ k, resolve disk path = At k ∧ kind_of disk k = Some RegularFile.
Proof.
  unfold is_file. destruct (resolve disk path) as [k|e].
  - destruct (kind_of disk k) as [[]|] eqn:Hk; split;
      try discriminate; try (intros (k' & [= <-] & Hk'); congruence).
    intros _. by exists k.
  - split; [discriminate|]. by intros (k & ? & _).
Qed.

Lemma is_dir_resolved path disk :
  is_dir path disk = true ↔
  ∃ k, resolve disk path = At k ∧ kind_of disk k = Some Directory.
Proof.
  unfold is_dir. destruct (resolve disk path) as [k|e].
  - destruct (kind_of disk k) as [[]|] eqn:Hk; split;
      try discriminate; try (intros (k' & [= <-] & Hk'); congruence).
    intros _. by exists k.
  - split; [discriminate|]. by intros (k & ? & _).
Qed.

(** A path exists when it names a regular file or a directory. *)
Lemma path_exists_kinds path disk :
  path_exists path disk = is_file path disk || is_dir path disk.
Proof.
  unfold path_exists, is_file, is_dir.
  destruct (resolve disk path) as [k|e]; [|done].
  by destruct (kind_of disk k) as [[]|].
Qed.

Lemma is_file_exists path disk :
  is_file path disk = true → path_exists path disk = true.
Proof. rewrite path_exists_kinds. by intros ->. Qed.

Lemma is_file_not_dir path disk :
  is_file path disk = true → is_dir path disk = false.
Proof.
  unfold is_file, is_dir. destruct (resolve disk path) as [k|e]; [|done].
  by destruct (kind_of disk k) as [[]|].
Qed.

Lemma os_remove_file path disk k :
  resolve disk path = At k → kind_of disk k = Some RegularFile →
  os_remove path disk = Returns (unlink k disk).
Proof. unfold os_remove. by intros -> ->. Qed.

Lemma os_remove_inv path disk disk' :
  os_remove path disk = Returns disk' →
  ∃ k, resolve disk path = At k ∧ kind_of disk k = Some RegularFile ∧
       disk' = unlink k disk.
Proof.
  unfold os_remove. destruct (resolve disk path) as [k|e]; [|done].
  destruct (kind_of disk k) as [[]|] eqn:Hk; try done.
  intros [= <-]. by exists k.
Qed.

(** [os.remove] raises for a directory. *)
Lemma os_remove_dir path disk :
  is_dir path disk = true →
  os_remove path disk = Raised (os_error EISDIR path).
Proof.
  intros (k & Hr & Hk)%is_dir_resolved. unfold os_remove. by rewrite Hr, Hk.
Qed.

(** Once removed, the file is gone. *)
Lemma path_exists_unlink path disk k :
  resolve disk path = At k → kind_of disk k = Some RegularFile →
  path_exists path (unlink k disk) = false.
Proof.
  intros Hr Hk. unfold path_exists.
  rewrite (resolve_same_dirs disk (unlink k disk) path k)
    by (by try apply same_dirs_unlink).
  rewrite kind_of_unlink by done. by rewrite decide_True.
Qed.

(** The two ways [open] ends. *)
Lemma open_write_cases path disk :
  (∃ msg, open_write path disk = Raised msg ∧
          is_file path disk = false ∧
          path_exists path disk = is_dir path disk) ∨
  (∃ k, resolve disk path = At k ∧ kind_of disk k ≠ Some Directory ∧
        open_write path disk = Returns (write k disk)).
Proof.
  unfold open_write, is_file, path_exists, is_dir.
  destruct (resolve disk path) as [k|e]; [|left; by eexists].
  destruct (kind_of disk k) as [[]|] eqn:Hk.
  - right. exists k. by rewrite Hk.
  - left. by eexists.
  - right. exists k. by rewrite Hk.
Qed.

(** What is true of the disk once a file has been written. *)
Lemma written path disk k :
  resolve disk path = At k → kind_of disk k ≠ Some Directory →
  resolve (write k disk) path = At k ∧
  kind_of (write k disk) k = Some RegularFile ∧
  path_exists path (write k disk) = true ∧
  is_file path (write k disk) = true.
Proof.
  intros Hr Hk.
  assert (Hr' : resolve (write k disk) path = At k)
    by (eapply resolve_same_dirs; [by apply same_dirs_write|done]).
  assert (Hk' : kind_of (write k disk) k = Some RegularFile)
    by (rewrite kind_of_write by done; by rewrite decide_True).
  unfold path_exists, is_file. by rewrite Hr', Hk'.
Qed.

Lemma unlink_write k disk : unlink k (write k disk) = unlink k disk.
Proof.
  unfold unlink, write. simpl. rewrite decide_True by done.
  by rewrite remove_entry_idemp.
Qed.

Lemma cleanup_upload_written path disk k :
  resolve disk path = At k → kind_of disk k ≠ Some Directory →
  cleanup_upload path (write k disk) = unlink k disk.
Proof.
  intros Hr Hk. destruct (written path disk k Hr Hk) as (Hr' & Hk' & _).
  unfold cleanup_upload.
  by rewrite (os_remove_file _ _ k), unlink_write.
Qed.

(** After the clean-up of a failed save the path exists only if it is a
    directory, which [os.remove] does not remove. *)
Lemma cleanup_partial_exists path disk :
  path_exists path (cleanup_partial path disk) = is_dir path disk ∧
  is_file path (cleanup_partial path disk) = false.
Proof.
  unfold cleanup_partial.
  destruct (path_exists path disk) eqn:Hex.
  2:{ rewrite Hex. rewrite path_exists_kinds in Hex.
      apply orb_false_elim in Hex as [Hf Hd]. by rewrite Hf, Hd. }
  rewrite path_exists_kinds in Hex.
  destruct (is_file path disk) eqn:Hf.
  - apply is_file_resolved in Hf as (k & Hr & Hk).
    rewrite (os_remove_file _ _ k) by done.
    pose proof (path_exists_unlink _ _ _ Hr Hk) as Hgone.
    rewrite Hgone. rewrite path_exists_kinds in Hgone.
    apply orb_false_elim in Hgone as [Hf' _].
    split; [|done]. symmetry. apply is_file_not_dir, is_file_resolved.
    by exists k.
  - simpl in Hex. rewrite os_remove_dir by done.
    by rewrite path_exists_kinds, Hf, Hex.
Qed.
End disk.

(** * Deletion and upload *)

Section corpus.
Context `{Collaborators}.
Import PyDict PyDictFacts.

(** The corpus map after the deletion step of [delete_file]. *)
Lemma delete_entry filename (pd : dict (list Document)) :
  (if mem filename pd then del filename pd else pd) = del filename pd.
Proof.
  unfold mem. destruct (get filename pd) eqn:E; [done|].
  by rewrite del_absent.
Qed.

(** The update block: with a chunk left, an update without a warning has
    installed a store over exactly the chunks of the corpus. *)
Lemma update_vector_store_built e pd e' :
  all_processed_documents pd ≠ [] →
  update_vector_store e pd = (e', None) →
  ∃ ix, build_index (all_processed_documents pd) = Returns ix ∧
        vector_store e' =
          Some {| index := ix; docstore := all_processed_documents pd |} ∧
        qa_chain e' = vector_store e'.
Proof.
  unfold update_vector_store, create_vector_store_from_documents,
    setup_qa_chain.
  destruct (all_processed_documents pd) as [|doc docs] eqn:E; [done|].
  intros _. simpl. destruct (build_index (doc :: docs)) as [ix|msg]; simpl.
  - destruct (setup_qa_chain_error _); [done|].
    intros [= <-]. by exists ix.
  - done.
Qed.

Lemma update_vector_store_empty e pd :
  all_processed_documents pd = [] → update_vector_store e pd = (e, None).
Proof. unfold update_vector_store. by intros ->. Qed.

(** An update with a warning: the index construction raised and the
    engine is as before, or the store was replaced and the set-up of the
    chain raised. *)
Lemma update_vector_store_warned e pd e' msg :
  update_vector_store e pd = (e', Some msg) →
  (build_index (all_processed_documents pd) = Raised msg ∧ e' = e) ∨
  (∃ ix e1,
     build_index (all_processed_documents pd) = Returns ix ∧
     create_vector_store_from_documents e (all_processed_documents pd)
       = Returns e1 ∧
     setup_qa_chain_error e1 = Some msg ∧
     vector_store e' =
       Some {| index := ix; docstore := all_processed_documents pd |} ∧
     qa_chain e' = qa_chain_after_error e1).
Proof.
  unfold update_vector_store, create_vector_store_from_documents,
    setup_qa_chain.
  destruct (all_processed_documents pd) as [|doc docs] eqn:E; [done|].
  destruct (build_index (doc :: docs)) as [ix|m]; simpl.
  - destruct (setup_qa_chain_error _) as [m|] eqn:Es; [|done].
    intros [= <- <-]. right. eexists ix, _. by repeat split.
  - intros [= <- <-]. by left.
Qed.

(** When the index construction raises, the update ends with its message
    and the engine as it was. *)
Lemma update_vector_store_build_raises e pd msg :
  all_processed_documents pd ≠ [] →
  build_index (all_processed_documents pd) = Raised msg →
  update_vector_store e pd = (e, Some msg).
Proof.
  unfold update_vector_store, create_vector_store_from_documents.
  destruct (all_processed_documents pd) as [|doc docs]; [done|].
  by intros _ ->.
Qed.

(** The shape of every answer of [delete_file] for a regular file. *)
Lemma delete_file_present filename s k :
  resolve (fs s) (path_join UPLOAD_DIR filename) = At k →
  kind_of (fs s) k = Some RegularFile →
  ∃ e' reply,
    delete_file filename s =
      ({| fs := unlink k (fs s);
          processed_documents := del filename (processed_documents s);
          document_sections := document_sections s;
          rage_engine := e' |}, OK reply) ∧
    update_vector_store (rage_engine s) (del filename (processed_documents s))
      = (e', del_warning reply).
Proof.
  intros Hr Hk. unfold delete_file.
  rewrite is_file_exists by (apply is_file_resolved; by exists k). simpl.
  rewrite (os_remove_file _ _ k) by done. rewrite delete_entry.
  destruct (update_vector_store _ _) as [e' warning].
  by eexists _, _.
Qed.

(** An answered deletion found a regular file at the path. *)
Lemma delete_file_ok_file filename s s' reply :
  delete_file filename s = (s', OK reply) →
  ∃ k, resolve (fs s) (path_join UPLOAD_DIR filename) = At k ∧
       kind_of (fs s) k = Some RegularFile.
Proof.
  unfold delete_file.
  destruct (path_exists _ (fs s)); [|done]. simpl.
  destruct (os_remove _ (fs s)) as [files|msg] eqn:Hrm; [|done].
  apply os_remove_inv in Hrm as (k & Hr & Hk & _). intros _. by exists k.
Qed.

(** C10, as the code has it. Deletion is judged by what is on disk at
    the upload path, not by corpus membership.  When nothing exists at the
    path, [delete_file] answers 404 and changes nothing, whether or not
    the corpus holds a record for the name.  When the path names a regular
    file and the corpus has no record for the name, the deletion
    succeeds: the file is removed and the two maps are left as they were.
    When the path names a directory, as it does for the empty name and
    for ".", the deletion answers neither 404 nor success: [os.remove]
    raises, the answer is 500 and nothing is changed. *)
Theorem delete_file_judged_by_disk filename s :
  (path_exists (path_join UPLOAD_DIR filename) (fs s) = false →
   delete_file filename s = (s, HTTPException 404 "File not found")) ∧
  (is_file (path_join UPLOAD_DIR filename) (fs s) = true →
   get filename (processed_documents s) = None →
   ∃ s' reply,
     delete_file filename s = (s', OK reply) ∧
     path_exists (path_join UPLOAD_DIR filename) (fs s') = false ∧
     (∃ k, resolve (fs s) (path_join UPLOAD_DIR filename) = At k ∧
           fs s' = unlink k (fs s)) ∧
     processed_documents s' = processed_documents s ∧
     document_sections s' = document_sections s) ∧
  (is_dir (path_join UPLOAD_DIR filename) (fs s) = true →
   delete_file filename s =
     (s, HTTPException 500
           ("Error deleting file: " +:+
            os_error EISDIR (path_join UPLOAD_DIR filename)))).
Proof.
  split; [|split].
  - intros Hno. unfold delete_file. by rewrite Hno.
  - intros (k & Hr & Hk)%is_file_resolved Hnone.
    destruct (delete_file_present filename s k Hr Hk) as (e' & reply & -> & _).
    eexists _, _. split; [reflexivity|]. simpl.
    rewrite path_exists_unlink, del_absent by done.
    split; [done|]. split; [by exists k|done].
  - intros Hdir. unfold delete_file.
    rewrite path_exists_kinds, Hdir, orb_true_r. simpl.
    by rewrite os_remove_dir.
Qed.

(** C1, as the code has it. For every deletion answered without a
    warning: when a chunk is left in the corpus, the live index is
    rebuilt from exactly the chunks of the documents remaining after the
    removal, in corpus order, and the chain is set up over it; when no
    chunk is left, nothing is rebuilt and the engine, with its previous
    index, stays as it was. *)
Theorem delete_file_rebuilds filename s s' reply :
  delete_file filename s = (s', OK reply) →
  del_warning reply = None →
  processed_documents s' = del filename (processed_documents s) ∧
  (all_processed_documents (processed_documents s') ≠ [] →
   index_reflects_corpus s' ∧
   ∃ ix,
     build_index (all_processed_documents (processed_documents s'))
       = Returns ix ∧
     vector_store (rage_engine s') =
       Some {| index := ix;
               docstore := all_processed_documents (processed_documents s') |} ∧
     qa_chain (rage_engine s') = vector_store (rage_engine s')) ∧
  (all_processed_documents (processed_documents s') = [] →
   rage_engine s' = rage_engine s).
Proof.
  intros Hdel Hwarn.
  destruct (delete_file_ok_file _ _ _ _ Hdel) as (k & Hr & Hk).
  destruct (delete_file_present filename s k Hr Hk) as (e' & r & Heq & Hupd).
  rewrite Heq in Hdel. injection Hdel as <- <-. simpl.
  rewrite Hwarn in Hupd. split; [done|]. split.
  - intros Hne.
    destruct (update_vector_store_built _ _ _ Hne Hupd) as (ix & Hix & Hvs & Hqa).
    split; [|by exists ix].
    unfold index_reflects_corpus. simpl. by rewrite Hvs.
  - intros Hnil. rewrite update_vector_store_empty in Hupd by done. congruence.
Qed.

(** A deletion whose rebuild succeeds is answered without a warning. *)
Lemma delete_file_succeeds filename s e' :
  is_file (path_join UPLOAD_DIR filename) (fs s) = true →
  update_vector_store (rage_engine s) (del filename (processed_documents s))
    = (e', None) →
  ∃ s', delete_file filename s =
          (s', OK {| del_message := "File deleted successfully";
                     del_warning := None |}).
Proof.
  intros (k & Hr & Hk)%is_file_resolved Hupd. unfold delete_file.
  rewrite is_file_exists by (apply is_file_resolved; by exists k). simpl.
  rewrite (os_remove_file _ _ k) by done. rewrite delete_entry, Hupd.
  by eexists.
Qed.
End corpus.

Section upload.
Context `{Collaborators}.
Import PyDict.

(** A failed processor call leaves the block before anything is stored. *)
Lemma process_upload_raises filename file_path contents s :
  pdf_processing_raises file_path contents = true →
  ∃ msg, process_upload filename file_path contents s = (s, Raised msg).
Proof.
  unfold pdf_processing_raises, process_upload.
  destruct (process_pdf_enhanced file_path contents) as [[[|doc docs] i]|msg];
    intros Hr; try discriminate; by eexists.
Qed.

(** When the processor raises, or extracts nothing, for a file that has
    been saved, the saved file is removed from disk, no entry is added to
    the processed-documents map or to the document-sections map, the
    engine is untouched, and the request fails with status 500. *)
Lemma upload_pdf_processing_failure timestamp file name s :
  uf_filename file = Some name →
  (0 <? String.length name)%nat = true →
  endswith name ".pdf" = true →
  uf_contents file ≠ [] →
  is_dir (path_join UPLOAD_DIR (timestamp +:+ "_" +:+ name)) (fs s) = false →
  pdf_processing_raises
    (path_join UPLOAD_DIR (timestamp +:+ "_" +:+ name)) (uf_contents file)
    = true →
  ∃ s' detail,
    upload_pdf timestamp file s = (s', HTTPException 500 detail) ∧
    path_exists (path_join UPLOAD_DIR (timestamp +:+ "_" +:+ name)) (fs s')
      = false ∧
    processed_documents s' = processed_documents s ∧
    document_sections s' = document_sections s ∧
    rage_engine s' = rage_engine s.
Proof.
  intros Hname Hlen Hpdf Hcont Hnodir Hraise. unfold upload_pdf.
  rewrite Hname, Hlen, Hpdf. simpl.
  destruct (uf_contents file) as [|b bs] eqn:Eb; [done|].
  set (path := path_join UPLOAD_DIR (timestamp +:+ "_" +:+ name)) in *.
  destruct (open_write_cases path (fs s)) as [(msg & -> & _ & Hex)|(k & Hr & Hk & ->)].
  - eexists _, _. split; [reflexivity|]. simpl. split; [|done].
    destruct (cleanup_partial_exists path (fs s)) as [-> _]. done.
  - destruct (written path (fs s) k Hr Hk) as (Hr' & Hk' & -> & _).
    destruct (process_upload_raises (timestamp +:+ "_" +:+ name) path (b :: bs)
                (with_fs (write k (fs s)) s) Hraise) as [msg ->].
    eexists _, _. split; [reflexivity|]. simpl.
    rewrite cleanup_upload_written by done. split; [|done].
    rewrite <- unlink_write. by apply path_exists_unlink.
Qed.
End upload.

(** * Deletion and upload on the sample states *)

Section corpus_examples.
Import Fixture.

Lemma delete_file_judged_by_disk_witness :
  @delete_file stub "a.pdf" record_without_file =
    (record_without_file, HTTPException 404 "File not found") ∧
  (∃ s' reply,
    @delete_file stub "orphan.pdf" record_without_file = (s', OK reply) ∧
    path_exists (path_join UPLOAD_DIR "orphan.pdf") (fs s') = false ∧
    (∃ k, resolve (fs record_without_file) (path_join UPLOAD_DIR "orphan.pdf")
            = At k ∧
          fs s' = unlink k (fs record_without_file)) ∧
    processed_documents s' = processed_documents record_without_file ∧
    document_sections s' = document_sections record_without_file) ∧
  @delete_file stub "." record_without_file =
    (record_without_file,
     HTTPException 500
       ("Error deleting file: " +:+ os_error EISDIR (path_join UPLOAD_DIR "."))).
Proof.
  split; [|split].
  - apply (proj1 (@delete_file_judged_by_disk stub "a.pdf" record_without_file)).
    vm_compute. reflexivity.
  - apply (proj1 (proj2 (@delete_file_judged_by_disk stub "orphan.pdf"
                           record_without_file))); vm_compute; reflexivity.
  - apply (proj2 (proj2 (@delete_file_judged_by_disk stub "."
                           record_without_file))); vm_compute; reflexivity.
Defined.

(** The empty name is joined to the path of the uploads directory itself,
    which exists and for which the corpus has no record: the deletion
    answers neither 404 nor success, but 500, and nothing is removed. *)
Lemma delete_file_of_directory :
  path_join UPLOAD_DIR EmptyString = "uploads/" ∧
  path_exists (path_join UPLOAD_DIR EmptyString) (fs Fixture.one_document)
    = true ∧
  PyDict.get EmptyString (processed_documents one_document) = None ∧
  @delete_file stub EmptyString one_document =
    (one_document,
     HTTPException 500
       "Error deleting file: [Errno 21] Is a directory: 'uploads/'").
Proof. repeat split; vm_compute; reflexivity. Qed.

(** Deleting the only document answers success, empties the corpus and
    leaves the index built over the deleted document's chunk. *)
Lemma delete_last_document_keeps_index :
  ∃ s',
    @delete_file stub "a.pdf" one_document =
      (s', OK {| del_message := "File deleted successfully";
                 del_warning := None |}) ∧
    processed_documents s' = [] ∧
    option_map docstore (vector_store (rage_engine s')) = Some a_chunks ∧
    ¬ index_reflects_corpus s'.
Proof.
  eexists. split; [vm_compute; reflexivity|].
  split; [reflexivity|]. split; [reflexivity|].
  unfold index_reflects_corpus. simpl. discriminate.
Qed.

Lemma delete_file_rebuilds_witness :
  ∃ s' reply,
    @delete_file stub "a.pdf" two_documents = (s', OK reply) ∧
    processed_documents s' = [("b.pdf", b_chunks)] ∧
    index_reflects_corpus s' ∧
    option_map docstore (vector_store (rage_engine s')) = Some b_chunks.
Proof.
  destruct (@delete_file stub "a.pdf" two_documents) as [s' [reply|st dt]] eqn:E;
    [|vm_compute in E; discriminate].
  exists s', reply. split; [reflexivity|].
  assert (Hw : del_warning reply = None)
    by (vm_compute in E; injection E as _ <-; reflexivity).
  destruct (@delete_file_rebuilds stub "a.pdf" two_documents s' reply E Hw)
    as (Hpd & Hbuilt & _).
  assert (Hpd' : processed_documents s' = [("b.pdf", b_chunks)])
    by (rewrite Hpd; reflexivity).
  split; [exact Hpd'|].
  assert (Hne : all_processed_documents (processed_documents s') ≠ [])
    by (rewrite Hpd'; discriminate).
  destruct (Hbuilt Hne) as [Hrefl _]. split; [exact Hrefl|].
  unfold index_reflects_corpus in Hrefl. rewrite Hrefl, Hpd'. reflexivity.
Defined.

(** C9. The topic extraction runs in the same [try] block as the PDF
    processor, after the two maps have been written.  When it raises for
    a valid, non-empty upload whose chunks the processor has extracted,
    the request fails with "Error processing PDF" and the saved file is
    removed, but the entries stored for the file name stay in both maps:
    the corpus is left with a record whose file is gone, and which
    [delete_file] answers with 404. *)
Theorem upload_topic_failure_keeps_entries :
  ∃ s',
    @upload_pdf stub_topics_fail "20250101_120000" pdf_upload empty_state
      = (s', HTTPException 500
               "Error processing PDF: topic extraction failed") ∧
    path_exists (path_join UPLOAD_DIR "20250101_120000_paper.pdf") (fs s')
      = false ∧
    PyDict.mem "20250101_120000_paper.pdf" (processed_documents empty_state)
      = false ∧
    PyDict.mem "20250101_120000_paper.pdf" (processed_documents s') = true ∧
    PyDict.mem "20250101_120000_paper.pdf" (document_sections s') = true ∧
    @delete_file stub_topics_fail "20250101_120000_paper.pdf" s' =
      (s', HTTPException 404 "File not found").
Proof.
  eexists. split; [vm_compute; reflexivity|].
  repeat split; vm_compute; reflexivity.
Qed.

(** The sibling failure: the processor itself rejects the file, and
    nothing is stored. *)
Lemma upload_pdf_processing_failure_example :
  ∃ s' detail,
    @upload_pdf stub "20250101_120000" pdf_upload one_document
      = (s', HTTPException 500 detail) ∧
    path_exists
      (path_join UPLOAD_DIR ("20250101_120000" +:+ "_" +:+ "paper.pdf"))
      (fs s') = false ∧
    processed_documents s' = processed_documents one_document ∧
    document_sections s' = document_sections one_document ∧
    rage_engine s' = rage_engine one_document.
Proof.
  apply (@upload_pdf_processing_failure stub "20250101_120000" pdf_upload
           "paper.pdf" one_document); try reflexivity.
  discriminate.
Defined.
End corpus_examples.

(** * Similarity against the chunks of one document *)

Section similarity.
Context `{Collaborators}.
Import PySort PySortFacts.

Lemma score_chunks_spec e chunks sims :
  score_chunks e chunks = Returns sims → Forall2 (scores e) sims chunks.
Proof.
  revert sims. induction chunks as [|doc chunks IH]; simpl; intros sims.
  - intros [= <-]. constructor.
  - destruct (aembed_query (page_content doc)) as [ce|msg] eqn:Ee; [|done].
    simpl. destruct (score_chunks e chunks) as [rest|msg]; [|done].
    simpl. intros [= <-]. constructor; [|by apply IH].
    split; [done|]. by exists ce.
Qed.

Lemma score_chunks_total e chunks :
  (∀ doc, doc ∈ chunks → ∃ ce, aembed_query (page_content doc) = Returns ce) →
  ∃ sims, score_chunks e chunks = Returns sims.
Proof.
  induction chunks as [|doc chunks IH]; simpl; intros Hall; [by eexists|].
  destruct (Hall doc) as [ce ->]; [left|]. simpl.
  destruct IH as [rest ->]; [|by eexists].
  intros d Hd. apply Hall. by right.
Qed.


Lemma scores_similarity e sims chunks (f : Document → Embedding) :
  (∀ doc, aembed_query (page_content doc) = Returns (f doc)) →
  Forall2 (scores e) sims chunks →
  map similarity sims = map (fun doc => cosine_similarity e (f doc)) chunks.
Proof.
  intros Hf. induction 1 as [|c doc sims chunks [_ (ce & Hce & Hs)] _ IH];
    simpl; [done|].
  rewrite Hf in Hce. injection Hce as <-. by rewrite Hs, IH.
Qed.

(** The scenario of the specification: four chunks of similarities
    0.9, 0.4, 0.8 and 0.1.  The three highest are added and divided in
    double precision, which gives the double next above 0.7 whichever
    way the interpreter sums. *)
Lemma top3_scenario `{PythonRuntime} sims :
  map similarity sims = [f0_9; f0_4; f0_8; f0_1] →
  map similarity (take 3 (sort_reverse similarity_value sims))
    = [f0_9; f0_8; f0_4] ∧
  mean_similarity (take 3 (sort_reverse similarity_value sims)) = f0_7_up.
Proof.
  intros Hsims.
  destruct sims as [|[x0 v0 m0] [|[x1 v1 m1] [|[x2 v2 m2] [|[x3 v3 m3] [|? ?]]]]];
    try discriminate Hsims.
  injection Hsims as -> -> -> ->.
  assert (Hsort : take 3 (sort_reverse similarity_value
              [ {| content := x0; similarity := f0_9; sc_metadata := m0 |};
                {| content := x1; similarity := f0_4; sc_metadata := m1 |};
                {| content := x2; similarity := f0_8; sc_metadata := m2 |};
                {| content := x3; similarity := f0_1; sc_metadata := m3 |} ])
            = [ {| content := x0; similarity := f0_9; sc_metadata := m0 |};
                {| content := x2; similarity := f0_8; sc_metadata := m2 |};
                {| content := x1; similarity := f0_4; sc_metadata := m1 |} ])
    by (vm_compute; reflexivity).
  rewrite Hsort. split; [reflexivity|].
  unfold mean_similarity, sum_similarity, float_sum.
  destruct sum_algorithm; vm_compute; reflexivity.
Qed.

(** 0.7000000000000001 is not the double written 0.7, and the two lie on
    either side of the real number 7/10. *)
Lemma f0_7_up_above :
  f0_7_up ≠ f0_7 ∧ (float_to_Q f0_7 < 7 # 10)%Q ∧ (7 # 10 < float_to_Q f0_7_up)%Q.
Proof.
  split; [|split; vm_compute; reflexivity].
  intros Heq. apply (f_equal (PrimFloat.eqb f0_7)) in Heq.
  vm_compute in Heq. discriminate Heq.
Qed.
End similarity.

Section attribution.
Context `{Collaborators} `{PythonRuntime}.
Import PySort PySortFacts.

(** C2, as the code has it. For every sentence and every document of
    the corpus whose chunks the embedder embeds, the explanation handler
    scores each chunk by the cosine similarity of its embedding to the
    sentence's, ranks the scored chunks in descending order of
    similarity, equal similarities keeping chunk order, returns the first
    three (all of them when there are fewer) and reports as confidence
    the mean of the returned similarities as double-precision arithmetic
    gives it: their sum as the interpreter's [sum] computes it, divided
    by their number and rounded; 0 when there is none.  For chunk
    similarities 0.9, 0.4, 0.8, 0.1 the returned similarities are 0.9,
    0.8, 0.4 and the confidence is 0.7000000000000001. *)
Theorem get_sentence_explanation_top3 request s document_chunks e :
  PyDict.get (er_filename request) (processed_documents s)
    = Some document_chunks →
  aembed_query (er_sentence request) = Returns e →
  (∀ doc, doc ∈ document_chunks →
          ∃ ce, aembed_query (page_content doc) = Returns ce) →
  ∃ similarities ranked top_chunks conf,
    get_sentence_explanation request s =
      OK {| source_chunks := top_chunks; confidence := conf |} ∧
    Forall2 (scores e) similarities document_chunks ∧
    ranked ≡ₚ similarities ∧
    StronglySorted (desc similarity_value) ranked ∧
    (∀ v, with_key similarity_value v ranked
          = with_key similarity_value v similarities) ∧
    top_chunks = take 3 ranked ∧
    length top_chunks = (3 `min` length document_chunks)%nat ∧
    (document_chunks ≠ [] →
     conf = (float_sum (map similarity top_chunks)
             / float_of_nat (length top_chunks))%float) ∧
    (document_chunks = [] → conf = 0%float) ∧
    (map similarity similarities = [f0_9; f0_4; f0_8; f0_1] →
     map similarity top_chunks = [f0_9; f0_8; f0_4] ∧ conf = f0_7_up).
Proof.
  intros Hget Hsent Hall.
  destruct (score_chunks_total e document_chunks Hall) as [sims Hsims].
  exists sims, (sort_reverse similarity_value sims),
    (take 3 (sort_reverse similarity_value sims)),
    (mean_similarity (take 3 (sort_reverse similarity_value sims))).
  pose proof (score_chunks_spec _ _ _ Hsims) as HF.
  assert (Hlen : length (take 3 (sort_reverse similarity_value sims))
                 = (3 `min` length document_chunks)%nat).
  { rewrite length_take, sort_reverse_length.
    by rewrite (Forall2_length _ _ _ HF). }
  split.
  { unfold get_sentence_explanation. rewrite Hget, Hsent. simpl.
    by rewrite Hsims. }
  split; [done|].
  split; [apply sort_reverse_perm|].
  split; [apply sort_reverse_sorted|].
  split; [intros v; apply sort_reverse_stable|].
  split; [done|].
  split; [done|].
  split.
  { intros Hne. unfold mean_similarity, sum_similarity.
    destruct (take 3 (sort_reverse similarity_value sims)) as [|c l]; [|done].
    destruct document_chunks; [done|]. discriminate Hlen. }
  split.
  { intros ->. apply Forall2_nil_inv_r in HF. by subst. }
  apply top3_scenario.
Qed.
End attribution.

Section scoped_query.
Context `{Collaborators}.
Import PySort PySortFacts.




(** The scoped query answers whenever the document is in the corpus and
    the embedder and the LLM answer. *)
Lemma query_document_answers request s doc_chunks :
  PyDict.get (qd_document_id request) (processed_documents s)
    = Some doc_chunks →
  (∀ text, ∃ e, aembed_query text = Returns e) →
  (∀ q cs, ∃ ar, answer_with_citations q cs = Returns ar) →
  ∃ reply, query_document request s = OK reply.
Proof.
  intros Hget Hemb Hllm. unfold query_document, relevant_chunks.
  rewrite Hget. destruct (Hemb (qd_question request)) as [e ->]. simpl.
  destruct (score_chunks_total e doc_chunks) as [sims ->]; [by intros|].
  simpl. destruct (Hllm (qd_question request)
                     (take 5 (sort_reverse similarity_value sims))) as [ar ->].
  by eexists.
Qed.
End scoped_query.

Section similarity_examples.
Import Fixture Fixture2 PySort.

(** On the scenario of the specification the handler answers the
    confidence 0.7000000000000001, under either way of summing, and not
    0.7. *)
Lemma explanation_confidence_is_not_0_7 :
  (∃ top_chunks,
     @get_sentence_explanation stub cpython311
       {| er_filename := "D1"; er_sentence := "a probe sentence" |}
       four_chunks
       = OK {| source_chunks := top_chunks; confidence := f0_7_up |} ∧
     map similarity top_chunks = [f0_9; f0_8; f0_4]) ∧
  (∃ top_chunks,
     @get_sentence_explanation stub cpython312
       {| er_filename := "D1"; er_sentence := "a probe sentence" |}
       four_chunks
       = OK {| source_chunks := top_chunks; confidence := f0_7_up |} ∧
     map similarity top_chunks = [f0_9; f0_8; f0_4]) ∧
  f0_7_up ≠ f0_7 ∧
  (float_to_Q f0_7 < 7 # 10)%Q ∧ (7 # 10 < float_to_Q f0_7_up)%Q.
Proof.
  split; [eexists; split; vm_compute; reflexivity|].
  split; [eexists; split; vm_compute; reflexivity|].
  apply f0_7_up_above.
Qed.

Lemma get_sentence_explanation_top3_witness :
  ∃ top_chunks conf,
    @get_sentence_explanation stub cpython312
      {| er_filename := "D1"; er_sentence := "a probe sentence" |}
      four_chunks = OK {| source_chunks := top_chunks; confidence := conf |} ∧
    map content top_chunks = ["c0"; "c2"; "c1"] ∧
    map similarity top_chunks = [f0_9; f0_8; f0_4] ∧
    conf = f0_7_up.
Proof.
  destruct (@get_sentence_explanation_top3 stub cpython312
              {| er_filename := "D1"; er_sentence := "a probe sentence" |}
              four_chunks d1_chunks [0%float])
    as (sims & ranked & top & conf & Hrun & HF & _ & _ & _ & _ & _ & _ & _ & Hsc).
  - reflexivity.
  - reflexivity.
  - intros doc _. by eexists.
  - exists top, conf. split; [exact Hrun|].
    assert (Hsims : map similarity sims = [f0_9; f0_4; f0_8; f0_1]).
    { rewrite (@scores_similarity stub [0%float] sims d1_chunks
                 (fun doc => [embed_table (page_content doc)]));
        [reflexivity|reflexivity|exact HF]. }
    split.
    + vm_compute in Hrun. by injection Hrun as <- _.
    + apply Hsc. exact Hsims.
Defined.


End similarity_examples.

(** * Related documents *)

Section related.
Import PyDict PyDictFacts PySort PySortFacts.
Implicit Types (T O : gset string) (ds : dict DocInfo).
Local Arguments related_entry : simpl never.

(** The score is the Jaccard index of the two topic sets. *)
Lemma overlap_score_jaccard T O :
  size (T ∪ O) ≠ 0%nat →
  (overlap_score T O ==
   inject_Z (Z.of_nat (size (T ∩ O))) / inject_Z (Z.of_nat (size (T ∪ O))))%Q.
Proof.
  intros Hne. unfold overlap_score. rewrite Qmake_Qdiv.
  replace (Z.pos (Pos.of_nat (size (T ∪ O)))) with (Z.of_nat (size (T ∪ O)));
    [reflexivity|].
  destruct (size (T ∪ O)) as [|n]; [done|].
  by rewrite <- Pos.of_nat_succ, Zpos_P_of_succ_nat, Nat2Z.inj_succ.
Qed.

Lemma overlap_score_comm T O : overlap_score T O = overlap_score O T.
Proof.
  unfold overlap_score.
  by rewrite (comm_L (∩) T O), (comm_L (∪) T O).
Qed.

Lemma overlap_union_nonempty T O :
  size (T ∩ O) ≠ 0%nat → size (T ∪ O) ≠ 0%nat.
Proof.
  rewrite !size_non_empty_iff. intros Hne Hemp. apply Hne.
  apply set_equiv. intros x. rewrite elem_of_intersection.
  split; [|by intros ?%not_elem_of_empty].
  intros [Hx _]. apply Hemp. by apply elem_of_union_l.
Qed.

Lemma related_entry_Some filename T k info r :
  related_entry filename T (k, info) = Some r ↔
  k ≠ filename ∧ size (T ∩ topic_set info) ≠ 0%nat ∧ r = entry_for T k info.
Proof.
  unfold related_entry, entry_for.
  destruct (String.eqb k filename) eqn:E.
  - apply String.eqb_eq in E. split; [done|]. by intros [? _].
  - apply String.eqb_neq in E.
    destruct (0 <? size (T ∩ topic_set info))%nat eqn:Ep.
    + apply Nat.ltb_lt in Ep. split.
      * intros [= <-]. split; [done|]. split; [lia|done].
      * by intros (_ & _ & ->).
    + apply Nat.ltb_ge in Ep. split; [done|]. intros (_ & ? & _). lia.
Qed.

Lemma elem_related_candidates filename T ds r :
  r ∈ related_candidates filename T ds ↔
  ∃ k info, (k, info) ∈ ds ∧ k ≠ filename ∧
            size (T ∩ topic_set info) ≠ 0%nat ∧ r = entry_for T k info.
Proof.
  unfold related_candidates, items. rewrite list_elem_of_omap. split.
  - intros ([k info] & Hin & Hr). exists k, info.
    by apply related_entry_Some in Hr as (? & ? & ?).
  - intros (k & info & Hin & Hk & Hov & Hr). exists (k, info).
    split; [done|]. by apply related_entry_Some.
Qed.

(** The candidates follow the insertion order of the corpus. *)
Lemma related_candidates_order filename T ds :
  map r_filename (related_candidates filename T ds) `sublist_of` keys ds.
Proof.
  unfold related_candidates, items, keys.
  induction ds as [|[k info] ds IH]; simpl; [constructor|].
  destruct (related_entry filename T (k, info)) as [r|] eqn:E; simpl.
  - apply related_entry_Some in E as (_ & _ & ->). by constructor.
  - by constructor.
Qed.

Lemma with_key_sublist {A} (key : A → Q) v (l : list A) :
  with_key key v l `sublist_of` l.
Proof.
  unfold with_key. induction l as [|x l IH]; simpl; [constructor|].
  destruct (Qeq_bool (key x) v); by constructor.
Qed.

Lemma related_candidates_no_topics filename ds :
  related_candidates filename ∅ ds = [].
Proof.
  unfold related_candidates, items.
  induction ds as [|[k info] ds IH]; simpl; [done|].
  replace (related_entry filename ∅ (k, info)) with (@None Related); [done|].
  unfold related_entry.
  destruct (String.eqb k filename); [done|].
  by rewrite (left_absorb_L ∅ (∩)), size_empty.
Qed.

Lemma get_related_documents_ranking filename s info :
  get filename (document_sections s) = Some info →
  get_related_documents filename s =
    OK (take 5 (ranking filename info (document_sections s))).
Proof.
  intros Hget. unfold get_related_documents, ranking. rewrite Hget.
  case_bool_decide as Hemp; [|done].
  by rewrite Hemp, related_candidates_no_topics.
Qed.
End related.

Section related_claims.
Import PyDict PyDictFacts PySort PySortFacts.

Lemma listed_ranking_inv A infoA ds B score :
  listed B score (ranking A infoA ds) →
  ∃ infoB, (B, infoB) ∈ ds ∧ B ≠ A ∧
           size (topic_set infoA ∩ topic_set infoB) ≠ 0%nat ∧
           (overlap_score (topic_set infoA) (topic_set infoB) == score)%Q.
Proof.
  intros (r & Hr & Hname & Hscore). unfold ranking in Hr.
  apply sort_reverse_elem, elem_related_candidates in Hr
    as (k & info & Hin & Hk & Hov & ->).
  simpl in *. subst k. by exists info.
Qed.

Lemma listed_ranking_intro A infoA ds B infoB :
  (B, infoB) ∈ ds → B ≠ A →
  size (topic_set infoA ∩ topic_set infoB) ≠ 0%nat →
  listed B (overlap_score (topic_set infoA) (topic_set infoB))
    (ranking A infoA ds).
Proof.
  intros Hin Hne Hov. exists (entry_for (topic_set infoA) B infoB).
  split; [|done]. unfold ranking.
  apply sort_reverse_elem, elem_related_candidates. by exists B, infoB.
Qed.

(** C3, as the code has it. For every document [A] of the corpus,
    [get_related_documents] ranks exactly the other documents that share
    a topic with [A], each with the topics in common and the Jaccard
    index of the two topic sets as score, in descending order of score,
    documents of equal score staying in the order in which the corpus
    holds them, and returns the first five of the ranking.  With D1 of
    topics cancer, therapy and D2 of topics therapy, genomics, the
    answer for D1 is the single entry D2, common topic therapy, score
    1/3. *)
Theorem get_related_documents_ranked s A infoA :
  get A (document_sections s) = Some infoA →
  ∃ ranked,
    get_related_documents A s = OK (take 5 ranked) ∧
    ranked ≡ₚ
      related_candidates A (topic_set infoA) (document_sections s) ∧
    (∀ r, r ∈ ranked ↔
          ∃ B infoB,
            (B, infoB) ∈ document_sections s ∧ B ≠ A ∧
            size (topic_set infoA ∩ topic_set infoB) ≠ 0%nat ∧
            r = entry_for (topic_set infoA) B infoB) ∧
    (∀ B infoB,
       size (topic_set infoA ∩ topic_set infoB) ≠ 0%nat →
       (similarity_score (entry_for (topic_set infoA) B infoB) ==
        inject_Z (Z.of_nat (size (topic_set infoA ∩ topic_set infoB))) /
        inject_Z (Z.of_nat (size (topic_set infoA ∪ topic_set infoB))))%Q) ∧
    StronglySorted (desc similarity_score) ranked ∧
    (∀ v, map r_filename (with_key similarity_score v ranked)
            `sublist_of` keys (document_sections s)) ∧
    (length (take 5 ranked) ≤ 5)%nat ∧
    (∀ x y, x ∈ take 5 ranked → y ∈ drop 5 ranked →
            (similarity_score y <= similarity_score x)%Q) ∧
    get_related_documents "D1" Fixture.scenario =
      OK [{| r_filename := "D2"; r_title := "D2";
             common_topics := ["therapy"];
             similarity_score := 1 # 3 |}].
Proof.
  intros Hget. exists (ranking A infoA (document_sections s)).
  split; [by apply get_related_documents_ranking|].
  split; [apply sort_reverse_perm|].
  split.
  { intros r. unfold ranking. rewrite sort_reverse_elem.
    apply elem_related_candidates. }
  split.
  { intros B infoB Hov. simpl.
    by apply overlap_score_jaccard, overlap_union_nonempty. }
  split; [apply sort_reverse_sorted|].
  split.
  { intros v. unfold ranking. rewrite sort_reverse_stable.
    etrans; [|apply related_candidates_order].
    apply fmap_sublist, with_key_sublist. }
  split; [rewrite length_take; lia|].
  split.
  { intros x y. apply take_sorted_dominates, sort_reverse_sorted. }
  vm_compute. reflexivity.
Qed.

(** C4, as the code has it. If [B] appears in the related list of [A]
    with score [s], then [B] is in the corpus with a non-empty topic
    set, [A] is ranked for [B] with the same score [s], and [A] appears
    in the related list of [B] with score [s] unless that list holds
    five documents each of which scores at least [s]. *)
Theorem related_symmetric_up_to_truncation s A B rs score :
  wf (document_sections s) →
  get_related_documents A s = OK rs →
  listed B score rs →
  ∃ infoB rs',
    get B (document_sections s) = Some infoB ∧
    topic_set infoB ≠ ∅ ∧
    listed A score (ranking B infoB (document_sections s)) ∧
    get_related_documents B s = OK rs' ∧
    (listed A score rs' ∨
     (length rs' = 5%nat ∧
      ∀ x, x ∈ rs' → (score <= similarity_score x)%Q)).
Proof.
  intros Hwf HA HB.
  destruct (get A (document_sections s)) as [infoA|] eqn:HgA.
  2:{ unfold get_related_documents in HA. by rewrite HgA in HA. }
  rewrite (get_related_documents_ranking _ _ _ HgA) in HA.
  injection HA as <-.
  assert (HB' : listed B score (ranking A infoA (document_sections s))).
  { destruct HB as (r & Hr & ?). exists r. split; [|done].
    by eapply subseteq_take. }
  apply listed_ranking_inv in HB' as (infoB & Hin & Hne & Hov & Hsc).
  pose proof (elem_get _ _ _ Hwf Hin) as HgB.
  exists infoB, (take 5 (ranking B infoB (document_sections s))).
  split; [done|].
  split.
  { intros Hemp. apply Hov. by rewrite Hemp, (right_absorb_L ∅ (∩)), size_empty. }
  assert (Hranked : ∃ r, r ∈ ranking B infoB (document_sections s) ∧
                         r_filename r = A ∧
                         (similarity_score r == score)%Q).
  { destruct (listed_ranking_intro B infoB (document_sections s) A infoA)
      as (r & Hr & Hn & Hs).
    - by apply get_Some_elem.
    - done.
    - by rewrite (comm_L (∩)).
    - exists r. repeat (split; [done|]).
      by rewrite Hs, overlap_score_comm. }
  split; [exact Hranked|].
  split; [by apply get_related_documents_ranking|].
  destruct Hranked as (r & Hr & Hn & Hs).
  rewrite <- (take_drop 5 (ranking B infoB (document_sections s))) in Hr.
  apply elem_of_app in Hr as [Hr|Hr].
  - left. by exists r.
  - right. split.
    + rewrite length_take. apply Nat.min_l.
      destruct (le_lt_dec 5 (length (ranking B infoB (document_sections s))))
        as [|Hlt]; [done|].
      rewrite drop_ge in Hr by lia. by apply elem_of_nil in Hr.
    + intros x Hx. rewrite <- Hs.
      eapply take_sorted_dominates; [apply sort_reverse_sorted|exact Hx|exact Hr].
Qed.
End related_claims.

Section related_examples.
Import Fixture PyDict PySort.

Lemma get_related_documents_ranked_witness :
  ∃ ranked,
    get_related_documents "D2" scenario = OK (take 5 ranked) ∧
    map r_filename ranked = ["D1"] ∧
    Forall2 Qeq (map similarity_score ranked) [1 # 3]%Q.
Proof.
  destruct (get_related_documents_ranked scenario "D2"
              (info ["therapy"; "genomics"]) eq_refl)
    as (ranked & Hrun & _ & _ & _ & _ & _ & Hlen & _ & _).
  exists ranked. split; [exact Hrun|].
  vm_compute in Hrun. injection Hrun as Hrun.
  destruct ranked as [|r [|? ?]]; try discriminate.
  simpl in Hrun. injection Hrun as <-.
  split; [reflexivity|]. repeat constructor.
Defined.

(** Equal scores come out in upload order b, a, c: neither ascending
    nor descending in the document id. *)
Lemma related_ties_keep_upload_order :
  ∃ rs,
    get_related_documents "20250101_115959_t.pdf" same_second = OK rs ∧
    map r_filename rs =
      ["20250101_120000_b.pdf"; "20250101_120000_a.pdf";
       "20250101_120000_c.pdf"] ∧
    Forall (fun r => similarity_score r == 1)%Q rs ∧
    ¬ ties_by_document_id String.ltb rs ∧
    ¬ ties_by_document_id (fun a b => String.ltb b a) rs.
Proof.
  eexists. split; [vm_compute; reflexivity|].
  split; [reflexivity|]. split; [repeat constructor|].
  split; intros Hties.
  - specialize (Hties 0%nat 1%nat _ _ (Nat.lt_0_succ 0) eq_refl eq_refl).
    simpl in Hties. by specialize (Hties (Qeq_refl _)).
  - specialize (Hties 1%nat 2%nat _ _ (Nat.lt_succ_diag_r 1) eq_refl eq_refl).
    simpl in Hties. by specialize (Hties (Qeq_refl _)).
Qed.

Lemma related_symmetric_up_to_truncation_witness :
  ∃ rs', get_related_documents "D2" scenario = OK rs' ∧
         listed "D1" (1 # 3) rs'.
Proof.
  pose (entry := {| r_filename := "D2"; r_title := "D2";
                    common_topics := ["therapy"];
                    similarity_score := 1 # 3 |}).
  assert (Hwf : wf (document_sections scenario)).
  { apply (bool_decide_unpack _). vm_compute. exact I. }
  assert (Hrun1 : get_related_documents "D1" scenario = OK [entry]).
  { vm_compute. reflexivity. }
  assert (Hlisted : listed "D2" (1 # 3) [entry]).
  { exists entry. split; [left|]. split; reflexivity. }
  destruct (related_symmetric_up_to_truncation scenario "D1" "D2" [entry]
              (1 # 3) Hwf Hrun1 Hlisted)
    as (infoB & rs' & _ & _ & _ & Hrun & [Hl|[Hlen _]]).
  - exists rs'. split; [exact Hrun|exact Hl].
  - exfalso. vm_compute in Hrun. injection Hrun as <-. discriminate.
Defined.

(** [B] is related to [A], but five closer documents crowd [A] out of
    the related list of [B]. *)
Lemma related_not_symmetric_when_crowded :
  ∃ rsA rsB infoB,
    get_related_documents "A" crowded = OK rsA ∧
    listed "B" (1 # 4) rsA ∧
    get "B" (document_sections crowded) = Some infoB ∧
    topic_set infoB ≠ ∅ ∧
    get_related_documents "B" crowded = OK rsB ∧
    ¬ ∃ score, listed "A" score rsB.
Proof.
  eexists _, _, _. split; [vm_compute; reflexivity|].
  split.
  { eexists. split; [left|]. split; reflexivity. }
  split; [reflexivity|].
  split.
  { intros Hemp. assert (Hin : "t" ∈ topic_set (info ["t"; "a"; "b"])).
    { apply (bool_decide_unpack _). vm_compute. exact I. }
    rewrite Hemp in Hin. by apply not_elem_of_empty in Hin. }
  split; [vm_compute; reflexivity|].
  intros (score & r & Hr & Hname & _).
  repeat (apply elem_of_cons in Hr as [->|Hr]; [discriminate Hname|]).
  by apply elem_of_nil in Hr.
Qed.
End related_examples.

(** * Query over the whole corpus *)

Section query.
Context `{Collaborators}.

(** C6, as the code has it. A blank query text is not rejected; it is
    treated as any other text.  The request fails with status 400 when
    no file names are given, and then nothing is invoked; with file
    names it fails with status 503 when no chain is set up, and
    otherwise the chain is invoked on the blank text: the request
    answers with what the chain returns, or fails with status 500 when
    the chain raises. *)
Theorem query_papers_blank request s :
  blank (query request) = true →
  ((filenames request = None ∨ filenames request = Some []) →
   query_papers request s =
     HTTPException 400 "No papers specified for query") ∧
  (∀ f fs,
     filenames request = Some (f :: fs) →
     (qa_chain (rage_engine s) = None →
      query_papers request s =
        HTTPException 503
          "RAG system not ready. Please upload and process a document.") ∧
     (∀ chain out,
        qa_chain (rage_engine s) = Some chain →
        ainvoke chain (query request) = Returns out →
        query_papers request s =
          OK {| q_message :=
                  default "Could not find an answer." (co_answer out);
                q_sources := default [] (co_source_documents out) |}) ∧
     (∀ chain msg,
        qa_chain (rage_engine s) = Some chain →
        ainvoke chain (query request) = Raised msg →
        query_papers request s =
          HTTPException 500 ("Error during RAG query: " +:+ msg))).
Proof.
  intros _. unfold query_papers. split.
  - by intros [-> | ->].
  - intros f fs ->. split; [by intros ->|].
    split; intros chain ? -> ->; done.
Qed.
End query.

(** * Index health *)

Section health.
Context `{Collaborators}.

(** C7, as the code has it. The health check fails, with status 400,
    exactly when no index exists; with an index it never fails: it
    returns a healthy report carrying the vector count, the dimension
    and the training flag of the index, or, when the test embedding or
    the test search raises, an unhealthy report carrying the error. *)
Theorem check_index_health_total s :
  (vector_store (rage_engine s) = None →
   check_index_health s = HTTPException 400 "Vector store not initialized") ∧
  (∀ store,
     vector_store (rage_engine s) = Some store →
     ∃ report,
       check_index_health s = OK report ∧
       match report with
       | Healthy total dim trained _ path _ =>
           total = ntotal (index store) ∧ dim = index_d (index store) ∧
           trained = is_trained (index store) ∧
           path = faiss_index_path (rage_engine s)
       | Unhealthy msg =>
           aembed_query "This is a test query" = Raised msg ∨
           ∃ e, aembed_query "This is a test query" = Returns e ∧
                index_search (index store) e 1 = Raised msg
       end).
Proof.
  unfold check_index_health. split; [by intros ->|].
  intros store ->.
  destruct (aembed_query "This is a test query") as [e|msg] eqn:Ee; simpl.
  - destruct (index_search (index store) e 1) as [[dists ids]|msg] eqn:Es.
    + eexists. split; [reflexivity|]. done.
    + eexists. split; [reflexivity|]. right. by exists e.
  - eexists. split; [reflexivity|]. by left.
Qed.
End health.

Section query_health_examples.
Import Fixture.

(** A query of one space, with a file name given, is answered by the
    chain. *)
Lemma blank_query_is_answered :
  blank " " = true ∧
  @query_papers stub {| query := " "; filenames := Some ["a.pdf"] |}
    one_document =
    OK {| q_message := "answer"; q_sources := a_chunks |}.
Proof. split; reflexivity. Qed.

Lemma query_papers_blank_witness :
  @query_papers stub {| query := " "; filenames := None |} one_document =
    HTTPException 400 "No papers specified for query" ∧
  @query_papers stub {| query := " "; filenames := Some ["a.pdf"] |}
    one_document =
    OK {| q_message := "answer"; q_sources := a_chunks |}.
Proof.
  split.
  - apply (@query_papers_blank stub {| query := " "; filenames := None |}
             one_document eq_refl). by left.
  - destruct (proj2 (@query_papers_blank stub
                       {| query := " "; filenames := Some ["a.pdf"] |}
                       one_document eq_refl) "a.pdf" [] eq_refl)
      as (_ & Hanswer & _).
    apply (Hanswer (store_of a_chunks)
             {| co_answer := Some "answer";
                co_source_documents := Some a_chunks |}); reflexivity.
Defined.

(** Without an index the health check raises. *)
Lemma check_index_health_without_index :
  vector_store (rage_engine empty_state) = None ∧
  @check_index_health stub empty_state =
    HTTPException 400 "Vector store not initialized" ∧
  is_ok (@check_index_health stub empty_state) = false.
Proof. repeat split. Qed.

Lemma check_index_health_total_witness :
  @check_index_health stub empty_state =
    HTTPException 400 "Vector store not initialized" ∧
  ∃ report, @check_index_health stub one_document = OK report.
Proof.
  split.
  - apply (proj1 (@check_index_health_total stub empty_state)). reflexivity.
  - destruct (proj2 (@check_index_health_total stub one_document)
                (store_of a_chunks) eq_refl) as (report & Hrun & _).
    by exists report.
Defined.
End query_health_examples.

(** * Start-up *)

Module StartupFacts.
Import Startup.

Lemma resume_clears_flag c o st st' cont created :
  resume c o st = (st', cont, created) →
  startup_in_progress st = true →
  startup_in_progress st' = false →
  c = DelayedSleeping.
Proof.
  destruct c, o; simpl; try done;
    repeat match goal with
    | |- context [if ?b then _ else _] => destruct b
    end; intros [= <- <- <-]; simpl; congruence.
Qed.

(** C5, as the code has it. The flag [startup_in_progress] is cleared by
    the delayed initialization task and by nothing else, when that task
    wakes from its sleep, creates the subtasks and returns without waiting
    for them: in the state in which the flag has just been cleared, every
    subtask it created (one for each subsystem not yet initialized) is on
    the loop and has not run. *)
Theorem startup_flag_cleared_when_scheduled e l l' :
  step e l = Some l' →
  startup_in_progress (startup_state l) = true →
  startup_in_progress (startup_state l') = false →
  ∃ i o,
    e = Resume i o ∧ tasks l !! i = Some DelayedSleeping ∧
    (faiss_initialized (startup_state l) = false → FaissStart ∈ tasks l') ∧
    (arxiv_initialized (startup_state l) = false → ArxivStart ∈ tasks l') ∧
    (faiss_initialized (startup_state l) = false ∨
     arxiv_initialized (startup_state l) = false → unsettled l' = true).
Proof.
  intros Hstep Hon Hoff. destruct e as [|i o]; simpl in Hstep.
  { injection Hstep as <-. unfold startup_event in Hoff.
    rewrite Hon in Hoff. congruence. }
  destruct (tasks l !! i) as [c|] eqn:Hc; [|done].
  destruct (resume c o (startup_state l)) as [[st cont] created] eqn:Hres.
  injection Hstep as <-. simpl in *.
  pose proof (resume_clears_flag _ _ _ _ _ _ Hres Hon Hoff) as ->.
  simpl in Hres. injection Hres as <- <- <-.
  exists i, o. split; [done|]. split; [done|].
  assert (Hf : faiss_initialized (startup_state l) = false →
               FaissStart ∈ (take i (tasks l) ++ option_list None ++
                 drop (S i) (tasks l) ++
                 (if faiss_initialized (startup_state l) then []
                  else [FaissStart]) ++
                 (if arxiv_initialized (startup_state l) then []
                  else [ArxivStart]))%list).
  { intros ->. rewrite !elem_of_app. do 3 right. left. left. }
  assert (Ha : arxiv_initialized (startup_state l) = false →
               ArxivStart ∈ (take i (tasks l) ++ option_list None ++
                 drop (S i) (tasks l) ++
                 (if faiss_initialized (startup_state l) then []
                  else [FaissStart]) ++
                 (if arxiv_initialized (startup_state l) then []
                  else [ArxivStart]))%list).
  { intros ->. rewrite !elem_of_app. do 3 right. right. left. }
  split; [exact Hf|]. split; [exact Ha|].
  intros Hsome. unfold unsettled. simpl. apply existsb_exists.
  destruct Hsome as [Hx|Hx].
  - exists FaissStart. split; [|done]. apply list_elem_of_In. by apply Hf.
  - exists ArxivStart. split; [|done]. apply list_elem_of_In. by apply Ha.
Qed.

(** The start-up event, the first run of the delayed task and its wake-up:
    the flag is down and both subtasks are still to run. *)
Lemma startup_flag_cleared_before_subtasks_settle :
  ∃ l,
    run [FireStartup; Resume 0 Success; Resume 0 Success] initial = Some l ∧
    startup_in_progress (startup_state l) = false ∧
    tasks l = [FaissStart; ArxivStart] ∧
    unsettled l = true ∧
    ¬ flag_guards_subtasks l.
Proof.
  eexists. split; [reflexivity|]. repeat (split; [reflexivity|]).
  intros Hguard. specialize (Hguard eq_refl). discriminate.
Qed.

Lemma startup_flag_cleared_when_scheduled_witness :
  ∃ l l',
    run [FireStartup; Resume 0 Success] initial = Some l ∧
    step (Resume 0 Success) l = Some l' ∧
    startup_in_progress (startup_state l') = false ∧
    FaissStart ∈ tasks l' ∧ ArxivStart ∈ tasks l' ∧ unsettled l' = true.
Proof.
  eexists _, _. split; [reflexivity|]. split; [reflexivity|].
  split; [reflexivity|].
  destruct (startup_flag_cleared_when_scheduled (Resume 0 Success)
              {| startup_state := {| faiss_initialized := false;
                                     arxiv_initialized := false;
                                     startup_in_progress := true |};
                 tasks := [DelayedSleeping] |} _ eq_refl eq_refl eq_refl)
    as (i & o & _ & _ & Hf & Ha & Hu).
  split; [by apply Hf|]. split; [by apply Ha|]. apply Hu. by left.
Defined.

End StartupFacts.

(** * Further properties of the dictionaries *)

Module PyDictMore.
Import PyDict PyDictFacts.

Section more.
Context {V : Type}.
Implicit Types (d : dict V) (k : string) (v : V).

Lemma mem_get k d : mem k d = true ↔ is_Some (get k d).
Proof.
  unfold mem. destruct (get k d); split; intros Hx; done.
Qed.

Lemma elem_set k v d k' v' :
  (k', v') ∈ set k v d → (k', v') = (k, v) ∨ (k', v') ∈ d.
Proof.
  induction d as [|[k0 v0] d IH]; simpl.
  - intros Hin. apply list_elem_of_singleton in Hin. by left.
  - destruct (String.eqb k k0); intros Hin;
      apply elem_of_cons in Hin as [Hin|Hin].
    + by left.
    + right. by right.
    + right. rewrite Hin. left.
    + destruct (IH Hin) as [?|?]; [by left|right; by right].
Qed.

Lemma keys_set k v d :
  keys (set k v d) = keys d ∨
  ((k ∉ keys d) ∧ keys (set k v d) = (keys d ++ [k])%list).
Proof.
  induction d as [|[k0 v0] d IH]; simpl.
  - right. split; [apply not_elem_of_nil|done].
  - destruct (String.eqb k k0) eqn:E; simpl.
    + apply String.eqb_eq in E. subst. by left.
    + apply String.eqb_neq in E. destruct IH as [->|[Hk ->]]; [by left|].
      right. split; [|done]. rewrite not_elem_of_cons. done.
Qed.

Lemma wf_set k v d : wf d → wf (set k v d).
Proof.
  unfold wf. intros Hwf. destruct (keys_set k v d) as [->|[Hk ->]]; [done|].
  apply NoDup_app. split; [done|]. split.
  - intros x Hx Hin. apply list_elem_of_singleton in Hin. by subst.
  - apply NoDup_singleton.
Qed.

Lemma set_set k v v' d : set k v (set k v' d) = set k v d.
Proof.
  induction d as [|[k0 v0] d IH]; simpl.
  - by rewrite String.eqb_refl.
  - destruct (String.eqb k k0) eqn:E; simpl.
    + by rewrite String.eqb_refl.
    + by rewrite E, IH.
Qed.

Lemma del_set_fresh k v d : get k d = None → del k (set k v d) = d.
Proof.
  induction d as [|[k0 v0] d IH]; simpl.
  - by rewrite String.eqb_refl.
  - destruct (String.eqb k k0) eqn:E; [done|]. simpl. rewrite E.
    intros Hn. by rewrite IH.
Qed.

Lemma elem_del k d k' v' : (k', v') ∈ del k d → (k', v') ∈ d.
Proof.
  induction d as [|[k0 v0] d IH]; simpl; [done|].
  destruct (String.eqb k k0).
  - intros Hin. by right.
  - intros Hin. apply elem_of_cons in Hin as [->|Hin]; [left|right; auto].
Qed.

Lemma get_del_Some k k' v' d : wf d → get k' (del k d) = Some v' →
  k' ≠ k ∧ get k' d = Some v'.
Proof.
  intros Hwf Hget. destruct (decide (k' = k)) as [->|Hne].
  - by rewrite get_del_eq in Hget.
  - split; [done|]. by rewrite get_del_ne in Hget.
Qed.

Lemma get_set k v d k' :
  get k' (set k v d) = if String.eqb k' k then Some v else get k' d.
Proof.
  destruct (String.eqb k' k) eqn:E.
  - apply String.eqb_eq in E. subst. apply get_set_eq.
  - apply String.eqb_neq in E. by apply get_set_ne.
Qed.
End more.

End PyDictMore.

(** * Upload: validation, outcome and invariants *)

Section upload_more.
Context `{Collaborators}.
Import PyDict PyDictFacts PyDictMore.

(** The three ways the processing block of an upload can end. *)
Lemma process_upload_cases filename file_path contents s s' r :
  process_upload filename file_path contents s = (s', r) →
  (s' = s ∧ ∃ msg, r = Raised msg ∧
     pdf_processing_raises file_path contents = true) ∨
  ∃ chunks doc_info,
    process_pdf_enhanced file_path contents = Returns (chunks, doc_info) ∧
    chunks ≠ [] ∧
    fs s' = fs s ∧
    processed_documents s' = set filename chunks (processed_documents s) ∧
    ((∃ msg, r = Raised msg ∧
        extract_key_topics (full_text_of (take 5 chunks)) = Raised msg ∧
        document_sections s' = set filename doc_info (document_sections s) ∧
        rage_engine s' = rage_engine s) ∨
     (∃ tps reply,
        r = Returns reply ∧
        extract_key_topics (full_text_of (take 5 chunks)) = Returns tps ∧
        up_filename reply = filename ∧
        document_sections s' =
          set filename (set_topics tps doc_info) (document_sections s) ∧
        update_vector_store (rage_engine s)
          (set filename chunks (processed_documents s))
          = (rage_engine s', up_warning reply))).
Proof.
  unfold process_upload, pdf_processing_raises, full_text_of.
  destruct (process_pdf_enhanced file_path contents)
    as [[[|doc docs] doc_info]|msg] eqn:Ep.
  - intros [= <- <-]. left. split; [done|]. by eexists.
  - set (chunks := doc :: docs).
    destruct (extract_key_topics _) as [tps|msg] eqn:Et.
    + destruct (update_vector_store _ _) as [e' warning] eqn:Eu.
      intros [= <- <-]. right. exists chunks, doc_info.
      do 4 (split; [done|]). right. eexists _, _.
      split; [reflexivity|]. split; [done|]. split; [reflexivity|].
      simpl. by rewrite set_set.
    + intros [= <- <-]. right. exists chunks, doc_info.
      do 4 (split; [done|]). left. by exists msg.
  - intros [= <- <-]. left. split; [done|]. by eexists.
Qed.

(** The ways an upload with a valid name ends: the save fails and nothing
    but the disk may have changed, or the file is written and the
    processing block runs on the state with the file. *)
Lemma upload_pdf_saved timestamp file name s s' r :
  uf_filename file = Some name →
  name ≠ EmptyString →
  endswith name ".pdf" = true →
  upload_pdf timestamp file s = (s', r) →
  (http_status r = 500%nat ∧
   processed_documents s' = processed_documents s ∧
   document_sections s' = document_sections s ∧
   rage_engine s' = rage_engine s) ∨
  ∃ k s1 r1,
    uf_contents file ≠ [] ∧
    resolve (fs s) (path_join UPLOAD_DIR (stored_name timestamp name)) = At k ∧
    kind_of (fs s) k ≠ Some Directory ∧
    process_upload (stored_name timestamp name)
      (path_join UPLOAD_DIR (stored_name timestamp name)) (uf_contents file)
      (with_fs (write k (fs s)) s) = (s1, r1) ∧
    match r1 with
    | Returns reply => s' = s1 ∧ r = OK reply
    | Raised msg =>
        s' = with_fs (unlink k (fs s)) s1 ∧
        r = HTTPException 500 ("Error processing PDF: " +:+ msg)
    end.
Proof.
  intros Hname Hne Hpdf. unfold upload_pdf, stored_name.
  rewrite Hname, Hpdf. destruct name as [|c name]; [done|]. simpl.
  set (path := path_join UPLOAD_DIR (timestamp +:+ "_" +:+ String c name)).
  destruct (uf_contents file) as [|b bs] eqn:Ec;
    [intros [= <- <-]; by left|].
  destruct (open_write_cases path (fs s)) as [(msg & -> & _)|(k & Hr & Hk & ->)];
    [intros [= <- <-]; by left|].
  destruct (written path (fs s) k Hr Hk) as (_ & _ & -> & _).
  destruct (process_upload _ _ _ _) as [s1 r1] eqn:Ep.
  intros Hup. right. exists k, s1, r1. do 3 (split; [done|]).
  split; [done|].
  destruct r1 as [reply|msg]; injection Hup as <- <-; [done|].
  split; [|done]. f_equal.
  apply process_upload_cases in Ep as [(-> & _)|(? & ? & _ & _ & -> & _)];
    simpl; by apply cleanup_upload_written.
Qed.

Lemma valid_upload_name timestamp file s s' reply :
  upload_pdf timestamp file s = (s', OK reply) →
  ∃ name, uf_filename file = Some name ∧ name ≠ EmptyString ∧
          endswith name ".pdf" = true.
Proof.
  unfold upload_pdf.
  destruct (uf_filename file) as [name|]; [|done].
  destruct (negb (0 <? String.length name)%nat || negb (endswith name ".pdf"))
    eqn:Ev; [done|].
  apply orb_false_elim in Ev as [Hlen Hpdf].
  apply negb_false_iff in Hlen, Hpdf. intros _. exists name.
  split; [done|]. split; [|done]. by intros ->.
Qed.

(** What a successful upload did. *)
Lemma upload_pdf_ok_inv timestamp file s s' reply :
  upload_pdf timestamp file s = (s', OK reply) →
  ∃ name chunks doc_info tps k,
    uf_filename file = Some name ∧
    endswith name ".pdf" = true ∧
    up_filename reply = stored_name timestamp name ∧
    process_pdf_enhanced (path_join UPLOAD_DIR (stored_name timestamp name))
      (uf_contents file) = Returns (chunks, doc_info) ∧
    chunks ≠ [] ∧
    extract_key_topics (full_text_of (take 5 chunks)) = Returns tps ∧
    (resolve (fs s) (path_join UPLOAD_DIR (stored_name timestamp name)) = At k ∧
     kind_of (fs s) k ≠ Some Directory ∧
     fs s' = write k (fs s)) ∧
    processed_documents s' =
      set (stored_name timestamp name) chunks (processed_documents s) ∧
    document_sections s' =
      set (stored_name timestamp name) (set_topics tps doc_info)
        (document_sections s) ∧
    update_vector_store (rage_engine s)
      (set (stored_name timestamp name) chunks (processed_documents s))
      = (rage_engine s', up_warning reply).
Proof.
  intros Hup.
  destruct (valid_upload_name _ _ _ _ _ Hup) as (name & Hname & Hne & Hpdf).
  destruct (upload_pdf_saved _ _ _ _ _ _ Hname Hne Hpdf Hup)
    as [(Hst & _)|(k & s1 & r1 & _ & Hr & Hk & Ep & Hres)]; [done|].
  destruct r1 as [reply'|msg]; [|by destruct Hres].
  destruct Hres as [-> [= <-]].
  apply process_upload_cases in Ep
    as [(_ & msg & Hr1 & _)|(chunks & doc_info & Hp & Hcne & Hfs & Hpd & Hrest)];
    [done|].
  destruct Hrest as [(msg & Hr1 & _)|(tps & reply' & Hr1 & Ht & Hn & Hds & Hu)];
    [done|].
  injection Hr1 as <-. exists name, chunks, doc_info, tps, k.
  by repeat (split; [done|]).
Qed.

Lemma upload_pdf_rejects_name timestamp file s :
  invalid_upload_name file →
  upload_pdf timestamp file s =
    (s, HTTPException 400 "Only PDF files are allowed").
Proof.
  unfold upload_pdf, invalid_upload_name.
  destruct (uf_filename file) as [name|]; [|done].
  intros [->|Hpdf]; [done|]. rewrite Hpdf. simpl. by rewrite orb_true_r.
Qed.

(** An upload is answered with status 200, 400 or 500, and with 400
    exactly when it has no file name, an empty one, or one that does not
    end in ".pdf" (the test is case sensitive); nothing is changed then.
    The 400 raised for an empty file and the 400 raised for a PDF without
    content are caught by the handlers of their blocks and reach the
    client as 500. *)
Theorem upload_pdf_status timestamp file s s' r :
  upload_pdf timestamp file s = (s', r) →
  (http_status r = 400%nat ↔ invalid_upload_name file) ∧
  (http_status r = 400%nat → s' = s) ∧
  (http_status r = 200%nat ∨ http_status r = 400%nat ∨
   http_status r = 500%nat).
Proof.
  intros Hup.
  destruct (uf_filename file) as [name|] eqn:Hname.
  2:{ rewrite upload_pdf_rejects_name in Hup
        by (unfold invalid_upload_name; by rewrite Hname).
      injection Hup as <- <-. simpl.
      unfold invalid_upload_name. rewrite Hname. split; [done|]. split; auto. }
  destruct (negb (0 <? String.length name)%nat || negb (endswith name ".pdf"))
    eqn:Ev.
  - assert (Hinv : invalid_upload_name file).
    { unfold invalid_upload_name. rewrite Hname.
      apply orb_true_iff in Ev as [Ev|Ev]; apply negb_true_iff in Ev.
      - left. destruct name; [done|discriminate Ev].
      - by right. }
    rewrite upload_pdf_rejects_name in Hup by done.
    injection Hup as <- <-. simpl. split; [done|]. split; auto.
  - apply orb_false_elim in Ev as [Ev1 Ev2].
    apply negb_false_iff in Ev1, Ev2.
    assert (Hne : name ≠ EmptyString) by (by intros ->).
    assert (Hvalid : ¬ invalid_upload_name file).
    { unfold invalid_upload_name. rewrite Hname.
      intros [->|Hpdf]; [done|congruence]. }
    destruct (upload_pdf_saved _ _ _ _ _ _ Hname Hne Ev2 Hup)
      as [(Hst & _)|(k & s1 & r1 & _ & _ & _ & _ & Hres)].
    + rewrite Hst. split; [split; [done|tauto]|]. split; [done|auto].
    + destruct r1 as [reply|msg]; destruct Hres as [_ ->]; simpl;
        (split; [split; [done|tauto]|]); (split; [done|auto]).
Qed.

(** An upload of an empty file is answered with status 500, the 400
    raised for it being caught by the handler of the saving block; no
    file is left at the upload path, even if one was there before, and
    the maps and the engine are unchanged.  Only a directory at the
    path, which [os.remove] does not remove, stays. *)
Theorem upload_pdf_empty_file timestamp file name s :
  uf_filename file = Some name →
  name ≠ EmptyString →
  endswith name ".pdf" = true →
  uf_contents file = [] →
  ∃ s',
    upload_pdf timestamp file s =
      (s', HTTPException 500
             "Error saving file: 400: Uploaded file is empty") ∧
    is_file (path_join UPLOAD_DIR (stored_name timestamp name)) (fs s')
      = false ∧
    path_exists (path_join UPLOAD_DIR (stored_name timestamp name)) (fs s')
      = is_dir (path_join UPLOAD_DIR (stored_name timestamp name)) (fs s) ∧
    processed_documents s' = processed_documents s ∧
    document_sections s' = document_sections s ∧
    rage_engine s' = rage_engine s.
Proof.
  intros Hname Hne Hpdf Hc. unfold upload_pdf, stored_name.
  rewrite Hname, Hpdf, Hc.
  destruct name as [|c name]; [done|]. simpl.
  eexists. split; [reflexivity|]. simpl.
  destruct (cleanup_partial_exists
              (path_join UPLOAD_DIR (timestamp +:+ "_" +:+ String c name))
              (fs s)) as [-> ->].
  done.
Qed.

(** A successful upload leaves a regular file at the upload path, stores
    under the time-stamped name the chunks the processor returned for
    that path (at least one) and the section information it returned,
    with the topics extracted from the first five chunks, and leaves
    every other document of the two maps as it was. *)
Theorem upload_pdf_stores timestamp file s s' reply :
  upload_pdf timestamp file s = (s', OK reply) →
  ∃ name chunks doc_info tps,
    uf_filename file = Some name ∧
    up_filename reply = stored_name timestamp name ∧
    process_pdf_enhanced (path_join UPLOAD_DIR (up_filename reply))
      (uf_contents file) = Returns (chunks, doc_info) ∧
    extract_key_topics (full_text_of (take 5 chunks)) = Returns tps ∧
    path_exists (path_join UPLOAD_DIR (up_filename reply)) (fs s') = true ∧
    is_file (path_join UPLOAD_DIR (up_filename reply)) (fs s') = true ∧
    get (up_filename reply) (processed_documents s') = Some chunks ∧
    chunks ≠ [] ∧
    get (up_filename reply) (document_sections s')
      = Some (set_topics tps doc_info) ∧
    topics (set_topics tps doc_info) = Some tps ∧
    ∀ k, k ≠ up_filename reply →
         get k (processed_documents s') = get k (processed_documents s) ∧
         get k (document_sections s') = get k (document_sections s).
Proof.
  intros Hup.
  apply upload_pdf_ok_inv in Hup
    as (name & chunks & info & tps & k & Hn & _ & Hf & Hp & Hne & Ht
        & (Hr & Hk & Hfs) & Hpd & Hds & _).
  exists name, chunks, info, tps.
  destruct (written _ _ _ Hr Hk) as (_ & _ & Hex & Hfile).
  rewrite Hf, Hfs, Hpd, Hds, !get_set_eq.
  repeat (split; [done|]).
  intros k' Hk'. by rewrite !get_set_ne.
Qed.

Lemma all_processed_documents_elem (pd : dict (list Document)) k chunks doc :
  (k, chunks) ∈ pd → doc ∈ chunks → doc ∈ all_processed_documents pd.
Proof.
  unfold all_processed_documents, values. intros Hin Hdoc.
  apply list_elem_of_In, in_concat. exists chunks.
  split; [|by apply list_elem_of_In].
  apply list_elem_of_In, list_elem_of_fmap. by exists (k, chunks).
Qed.

Lemma all_processed_documents_nonempty (pd : dict (list Document)) k chunks :
  get k pd = Some chunks → chunks ≠ [] → all_processed_documents pd ≠ [].
Proof.
  intros Hget Hne Hnil. destruct chunks as [|doc chunks]; [done|].
  assert (Hin : doc ∈ all_processed_documents pd).
  { eapply all_processed_documents_elem; [by apply get_Some_elem|left]. }
  rewrite Hnil in Hin. by apply elem_of_nil in Hin.
Qed.

(** An upload answered without a warning has rebuilt the index from
    exactly the chunks of the whole corpus, the new document included.
    An upload answered with a warning has stored the document all the
    same, and the warning is the message either of the index
    construction, which raised and left the engine with its previous
    index, or of the set-up of the chain, which raised after the index
    had been rebuilt from the chunks of the whole corpus. *)
Theorem upload_pdf_rebuilds timestamp file s s' reply :
  upload_pdf timestamp file s = (s', OK reply) →
  is_Some (get (up_filename reply) (processed_documents s')) ∧
  match up_warning reply with
  | None =>
      index_reflects_corpus s' ∧
      ∀ chunks doc,
        get (up_filename reply) (processed_documents s') = Some chunks →
        doc ∈ chunks →
        ∃ store, vector_store (rage_engine s') = Some store ∧
                 doc ∈ docstore store
  | Some msg =>
      (build_index (all_processed_documents (processed_documents s'))
         = Raised msg ∧
       rage_engine s' = rage_engine s) ∨
      (index_reflects_corpus s' ∧
       ∃ e1,
         create_vector_store_from_documents (rage_engine s)
           (all_processed_documents (processed_documents s')) = Returns e1 ∧
         setup_qa_chain_error e1 = Some msg ∧
         qa_chain (rage_engine s') = qa_chain_after_error e1)
  end.
Proof.
  intros Hup.
  apply upload_pdf_ok_inv in Hup
    as (name & chunks & info & tps & k & Hn & _ & Hf & _ & Hne & Ht & _ & Hpd
        & Hds & Hupd).
  split; [rewrite Hf, Hpd, get_set_eq; by eexists|].
  rewrite <- Hpd in Hupd.
  destruct (up_warning reply) as [msg|].
  - apply update_vector_store_warned in Hupd
      as [[Hb He]|(ix & e1 & Hb & Hc & Hs & Hvs & Hqa)]; [by left|].
    right. split; [unfold index_reflects_corpus; by rewrite Hvs|].
    by exists e1.
  - assert (Hall : all_processed_documents (processed_documents s') ≠ []).
    { apply all_processed_documents_nonempty
        with (stored_name timestamp name) chunks; [|done].
      rewrite Hpd. apply get_set_eq. }
    destruct (update_vector_store_built _ _ _ Hall Hupd) as (ix & _ & Hvs & Hqa).
    split.
    { unfold index_reflects_corpus. by rewrite Hvs. }
    intros cs doc Hget Hdoc. eexists. split; [exact Hvs|]. simpl.
    eapply all_processed_documents_elem; [|exact Hdoc].
    by apply get_Some_elem in Hget.
Qed.
End upload_more.

(** * Invariants of the corpus, and deletion *)

Section corpus_invariants.
Context `{Collaborators}.
Import PyDict PyDictFacts PyDictMore.

(** Whatever the answer, an upload either leaves the two maps alone or
    stores one document, with at least one chunk, in both. *)
Lemma upload_pdf_corpus timestamp file s s' r :
  upload_pdf timestamp file s = (s', r) →
  (processed_documents s' = processed_documents s ∧
   document_sections s' = document_sections s) ∨
  ∃ filename chunks doc_info,
    chunks ≠ [] ∧
    processed_documents s' = set filename chunks (processed_documents s) ∧
    document_sections s' = set filename doc_info (document_sections s).
Proof.
  intros Hup.
  destruct (uf_filename file) as [name|] eqn:Hname.
  2:{ rewrite upload_pdf_rejects_name in Hup
        by (unfold invalid_upload_name; by rewrite Hname).
      injection Hup as <- <-. by left. }
  destruct (negb (0 <? String.length name)%nat || negb (endswith name ".pdf"))
    eqn:Ev.
  { unfold upload_pdf in Hup. rewrite Hname, Ev in Hup.
    injection Hup as <- <-. by left. }
  apply orb_false_elim in Ev as [Ev1 Ev2]. apply negb_false_iff in Ev1, Ev2.
  assert (Hne : name ≠ EmptyString) by (by intros ->).
  destruct (upload_pdf_saved _ _ _ _ _ _ Hname Hne Ev2 Hup)
    as [(_ & Hpd & Hds & _)|(k & s1 & r1 & _ & _ & _ & Ep & Hres)];
    [by left|].
  assert (Hmaps : processed_documents s' = processed_documents s1 ∧
                  document_sections s' = document_sections s1).
  { destruct r1; destruct Hres as [-> _]; done. }
  destruct Hmaps as [-> ->].
  apply process_upload_cases in Ep
    as [(-> & _)|(chunks & doc_info & _ & Hcne & _ & Hpd & Hrest)];
    [by left|].
  right.
  destruct Hrest as [(? & _ & _ & Hds & _)|(? & ? & _ & _ & _ & Hds & _)];
    by eexists _, chunks, _.
Qed.

Lemma corpus_ok_set s s' filename chunks doc_info :
  corpus_ok s → chunks ≠ [] →
  processed_documents s' = set filename chunks (processed_documents s) →
  document_sections s' = set filename doc_info (document_sections s) →
  corpus_ok s'.
Proof.
  intros (Hw1 & Hw2 & Hne & Hsub) Hc Hpd Hds. unfold corpus_ok.
  rewrite Hpd, Hds. split; [by apply wf_set|]. split; [by apply wf_set|].
  split.
  - intros k cs. rewrite get_set. destruct (String.eqb k filename).
    + by intros [= <-].
    + apply Hne.
  - intros k. unfold mem. rewrite !get_set.
    destruct (String.eqb k filename); [done|]. apply Hsub.
Qed.

(** Uploads keep the corpus well formed, whether they succeed or fail:
    keys stay distinct, no document is stored without chunks, and every
    processed document has its section information. *)
Theorem upload_pdf_keeps_corpus_ok timestamp file s s' r :
  corpus_ok s → upload_pdf timestamp file s = (s', r) → corpus_ok s'.
Proof.
  intros Hok Hup.
  apply upload_pdf_corpus in Hup as [[Hpd Hds]|(f & cs & info' & ? & ? & ?)].
  - unfold corpus_ok. by rewrite Hpd, Hds.
  - by eapply corpus_ok_set.
Qed.

(** Whatever the answer, a deletion leaves the section information alone
    and removes at most the one document from the processed documents. *)
Lemma delete_file_corpus filename s s' r :
  delete_file filename s = (s', r) →
  document_sections s' = document_sections s ∧
  (processed_documents s' = processed_documents s ∨
   (is_ok r = true ∧
    processed_documents s' = del filename (processed_documents s) ∧
    ∃ k, resolve (fs s) (path_join UPLOAD_DIR filename) = At k ∧
         kind_of (fs s) k = Some RegularFile ∧
         fs s' = unlink k (fs s))).
Proof.
  destruct (is_file (path_join UPLOAD_DIR filename) (fs s)) eqn:Hfile.
  - apply is_file_resolved in Hfile as (k & Hr & Hk).
    destruct (delete_file_present filename s k Hr Hk) as (e' & reply & -> & _).
    intros [= <- <-]. split; [done|]. right.
    split; [done|]. split; [done|]. by exists k.
  - unfold delete_file.
    destruct (path_exists _ (fs s)) eqn:Hex;
      [|intros [= <- <-]; split; [done|by left]].
    simpl. destruct (os_remove _ (fs s)) as [files|msg] eqn:Hrm;
      [|intros [= <- <-]; split; [done|by left]].
    apply os_remove_inv in Hrm as (k & Hr & Hk & _).
    assert (is_file (path_join UPLOAD_DIR filename) (fs s) = true)
      by (apply is_file_resolved; by exists k).
    congruence.
Qed.

(** Deletions keep the corpus well formed. *)
Theorem delete_file_keeps_corpus_ok filename s s' r :
  corpus_ok s → delete_file filename s = (s', r) → corpus_ok s'.
Proof.
  intros (Hw1 & Hw2 & Hne & Hsub) Hdel.
  apply delete_file_corpus in Hdel as [Hds [Hpd|(_ & Hpd & _)]];
    unfold corpus_ok; rewrite Hds, Hpd; [done|].
  split; [by apply wf_del|]. split; [done|]. split.
  - intros k cs Hget. apply get_del_Some in Hget as [_ Hget]; [|done].
    by eapply Hne.
  - intros k Hmem. apply Hsub. apply mem_get in Hmem as [cs Hget].
    apply get_del_Some in Hget as [_ Hget]; [|done].
    apply mem_get. by eexists.
Qed.

(** The section information outlives the document: a deletion, whatever
    its answer, leaves [document_sections] as it was, so that the related
    documents of every file are answered as before, the deleted file
    still being listed. *)
Theorem delete_file_keeps_sections filename s s' r :
  delete_file filename s = (s', r) →
  document_sections s' = document_sections s ∧
  ∀ other, get_related_documents other s' = get_related_documents other s.
Proof.
  intros Hdel. apply delete_file_corpus in Hdel as [Hds _].
  split; [done|]. intros other. unfold get_related_documents. by rewrite Hds.
Qed.

(** A second deletion of the same file is answered 404 and changes
    nothing. *)
Theorem delete_file_twice filename s s' reply :
  delete_file filename s = (s', OK reply) →
  delete_file filename s' = (s', HTTPException 404 "File not found").
Proof.
  intros Hdel.
  destruct (delete_file_ok_file _ _ _ _ Hdel) as (k & Hr & Hk).
  destruct (delete_file_present filename s k Hr Hk) as (e' & r & Heq & _).
  rewrite Heq in Hdel. injection Hdel as <- _.
  unfold delete_file. simpl. by rewrite path_exists_unlink.
Qed.

(** When the index construction raises during the deletion of a file on
    disk, the deletion still succeeds: the file and the document are
    removed, the answer carries the error as a warning, and the engine
    keeps the index built before the deletion. *)
Theorem delete_file_rebuild_failure filename s msg :
  is_file (path_join UPLOAD_DIR filename) (fs s) = true →
  all_processed_documents (del filename (processed_documents s)) ≠ [] →
  build_index (all_processed_documents (del filename (processed_documents s)))
    = Raised msg →
  ∃ s',
    delete_file filename s =
      (s', OK {| del_message :=
                   "File deleted, but vector store update failed. Some features may be limited.";
                 del_warning := Some msg |}) ∧
    path_exists (path_join UPLOAD_DIR filename) (fs s') = false ∧
    processed_documents s' = del filename (processed_documents s) ∧
    rage_engine s' = rage_engine s.
Proof.
  intros (k & Hr & Hk)%is_file_resolved Hne Hbuild. unfold delete_file.
  rewrite is_file_exists by (apply is_file_resolved; by exists k). simpl.
  rewrite (os_remove_file _ _ k) by done. rewrite delete_entry.
  rewrite (update_vector_store_build_raises _ _ msg) by done.
  eexists. split; [reflexivity|]. simpl.
  by rewrite path_exists_unlink.
Qed.

(** Deleting a freshly uploaded document restores the processed
    documents and removes the file, the disk being as before the upload
    but for what was at the upload path; the section information of the
    upload stays. *)
Theorem upload_then_delete timestamp file s s1 reply :
  upload_pdf timestamp file s = (s1, OK reply) →
  get (up_filename reply) (processed_documents s) = None →
  ∃ s2 r2,
    delete_file (up_filename reply) s1 = (s2, OK r2) ∧
    processed_documents s2 = processed_documents s ∧
    path_exists (path_join UPLOAD_DIR (up_filename reply)) (fs s2) = false ∧
    (∃ k, resolve (fs s) (path_join UPLOAD_DIR (up_filename reply)) = At k ∧
          fs s2 = unlink k (fs s)) ∧
    mem (up_filename reply) (document_sections s2) = true.
Proof.
  intros Hup Hfresh.
  apply upload_pdf_ok_inv in Hup
    as (name & chunks & info & tps & k & _ & _ & Hf & _ & _ & _
        & (Hr & Hk & Hfs) & Hpd & Hds & _).
  rewrite Hf in *.
  set (path := path_join UPLOAD_DIR (stored_name timestamp name)) in *.
  destruct (written path (fs s) k Hr Hk) as (Hr' & Hk' & _).
  rewrite <- Hfs in Hr', Hk'.
  destruct (delete_file_present (stored_name timestamp name) s1 k Hr' Hk')
    as (e' & r2 & -> & _).
  eexists _, r2. split; [reflexivity|]. simpl.
  rewrite Hpd, Hds, del_set_fresh by done.
  split; [done|]. split; [by apply path_exists_unlink|].
  split; [exists k; by rewrite Hfs, unlink_write|].
  unfold mem. by rewrite get_set_eq.
Qed.
End corpus_invariants.

(** * The handlers keyed on the processed documents *)

Section keyed_handlers.
Context `{Collaborators} `{PythonRuntime} `{LLMService}.
Import PyDict PyDictFacts PyDictMore PySort PySortFacts.

Lemma delete_file_ok_inv filename s s' reply :
  delete_file filename s = (s', OK reply) →
  is_file (path_join UPLOAD_DIR filename) (fs s) = true ∧
  path_exists (path_join UPLOAD_DIR filename) (fs s') = false ∧
  processed_documents s' = del filename (processed_documents s) ∧
  document_sections s' = document_sections s.
Proof.
  intros Hdel.
  destruct (delete_file_ok_file _ _ _ _ Hdel) as (k & Hr & Hk).
  destruct (delete_file_present filename s k Hr Hk) as (e' & r & Heq & _).
  rewrite Heq in Hdel. injection Hdel as <- _. simpl.
  split; [apply is_file_resolved; by exists k|].
  split; [by apply path_exists_unlink|done].
Qed.

(** After a successful deletion the document is unknown to every handler
    keyed on the processed documents: explanation, scoped query, summary,
    explanation of highlighted text and chunk inspection answer 404, and a
    synthesis skips it. *)
Theorem delete_file_forgets_document filename s s' reply :
  wf (processed_documents s) →
  delete_file filename s = (s', OK reply) →
  (∀ sentence,
     get_sentence_explanation
       {| er_filename := filename; er_sentence := sentence |} s' =
     HTTPException 404 "Processed data not found for this file.") ∧
  (∀ question,
     query_document
       {| qd_question := question; qd_document_id := filename |} s' =
     HTTPException 404 "Document not found") ∧
  (∀ audience,
     summarize_paper
       {| sum_filename := filename; sum_audience_type := audience |} s' =
     HTTPException 404 "Processed data not found for this file") ∧
  (∀ selected context question audience,
     explain_highlighted_text
       {| et_filename := filename; et_selected_text := selected;
          et_context := context; et_question := question;
          et_audience_type := audience |} s' =
     HTTPException 404 "Document not found") ∧
  (∀ start_idx limit,
     debug_chunks filename start_idx limit s' =
     HTTPException 404 "Document not found") ∧
  paper_entry s' filename = None.
Proof.
  intros Hwf Hdel. apply delete_file_ok_inv in Hdel as (_ & _ & Hpd & _).
  assert (Hgone : get filename (processed_documents s') = None).
  { rewrite Hpd. by apply get_del_eq. }
  unfold get_sentence_explanation, query_document, summarize_paper,
    explain_highlighted_text, debug_chunks, paper_entry, mem. simpl.
  by rewrite Hgone.
Qed.

(** The summary is asked for the text of all the chunks of the document,
    in order, one per line, with the sections of the document; an
    exception of the LLM and a summary it reports as an error are both
    answered 500, and otherwise the summary is returned with the audience
    requested.  In a well-formed corpus the answer is never 400. *)
Theorem summarize_paper_outcomes request s chunks :
  corpus_ok s →
  get (sum_filename request) (processed_documents s) = Some chunks →
  ∃ doc_info,
    get (sum_filename request) (document_sections s) = Some doc_info ∧
    match generate_summary (full_text_of chunks) (sum_audience_type request)
            (sections doc_info) with
    | Raised msg =>
        summarize_paper request s =
          HTTPException 500 ("Error during summarization: " +:+ msg)
    | Returns result =>
        if bool_decide (sr_status result = Some "error")
        then summarize_paper request s =
               HTTPException 500
                 ("Error during summarization: 500: Summarization failed: "
                  +:+ default "None" (sr_error result))
        else summarize_paper request s =
               OK {| sum_message :=
                       default "Summarization failed" (sr_summary result);
                     sum_audience := sum_audience_type request |}
    end.
Proof.
  intros (_ & _ & Hne & Hsub) Hget.
  destruct (get (sum_filename request) (document_sections s)) as [info|] eqn:Hi.
  2:{ assert (Hm : mem (sum_filename request) (document_sections s) = true).
      { apply Hsub. unfold mem. by rewrite Hget. }
      unfold mem in Hm. by rewrite Hi in Hm. }
  exists info. split; [done|]. unfold summarize_paper. rewrite Hget, Hi.
  pose proof (Hne _ _ Hget) as Hc. destruct chunks as [|doc docs]; [done|].
  destruct (generate_summary _ _ _) as [result|msg]; [|done].
  by destruct (bool_decide _).
Qed.
End keyed_handlers.

(** * Queries, explanations and their failures *)

Section similarity_more.
Context `{Collaborators} `{PythonRuntime}.
Import PyDict PyDictFacts PySort PySortFacts.

(** The file names of a query do not scope it: with any two non-empty
    lists of names the same question is answered alike, from the whole
    index. *)
Theorem query_papers_ignores_filenames question names1 names2 s :
  names1 ≠ [] → names2 ≠ [] →
  query_papers {| query := question; filenames := Some names1 |} s =
  query_papers {| query := question; filenames := Some names2 |} s.
Proof.
  intros H1 H2. unfold query_papers. simpl.
  destruct names1; [done|]. by destruct names2.
Qed.



(** The chunks of an explanation are the first three of the chunks the
    scoped query retrieves for the same text in the same document. *)
Theorem explanation_prefix_of_relevant text document chunks retrieved s :
  get document (processed_documents s) = Some chunks →
  relevant_chunks text chunks = Returns retrieved →
  get_sentence_explanation
    {| er_filename := document; er_sentence := text |} s =
  OK {| source_chunks := take 3 retrieved;
        confidence := mean_similarity (take 3 retrieved) |}.
Proof.
  intros Hget. unfold relevant_chunks, get_sentence_explanation. simpl.
  rewrite Hget. destruct (aembed_query text) as [e|msg]; [|done]. simpl.
  destruct (score_chunks e chunks) as [sims|msg]; [|done]. simpl.
  intros [= <-]. by rewrite take_take.
Qed.

Lemma score_chunks_raises e before bad after msg :
  (∀ doc, doc ∈ before → ∃ ce, aembed_query (page_content doc) = Returns ce) →
  aembed_query (page_content bad) = Raised msg →
  score_chunks e (before ++ bad :: after)%list = Raised msg.
Proof.
  intros Hbefore Hbad. induction before as [|doc before IH]; simpl.
  - by rewrite Hbad.
  - destruct (Hbefore doc) as [ce ->]; [left|]. simpl.
    rewrite IH; [done|]. intros d Hd. apply Hbefore. by right.
Qed.

(** One chunk whose embedding fails fails the whole request: the
    explanation and the scoped query both answer 500 with the error of
    the first chunk, in document order, that the embedder rejects. *)
Theorem chunk_embedding_failure text document before bad after e msg s :
  get document (processed_documents s) = Some (before ++ bad :: after)%list →
  aembed_query text = Returns e →
  (∀ doc, doc ∈ before → ∃ ce, aembed_query (page_content doc) = Returns ce) →
  aembed_query (page_content bad) = Raised msg →
  get_sentence_explanation
    {| er_filename := document; er_sentence := text |} s =
    HTTPException 500 ("Error getting sentence explanation: " +:+ msg) ∧
  query_document
    {| qd_question := text; qd_document_id := document |} s =
    HTTPException 500 ("Error querying document: " +:+ msg).
Proof.
  intros Hget He Hbefore Hbad.
  unfold get_sentence_explanation, query_document, relevant_chunks. simpl.
  rewrite Hget, He. simpl.
  by rewrite (score_chunks_raises e before bad after msg Hbefore Hbad).
Qed.
End similarity_more.

(** * Related documents: the entries of an answer *)

Section related_more.
Import PyDict PyDictFacts PySort PySortFacts.
Implicit Types (T O : gset string).

Lemma size_overlap_le T O : (size (T ∩ O) ≤ size (T ∪ O))%nat.
Proof.
  apply subseteq_size. intros x Hx. apply elem_of_intersection in Hx as [Hx _].
  by apply elem_of_union_l.
Qed.

Lemma pos_of_size n : n ≠ 0%nat → Z.pos (Pos.of_nat n) = Z.of_nat n.
Proof.
  destruct n as [|n]; [done|]. intros _.
  by rewrite <- Pos.of_nat_succ, Zpos_P_of_succ_nat, Nat2Z.inj_succ.
Qed.

Lemma overlap_score_range T O :
  size (T ∩ O) ≠ 0%nat →
  (0 < overlap_score T O ∧ overlap_score T O <= 1)%Q.
Proof.
  intros Hov. pose proof (overlap_union_nonempty T O Hov) as Hun.
  pose proof (size_overlap_le T O) as Hle.
  unfold overlap_score, Qlt, Qle. simpl. rewrite pos_of_size by done.
  split; lia.
Qed.

Lemma overlap_score_one T O :
  size (T ∩ O) ≠ 0%nat → (overlap_score T O == 1)%Q ↔ T = O.
Proof.
  intros Hov. pose proof (overlap_union_nonempty T O Hov) as Hun.
  unfold overlap_score, Qeq. simpl. rewrite pos_of_size by done.
  split.
  - intros Heq.
    assert (Hsets : T ∩ O = T ∪ O).
    { apply set_subseteq_size_eq; [|lia].
      intros x Hx. apply elem_of_intersection in Hx as [Hx _].
      by apply elem_of_union_l. }
    apply set_eq. intros x. split; intros Hx.
    + assert (Hu : x ∈ T ∪ O) by by apply elem_of_union_l.
      rewrite <- Hsets in Hu. by apply elem_of_intersection in Hu as [_ ?].
    + assert (Hu : x ∈ T ∪ O) by by apply elem_of_union_r.
      rewrite <- Hsets in Hu. by apply elem_of_intersection in Hu as [? _].
  - intros <-. rewrite (idemp_L (∩) T), (idemp_L (∪) T). lia.
Qed.

(** What an answered request for related documents ranked. *)
Lemma get_related_documents_ok_inv A s rs :
  get_related_documents A s = OK rs →
  ∃ infoA,
    get A (document_sections s) = Some infoA ∧
    rs = take 5 (ranking A infoA (document_sections s)).
Proof.
  intros Hrun.
  destruct (get A (document_sections s)) as [infoA|] eqn:Hget.
  - rewrite (get_related_documents_ranking _ _ _ Hget) in Hrun.
    injection Hrun as <-. by exists infoA.
  - unfold get_related_documents in Hrun. by rewrite Hget in Hrun.
Qed.

Lemma ranking_entry A infoA ds r :
  wf ds → r ∈ ranking A infoA ds →
  ∃ infoB,
    get (r_filename r) ds = Some infoB ∧ r_filename r ≠ A ∧
    size (topic_set infoA ∩ topic_set infoB) ≠ 0%nat ∧
    r = entry_for (topic_set infoA) (r_filename r) infoB.
Proof.
  intros Hwf Hr. unfold ranking in Hr.
  apply sort_reverse_elem, elem_related_candidates in Hr
    as (k & info & Hin & Hk & Hov & ->).
  exists info. simpl. split; [by apply elem_get|done].
Qed.

(** Every entry of a list of related documents is another document of the
    corpus, listed once, with a score in (0, 1] and a non-empty list of
    common topics, which are exactly the topics the two documents share;
    the list has at most five entries. *)
Theorem get_related_documents_entries A s rs :
  wf (document_sections s) →
  get_related_documents A s = OK rs →
  (length rs ≤ 5)%nat ∧
  NoDup (map r_filename rs) ∧
  ∃ infoA,
    get A (document_sections s) = Some infoA ∧
    ∀ r, r ∈ rs →
      r_filename r ≠ A ∧
      (0 < similarity_score r ∧ similarity_score r <= 1)%Q ∧
      common_topics r ≠ [] ∧
      ∃ infoB,
        get (r_filename r) (document_sections s) = Some infoB ∧
        ∀ t, t ∈ common_topics r ↔
             t ∈ topic_set infoA ∧ t ∈ topic_set infoB.
Proof.
  intros Hwf Hrun.
  apply get_related_documents_ok_inv in Hrun as (infoA & Hget & ->).
  split; [rewrite length_take; lia|].
  split.
  { eapply sublist_NoDup; [|apply fmap_sublist, sublist_take].
    unfold ranking. rewrite sort_reverse_perm.
    eapply sublist_NoDup; [exact Hwf|apply related_candidates_order]. }
  exists infoA. split; [done|]. intros r Hr.
  apply subseteq_take, ranking_entry in Hr
    as (infoB & HgetB & Hne & Hov & Hentry); [|done].
  split; [done|]. rewrite Hentry. simpl.
  split; [by apply overlap_score_range|].
  split.
  { intros Hnil. apply elements_empty_inv in Hnil. apply Hov.
    by apply size_empty_iff. }
  exists infoB. split; [done|]. intros t.
  by rewrite elem_of_elements, elem_of_intersection.
Qed.

(** An entry has score 1 exactly when the document has the same topic set
    as the one asked about. *)
Theorem related_score_one A s rs r :
  wf (document_sections s) →
  get_related_documents A s = OK rs →
  r ∈ rs →
  ∃ infoA infoB,
    get A (document_sections s) = Some infoA ∧
    get (r_filename r) (document_sections s) = Some infoB ∧
    ((similarity_score r == 1)%Q ↔ topic_set infoA = topic_set infoB).
Proof.
  intros Hwf Hrun Hr.
  apply get_related_documents_ok_inv in Hrun as (infoA & Hget & ->).
  apply subseteq_take, ranking_entry in Hr
    as (infoB & HgetB & Hne & Hov & Hentry); [|done].
  exists infoA, infoB. split; [done|]. split; [done|].
  rewrite Hentry. simpl. by apply overlap_score_one.
Qed.
End related_more.

(** * Strings and slices *)

Section strings_slices.

Lemma append_cons x (a b : string) : String x a +:+ b = String x (a +:+ b).
Proof. reflexivity. Qed.

Lemma append_empty (b : string) : EmptyString +:+ b = b.
Proof. reflexivity. Qed.

Lemma length_append (a b : string) :
  String.length (a +:+ b) = (String.length a + String.length b)%nat.
Proof.
  induction a as [|c a IH]; [done|].
  rewrite append_cons. simpl. by rewrite IH.
Qed.

Lemma append_assoc (a b c : string) : (a +:+ b) +:+ c = a +:+ (b +:+ c).
Proof.
  induction a as [|x a IH]; [done|]. rewrite !append_cons. by f_equal.
Qed.

Lemma lower_append (a b : string) : lower (a +:+ b) = lower a +:+ lower b.
Proof.
  induction a as [|c a IH]; [done|].
  rewrite append_cons. simpl. rewrite append_cons. by f_equal.
Qed.

Lemma substring_all (s : string) : substring 0 (String.length s) s = s.
Proof. induction s as [|c s IH]; simpl; [done|]. by rewrite IH. Qed.

Lemma substring_skip (a s : string) m :
  substring (String.length a) m (a +:+ s) = substring 0 m s.
Proof.
  induction a as [|c a IH]; [done|]. rewrite append_cons. simpl. exact IH.
Qed.

Lemma substring_split n m (s : string) :
  (n + m)%nat = String.length s → s = substring 0 n s +:+ substring n m s.
Proof.
  revert n. induction s as [|c s IH]; intros [|n] Hlen.
  - simpl in Hlen. by subst m.
  - done.
  - simpl in Hlen. rewrite Hlen.
    change (substring 0 0 (String c s)) with EmptyString.
    rewrite append_empty. symmetry. apply (substring_all (String c s)).
  - change (substring 0 (S n) (String c s)) with (String c (substring 0 n s)).
    change (substring (S n) m (String c s)) with (substring n m s).
    rewrite append_cons. f_equal. apply IH. simpl in Hlen. lia.
Qed.

Lemma length_str_prefix n (s : string) : (String.length (str_prefix n s) ≤ n)%nat.
Proof.
  unfold str_prefix. revert s. induction n as [|n IH]; intros [|c s]; simpl;
    try lia.
  specialize (IH s). lia.
Qed.

Lemma endswith_append (a suffix : string) : endswith (a +:+ suffix) suffix = true.
Proof.
  unfold endswith. rewrite length_append.
  replace (String.length a + String.length suffix - String.length suffix)%nat
    with (String.length a) by lia.
  rewrite substring_skip, substring_all, String.eqb_refl.
  apply andb_true_iff. split; [|done]. apply Nat.leb_le. lia.
Qed.

Lemma endswith_inv (s suffix : string) :
  endswith s suffix = true → ∃ a, s = a +:+ suffix.
Proof.
  unfold endswith. intros Hend. apply andb_true_iff in Hend as [Hle Heq].
  apply Nat.leb_le in Hle. apply String.eqb_eq in Heq.
  exists (substring 0 (String.length s - String.length suffix) s).
  pose proof (substring_split (String.length s - String.length suffix)
                (String.length suffix) s) as Hsplit.
  rewrite Heq in Hsplit. apply Hsplit. lia.
Qed.

Lemma split_count_pos sep (s : string) : (1 ≤ split_count sep s)%nat.
Proof.
  induction s as [|c s IH]; simpl; [done|]. destruct (Ascii.eqb c sep); lia.
Qed.

(** A slice with a non-negative start and a stop not before the start and
    not beyond the end takes the elements from the start on. *)
Lemma py_slice_window {A} (l : list A) (start limit : Z) :
  (0 <= start)%Z → (0 <= limit)%Z →
  py_slice l start (Z.min (start + limit) (Z.of_nat (length l))) =
  take (Z.to_nat limit) (drop (Z.to_nat start) l).
Proof.
  intros Hs Hl. unfold py_slice, slice_bound.
  set (n := Z.of_nat (length l)).
  destruct (start <? 0)%Z eqn:E1; [lia|].
  destruct (Z.min (start + limit) n <? 0)%Z eqn:E2; [lia|].
  destruct (Z_le_gt_dec start n) as [Hle|Hgt].
  - rewrite (Z.min_l start n) by lia.
    rewrite (Z.min_l (Z.min (start + limit) n) n) by lia.
    destruct (Z_le_gt_dec (start + limit) n) as [Hle2|Hgt2].
    + rewrite Z.min_l by lia. f_equal. lia.
    + rewrite Z.min_r by lia.
      rewrite !take_ge; [done| |]; rewrite length_drop; lia.
  - rewrite (Z.min_r start n) by lia.
    rewrite (Z.min_r (start + limit) n) by lia.
    rewrite Z.min_l by lia. rewrite Z.sub_diag. simpl.
    rewrite (drop_ge l (Z.to_nat start)) by lia. by rewrite take_nil.
Qed.
End strings_slices.

(** * Serving, inspecting and synthesizing *)

Section inspection.
Context `{Collaborators} `{LLMService}.
Import PyDict PyDictFacts PyDictMore.

(** Every file a successful upload stored can be served: it is on disk
    and its name passes the extension test of [serve_pdf]. *)
Theorem serve_pdf_after_upload timestamp file s s' reply :
  upload_pdf timestamp file s = (s', OK reply) →
  serve_pdf (up_filename reply) s' =
    OK (path_join UPLOAD_DIR (up_filename reply)).
Proof.
  intros Hup.
  apply upload_pdf_ok_inv in Hup
    as (name & chunks & info & tps & k & _ & Hpdf & Hf & _ & _ & _
        & (Hr & Hk & Hfs) & _).
  destruct (written _ _ _ Hr Hk) as (_ & _ & Hex & _).
  unfold serve_pdf. rewrite Hf, Hfs, Hex. simpl.
  apply endswith_inv in Hpdf as [a ->]. unfold stored_name.
  rewrite <- !append_assoc, lower_append.
  change (lower ".pdf") with ".pdf". by rewrite endswith_append.
Qed.

(** For a start within the document and a non-negative limit, the chunk
    inspection reports the number of chunks of the document and shows the
    chunks from the start on, at most [limit] of them, each with at least
    one sentence counted. *)
Theorem debug_chunks_window filename start_idx limit chunks s :
  get filename (processed_documents s) = Some chunks →
  (0 <= start_idx)%Z → (0 <= limit)%Z →
  ∃ reply,
    debug_chunks filename start_idx limit s = OK reply ∧
    dc_total_chunks reply = length chunks ∧
    dc_chunks reply =
      map chunk_view
        (take (Z.to_nat limit) (drop (Z.to_nat start_idx) chunks)) ∧
    (length (dc_chunks reply) ≤ Z.to_nat limit)%nat ∧
    Forall (fun v => (1 ≤ cv_sentences v)%nat) (dc_chunks reply).
Proof.
  intros Hget Hs Hl. unfold debug_chunks. rewrite Hget.
  eexists. split; [reflexivity|]. simpl.
  rewrite py_slice_window by done.
  split; [done|]. split; [done|]. split.
  - rewrite length_map, length_take. lia.
  - apply Forall_forall. intros v Hv.
    apply list_elem_of_fmap in Hv as (doc & -> & _). apply split_count_pos.
Qed.

Lemma findings_extract_section p name content :
  pd_findings (extract_section p (name, content)) =
  if is_findings_section name then Some (str_prefix 1000 content)
  else pd_findings p.
Proof.
  unfold extract_section. destruct (is_findings_section name); [done|].
  by destruct (is_methods_section name).
Qed.

(** The fields extracted from a list of sections onto a paper. *)
Lemma extract_sections_findings acc (l : list (string * string)) :
  (pd_findings (foldl extract_section acc l) = pd_findings acc ∧
   ∀ n c, (n, c) ∈ l → is_findings_section n = false) ∨
  ∃ l1 name content l2,
    l = (l1 ++ (name, content) :: l2)%list ∧
    is_findings_section name = true ∧
    pd_findings (foldl extract_section acc l) =
      Some (str_prefix 1000 content) ∧
    ∀ n c, (n, c) ∈ l2 → is_findings_section n = false.
Proof.
  induction l as [|[name content] l IH] using rev_ind.
  - left. split; [done|]. intros n c Hin. by apply elem_of_nil in Hin.
  - rewrite foldl_snoc, findings_extract_section.
    destruct (is_findings_section name) eqn:Ef.
    + right. exists l, name, content, []. repeat (split; [done|]).
      intros n c Hin. by apply elem_of_nil in Hin.
    + destruct IH as [[Heq Hnone]|(l1 & n0 & c0 & l2 & -> & Hf & Heq & Hnone)].
      * left. split; [done|]. intros n c Hin.
        apply elem_of_app in Hin as [Hin|Hin]; [by eapply Hnone|].
        apply list_elem_of_singleton in Hin. by injection Hin as -> ->.
      * right. exists l1, n0, c0, (l2 ++ [(name, content)])%list.
        split; [by rewrite <- app_assoc|]. split; [done|]. split; [done|].
        intros n c Hin.
        apply elem_of_app in Hin as [Hin|Hin]; [by eapply Hnone|].
        apply list_elem_of_singleton in Hin. by injection Hin as -> ->.
Qed.

(** The findings of a paper are the first 1000 characters of the last
    section whose name contains "finding" or "result", whatever the case
    of the letters; there are none when no section is so named. *)
Theorem paper_data_findings filename doc_info :
  match pd_findings (paper_data_of filename doc_info) with
  | None =>
      ∀ name content,
        (name, content) ∈ sections doc_info →
        is_findings_section name = false
  | Some text =>
      (String.length text ≤ 1000)%nat ∧
      ∃ before name content after,
        sections doc_info = (before ++ (name, content) :: after)%list ∧
        is_findings_section name = true ∧
        text = str_prefix 1000 content ∧
        ∀ n c, (n, c) ∈ after → is_findings_section n = false
  end.
Proof.
  unfold paper_data_of, items.
  destruct (extract_sections_findings
              {| pd_title := default filename (title doc_info);
                 pd_year := default "Unknown" (creation_date doc_info);
                 pd_topics := default [] (topics doc_info);
                 pd_sections := sections doc_info;
                 pd_findings := None; pd_methods := None |}
              (sections doc_info))
    as [[-> Hnone]|(l1 & name & content & l2 & Hsplit & Hf & -> & Hnone)].
  - exact Hnone.
  - split; [apply length_str_prefix|]. by exists l1, name, content, l2.
Qed.

Lemma papers_data_of_nil filenames s :
  papers_data_of filenames s = [] ↔
  ∀ f, f ∈ filenames → paper_entry s f = None.
Proof.
  unfold papers_data_of. induction filenames as [|f fs IH]; simpl.
  - split; [|done]. intros _ f Hf. by apply elem_of_nil in Hf.
  - destruct (paper_entry s f) as [p|] eqn:Ep.
    + split; [done|]. intros Hall. specialize (Hall f). rewrite Ep in Hall.
      discriminate Hall. left.
    + rewrite IH. split.
      * intros Hall g Hg. apply elem_of_cons in Hg as [->|Hg]; auto.
      * intros Hall g Hg. apply Hall. by right.
Qed.

(** In a well-formed corpus a synthesis is refused with status 400,
    without consulting the LLM, exactly when none of the requested files
    is a processed document; a deleted document is skipped although its
    section information is still held. *)
Theorem synthesize_topic_no_valid request s :
  corpus_ok s →
  synthesize_topic request s =
    HTTPException 400 "No valid papers found for synthesis" ↔
  ∀ f, f ∈ sy_filenames request → mem f (processed_documents s) = false.
Proof.
  intros (_ & _ & _ & Hsub).
  assert (Hentry : ∀ f, paper_entry s f = None ↔
                        mem f (processed_documents s) = false).
  { intros f. unfold paper_entry.
    destruct (mem f (processed_documents s)) eqn:Hm; [|done].
    specialize (Hsub f Hm). unfold mem in Hsub.
    by destruct (get f (document_sections s)). }
  unfold synthesize_topic.
  destruct (papers_data_of (sy_filenames request) s) as [|p ps] eqn:Ep.
  - split; [|done]. intros _ f Hf. apply Hentry.
    by eapply papers_data_of_nil.
  - split.
    + by destruct (synthesize_papers _ _).
    + intros Hall. exfalso.
      assert (Hnil : papers_data_of (sy_filenames request) s = []).
      { apply papers_data_of_nil. intros f Hf. by apply Hentry, Hall. }
      by rewrite Hnil in Ep.
Qed.
End inspection.

Section paper_methods.
Import PyDict.

Lemma methods_extract_section p name content :
  pd_methods (extract_section p (name, content)) =
  if negb (is_findings_section name) && is_methods_section name
  then Some (str_prefix 1000 content)
  else pd_methods p.
Proof.
  unfold extract_section. destruct (is_findings_section name); [done|].
  by destruct (is_methods_section name).
Qed.

Lemma extract_sections_methods acc (l : list (string * string)) :
  (pd_methods (foldl extract_section acc l) = pd_methods acc ∧
   ∀ n c, (n, c) ∈ l →
          negb (is_findings_section n) && is_methods_section n = false) ∨
  ∃ l1 name content l2,
    l = (l1 ++ (name, content) :: l2)%list ∧
    negb (is_findings_section name) && is_methods_section name = true ∧
    pd_methods (foldl extract_section acc l) =
      Some (str_prefix 1000 content) ∧
    ∀ n c, (n, c) ∈ l2 →
           negb (is_findings_section n) && is_methods_section n = false.
Proof.
  induction l as [|[name content] l IH] using rev_ind.
  - left. split; [done|]. intros n c Hin. by apply elem_of_nil in Hin.
  - rewrite foldl_snoc, methods_extract_section.
    destruct (negb (is_findings_section name) && is_methods_section name)
      eqn:Em.
    + right. exists l, name, content, []. repeat (split; [done|]).
      intros n c Hin. by apply elem_of_nil in Hin.
    + destruct IH as [[Heq Hnone]|(l1 & n0 & c0 & l2 & -> & Hf & Heq & Hnone)].
      * left. split; [done|]. intros n c Hin.
        apply elem_of_app in Hin as [Hin|Hin]; [by eapply Hnone|].
        apply list_elem_of_singleton in Hin. by injection Hin as -> ->.
      * right. exists l1, n0, c0, (l2 ++ [(name, content)])%list.
        split; [by rewrite <- app_assoc|]. split; [done|]. split; [done|].
        intros n c Hin.
        apply elem_of_app in Hin as [Hin|Hin]; [by eapply Hnone|].
        apply list_elem_of_singleton in Hin. by injection Hin as -> ->.
Qed.

(** The methods of a paper are the first 1000 characters of the last
    section whose name contains "method" and neither "finding" nor
    "result": a section named for both results and methods counts as
    findings only. *)
Theorem paper_data_methods filename doc_info :
  match pd_methods (paper_data_of filename doc_info) with
  | None =>
      ∀ name content,
        (name, content) ∈ sections doc_info →
        is_methods_section name = true → is_findings_section name = true
  | Some text =>
      (String.length text ≤ 1000)%nat ∧
      ∃ before name content after,
        sections doc_info = (before ++ (name, content) :: after)%list ∧
        is_methods_section name = true ∧
        is_findings_section name = false ∧
        text = str_prefix 1000 content ∧
        ∀ n c, (n, c) ∈ after →
               is_methods_section n = true → is_findings_section n = true
  end.
Proof.
  unfold paper_data_of, items.
  destruct (extract_sections_methods
              {| pd_title := default filename (title doc_info);
                 pd_year := default "Unknown" (creation_date doc_info);
                 pd_topics := default [] (topics doc_info);
                 pd_sections := sections doc_info;
                 pd_findings := None; pd_methods := None |}
              (sections doc_info))
    as [[-> Hnone]|(l1 & name & content & l2 & Hsplit & Hm & -> & Hnone)].
  - intros name content Hin Hmeth. specialize (Hnone _ _ Hin).
    rewrite Hmeth, andb_true_r in Hnone. by apply negb_false_iff.
  - split; [apply length_str_prefix|].
    apply andb_true_iff in Hm as [Hf Hm]. apply negb_true_iff in Hf.
    exists l1, name, content, l2. repeat (split; [done|]).
    intros n c Hin Hmeth. specialize (Hnone _ _ Hin).
    rewrite Hmeth, andb_true_r in Hnone. by apply negb_false_iff.
Qed.
End paper_methods.

(** * Start-up: invariants *)

Module StartupMore.
Import Startup StartupInv.

Lemma delayed_count_split l i c :
  tasks l !! i = Some c →
  delayed_count l =
    (length (List.filter is_delayed_task (take i (tasks l))) +
     (if is_delayed_task c then 1 else 0) +
     length (List.filter is_delayed_task (drop (S i) (tasks l))))%nat.
Proof.
  intros Hc. unfold delayed_count.
  rewrite <- (take_drop_middle (tasks l) i c Hc) at 1.
  rewrite List.filter_app, length_app. simpl.
  destruct (is_delayed_task c); simpl; lia.
Qed.

Lemma single_initializer_step e l l' :
  single_initializer l → step e l = Some l' → single_initializer l'.
Proof.
  unfold single_initializer. intros Hinv Hstep.
  destruct e as [|i o]; simpl in Hstep.
  - injection Hstep as <-. unfold startup_event.
    destruct (startup_in_progress (startup_state l)) eqn:Hflag;
      [by rewrite Hflag|].
    unfold delayed_count in *. simpl.
    rewrite List.filter_app, length_app. simpl. lia.
  - destruct (tasks l !! i) as [c|] eqn:Hc; [|done].
    rewrite (delayed_count_split l i c Hc) in Hinv.
    destruct (resume c o (startup_state l)) as [[st cont] created] eqn:Hres.
    injection Hstep as <-. unfold delayed_count. simpl.
    rewrite !List.filter_app, !length_app.
    destruct c; simpl in Hres, Hinv.
    + injection Hres as <- <- <-. simpl. lia.
    + injection Hres as <- <- <-. simpl.
      destruct (startup_in_progress (startup_state l));
        destruct (faiss_initialized (startup_state l));
        destruct (arxiv_initialized (startup_state l)); simpl; lia.
    + destruct (faiss_initialized (startup_state l));
        injection Hres as <- <- <-; simpl; lia.
    + destruct o; injection Hres as <- <- <-; simpl; lia.
    + destruct (arxiv_initialized (startup_state l));
        injection Hres as <- <- <-; simpl; lia.
    + destruct o; injection Hres as <- <- <-; simpl; lia.
Qed.

(** However start-up events and task runs interleave, the loop holds
    exactly one delayed-initialization task while [startup_in_progress]
    is up and none while it is down: the flag prevents a second delayed
    initialization from being started alongside the first. *)
Theorem single_initializer_invariant es l :
  run es initial = Some l → single_initializer l.
Proof.
  assert (Hgen : ∀ es l0 l, single_initializer l0 → run es l0 = Some l →
                            single_initializer l).
  { clear. induction es as [|e es IH]; simpl; intros l0 l Hinv Hrun.
    - by injection Hrun as <-.
    - destruct (step e l0) as [l1|] eqn:Hstep; [|done].
      eapply IH; [|exact Hrun]. by eapply single_initializer_step. }
  apply Hgen. reflexivity.
Qed.

Lemma step_readiness e l l' :
  step e l = Some l' →
  (faiss_initialized (startup_state l) = true →
   faiss_initialized (startup_state l') = true) ∧
  (arxiv_initialized (startup_state l) = true →
   arxiv_initialized (startup_state l') = true) ∧
  (faiss_initialized (startup_state l) = false →
   faiss_initialized (startup_state l') = true →
   ∃ i, e = Resume i Success ∧ tasks l !! i = Some FaissWaiting) ∧
  (arxiv_initialized (startup_state l) = false →
   arxiv_initialized (startup_state l') = true →
   ∃ i, e = Resume i Success ∧ tasks l !! i = Some ArxivWaiting).
Proof.
  intros Hstep. destruct e as [|i o]; simpl in Hstep.
  - injection Hstep as <-. unfold startup_event.
    destruct (startup_in_progress (startup_state l)); simpl;
      repeat split; congruence.
  - destruct (tasks l !! i) as [c|] eqn:Hc; [|done].
    destruct (resume c o (startup_state l)) as [[st cont] created] eqn:Hres.
    injection Hstep as <-. simpl.
    destruct c, o; simpl in Hres;
      repeat match type of Hres with
      | context [if ?b then _ else _] => destruct b eqn:?
      end;
      injection Hres as <- <- <-; simpl;
      repeat split; try congruence; intros; by exists i.
Qed.

(** A readiness flag, once set, stays set along every run; and a step
    sets one only by resuming the corresponding subtask with a successful
    outcome: a time-out or a failure leaves the flag down. *)
Theorem readiness_monotone es l l' :
  run es l = Some l' →
  (faiss_initialized (startup_state l) = true →
   faiss_initialized (startup_state l') = true) ∧
  (arxiv_initialized (startup_state l) = true →
   arxiv_initialized (startup_state l') = true) ∧
  (faiss_initialized (startup_state l) = false →
   faiss_initialized (startup_state l') = true →
   ∃ i, Resume i Success ∈ es) ∧
  (arxiv_initialized (startup_state l) = false →
   arxiv_initialized (startup_state l') = true →
   ∃ i, Resume i Success ∈ es).
Proof.
  revert l. induction es as [|e es IH]; simpl; intros l Hrun.
  - injection Hrun as <-. repeat split; congruence.
  - destruct (step e l) as [l1|] eqn:Hstep; [|done].
    destruct (step_readiness _ _ _ Hstep) as (Hf & Ha & Hfs & Has).
    destruct (IH _ Hrun) as (IHf & IHa & IHfs & IHas).
    split; [auto|]. split; [auto|]. split.
    + intros Hoff Hon.
      destruct (faiss_initialized (startup_state l1)) eqn:Hmid.
      * destruct (Hfs Hoff eq_refl) as (i & -> & _). exists i. left.
      * destruct (IHfs eq_refl Hon) as [i Hi]. exists i. by right.
    + intros Hoff Hon.
      destruct (arxiv_initialized (startup_state l1)) eqn:Hmid.
      * destruct (Has Hoff eq_refl) as (i & -> & _). exists i. left.
      * destruct (IHas eq_refl Hon) as [i Hi]. exists i. by right.
Qed.

End StartupMore.

(** * The further properties on the sample states *)

Section more_examples.
Import Fixture Fixture2 PyDict.

Lemma corpus_ok_one_document : corpus_ok one_document.
Proof.
  split; [apply (bool_decide_unpack _); vm_compute; exact I|].
  split; [apply (bool_decide_unpack _); vm_compute; exact I|].
  split.
  - intros k cs. simpl. destruct (String.eqb k "a.pdf"); [|done].
    by intros [= <-].
  - intros k. unfold mem. simpl. by destruct (String.eqb k "a.pdf").
Qed.

Lemma upload_pdf_status_witness :
  ∃ s' r,
    @upload_pdf stub "20250101_120000"
      {| uf_filename := Some "notes.PDF"; uf_contents := [Byte.x25] |}
      one_document = (s', r) ∧
    http_status r = 400%nat ∧ s' = one_document.
Proof.
  destruct (@upload_pdf stub "20250101_120000"
              {| uf_filename := Some "notes.PDF"; uf_contents := [Byte.x25] |}
              one_document) as [s' r] eqn:E.
  exists s', r. split; [reflexivity|].
  destruct (@upload_pdf_status stub _ _ _ _ _ E) as (Hiff & Hsame & _).
  assert (Hst : http_status r = 400%nat).
  { apply Hiff. unfold invalid_upload_name. simpl. right. reflexivity. }
  split; [exact Hst|by apply Hsame].
Defined.

Lemma upload_pdf_empty_file_witness :
  ∃ s',
    @upload_pdf stub "20250101_120000" empty_upload one_document =
      (s', HTTPException 500
             "Error saving file: 400: Uploaded file is empty") ∧
    path_exists (path_join UPLOAD_DIR "20250101_120000_paper.pdf") (fs s')
      = false ∧
    processed_documents s' = processed_documents one_document.
Proof.
  destruct (@upload_pdf_empty_file stub "20250101_120000" empty_upload
              "paper.pdf" one_document)
    as (s' & Hrun & _ & Hex & Hpd & _); try reflexivity; [discriminate|].
  exists s'. split; [exact Hrun|]. split; [|exact Hpd].
  exact (eq_trans Hex eq_refl).
Defined.

(** A file name with a "/" in it names a directory that does not exist:
    [open] raises, the upload is answered 500 and nothing is stored. *)
Remark upload_name_with_slash :
  @upload_pdf stub_accepts "20250101_120000"
    {| uf_filename := Some "a/b.pdf"; uf_contents := [Byte.x25] |}
    one_document =
  (one_document,
   HTTPException 500
     "Error saving file: [Errno 2] No such file or directory: 'uploads/20250101_120000_a/b.pdf'").
Proof. vm_compute. reflexivity. Qed.

Lemma upload_pdf_stores_witness :
  ∃ s' reply chunks doc_info,
    @upload_pdf stub_accepts "20250101_120000" pdf_upload one_document =
      (s', OK reply) ∧
    @process_pdf_enhanced stub_accepts
      (path_join UPLOAD_DIR (up_filename reply)) (uf_contents pdf_upload)
      = Returns (chunks, doc_info) ∧
    get (up_filename reply) (processed_documents s') = Some chunks ∧
    get (up_filename reply) (document_sections s')
      = Some (set_topics ["cancer"] doc_info) ∧
    is_file (path_join UPLOAD_DIR (up_filename reply)) (fs s') = true ∧
    get "a.pdf" (processed_documents s') = Some a_chunks.
Proof.
  destruct (@upload_pdf stub_accepts "20250101_120000" pdf_upload one_document)
    as [s' [reply|st dt]] eqn:E; [|vm_compute in E; discriminate].
  destruct (@upload_pdf_stores stub_accepts _ _ _ _ _ E)
    as (name & chunks & info & tps & _ & Hf & Hp & Ht & _ & Hfile & Hget & _
        & Hds & _ & Hothers).
  exists s', reply, chunks, info. split; [reflexivity|]. split; [exact Hp|].
  split; [exact Hget|]. split.
  { rewrite Hds. simpl in Ht. by injection Ht as <-. }
  split; [exact Hfile|].
  destruct (Hothers "a.pdf") as [-> _]; [|reflexivity].
  vm_compute in E. injection E as _ <-. discriminate.
Defined.

Lemma upload_pdf_rebuilds_witness :
  ∃ s' reply,
    @upload_pdf stub_accepts "20250101_120000" pdf_upload one_document =
      (s', OK reply) ∧
    index_reflects_corpus s'.
Proof.
  destruct (@upload_pdf stub_accepts "20250101_120000" pdf_upload one_document)
    as [s' [reply|st dt]] eqn:E; [|vm_compute in E; discriminate].
  exists s', reply. split; [reflexivity|].
  pose proof (@upload_pdf_rebuilds stub_accepts _ _ _ _ _ E) as Hr.
  assert (Hw : up_warning reply = None)
    by (vm_compute in E; injection E as _ <-; reflexivity).
  rewrite Hw in Hr. exact (proj1 (proj2 Hr)).
Defined.

(** The set-up of the chain raises after the index has been rebuilt: the
    upload is answered with the warning, and the engine has the new
    index. *)
Remark upload_setup_failure_replaces_index :
  ∃ s',
    @upload_pdf stub_setup_fails "20250101_120000" pdf_upload one_document =
      (s', OK {| up_filename := "20250101_120000_paper.pdf";
                 up_message :=
                   "File uploaded and processed, but vector store update failed. Some features may be limited.";
                 up_warning := Some "no language model" |}) ∧
    index_reflects_corpus s' ∧
    rage_engine s' ≠ rage_engine one_document ∧
    qa_chain (rage_engine s') = qa_chain (rage_engine one_document).
Proof.
  eexists. split; [vm_compute; reflexivity|].
  split; [reflexivity|]. split; [discriminate|reflexivity].
Qed.

Lemma upload_pdf_keeps_corpus_ok_witness :
  ∃ s' r,
    @upload_pdf stub_topics_fail "20250101_120000" pdf_upload one_document =
      (s', r) ∧
    is_ok r = false ∧ corpus_ok s'.
Proof.
  destruct (@upload_pdf stub_topics_fail "20250101_120000" pdf_upload
              one_document) as [s' r] eqn:E.
  exists s', r. split; [reflexivity|]. split.
  - vm_compute in E. injection E as _ <-. reflexivity.
  - exact (@upload_pdf_keeps_corpus_ok stub_topics_fail _ _ _ _ _
             corpus_ok_one_document E).
Defined.

Lemma delete_file_keeps_corpus_ok_witness :
  ∃ s' r, @delete_file stub "a.pdf" one_document = (s', r) ∧ corpus_ok s'.
Proof.
  destruct (@delete_file stub "a.pdf" one_document) as [s' r] eqn:E.
  exists s', r. split; [reflexivity|].
  exact (@delete_file_keeps_corpus_ok stub _ _ _ _ corpus_ok_one_document E).
Defined.

Lemma delete_file_keeps_sections_witness :
  ∃ s' r,
    @delete_file stub "b.pdf" two_documents = (s', r) ∧
    mem "b.pdf" (processed_documents s') = false ∧
    mem "b.pdf" (document_sections s') = true ∧
    get_related_documents "a.pdf" s' = get_related_documents "a.pdf" two_documents.
Proof.
  destruct (@delete_file stub "b.pdf" two_documents) as [s' r] eqn:E.
  exists s', r. split; [reflexivity|].
  destruct (@delete_file_keeps_sections stub _ _ _ _ E) as [Hds Hrel].
  split; [vm_compute in E; injection E as <- _; reflexivity|].
  split; [by rewrite Hds|]. apply Hrel.
Defined.

Lemma delete_file_twice_witness :
  ∃ s' reply,
    @delete_file stub "a.pdf" one_document = (s', OK reply) ∧
    @delete_file stub "a.pdf" s' =
      (s', HTTPException 404 "File not found").
Proof.
  destruct (@delete_file stub "a.pdf" one_document) as [s' [reply|st dt]] eqn:E;
    [|vm_compute in E; discriminate].
  exists s', reply. split; [reflexivity|].
  exact (@delete_file_twice stub _ _ _ _ E).
Defined.

Lemma delete_file_rebuild_failure_witness :
  ∃ s',
    @delete_file stub_build_fails "a.pdf" two_documents =
      (s', OK {| del_message :=
                   "File deleted, but vector store update failed. Some features may be limited.";
                 del_warning := Some "embedding service unavailable" |}) ∧
    rage_engine s' = rage_engine two_documents.
Proof.
  destruct (@delete_file_rebuild_failure stub_build_fails "a.pdf" two_documents
              "embedding service unavailable")
    as (s' & Hrun & _ & _ & He);
    [vm_compute; reflexivity|discriminate|reflexivity|].
  by exists s'.
Defined.

Lemma upload_then_delete_witness :
  ∃ s1 reply s2 r2,
    @upload_pdf stub_accepts "20250101_120000" pdf_upload one_document =
      (s1, OK reply) ∧
    @delete_file stub_accepts (up_filename reply) s1 = (s2, OK r2) ∧
    processed_documents s2 = processed_documents one_document ∧
    mem (up_filename reply) (document_sections s2) = true.
Proof.
  destruct (@upload_pdf stub_accepts "20250101_120000" pdf_upload one_document)
    as [s1 [reply|st dt]] eqn:E; [|vm_compute in E; discriminate].
  assert (Hfresh : get (up_filename reply) (processed_documents one_document)
                   = None)
    by (vm_compute in E; injection E as _ <-; reflexivity).
  destruct (@upload_then_delete stub_accepts _ _ _ _ _ E Hfresh)
    as (s2 & r2 & Hdel & Hpd & _ & _ & Hmem).
  by exists s1, reply, s2, r2.
Defined.

Lemma delete_file_forgets_document_witness :
  ∃ s' reply,
    @delete_file stub "b.pdf" two_documents = (s', OK reply) ∧
    @query_document stub
      {| qd_question := "which therapy?"; qd_document_id := "b.pdf" |} s' =
      HTTPException 404 "Document not found" ∧
    @summarize_paper llm_stub
      {| sum_filename := "b.pdf"; sum_audience_type := None |} s' =
      HTTPException 404 "Processed data not found for this file".
Proof.
  destruct (@delete_file stub "b.pdf" two_documents) as [s' [reply|st dt]] eqn:E;
    [|vm_compute in E; discriminate].
  exists s', reply. split; [reflexivity|].
  destruct (@delete_file_forgets_document stub cpython312 llm_stub "b.pdf"
              two_documents s' reply) as (_ & Hq & Hs & _).
  - apply (bool_decide_unpack _). vm_compute. exact I.
  - exact E.
  - split; [apply Hq|apply Hs].
Defined.

Lemma summarize_paper_outcomes_witness :
  @summarize_paper llm_stub
    {| sum_filename := "a.pdf"; sum_audience_type := Some "patient" |}
    one_document =
  HTTPException 500
    "Error during summarization: 500: Summarization failed: quota".
Proof.
  destruct (@summarize_paper_outcomes llm_stub
              {| sum_filename := "a.pdf"; sum_audience_type := Some "patient" |}
              one_document a_chunks corpus_ok_one_document eq_refl)
    as (info & _ & Hrun).
  exact Hrun.
Defined.

Lemma query_papers_ignores_filenames_witness :
  @query_papers stub
    {| query := "therapy"; filenames := Some ["a.pdf"] |} two_documents =
  @query_papers stub
    {| query := "therapy"; filenames := Some ["b.pdf"; "zzz.pdf"] |}
    two_documents.
Proof.
  apply (@query_papers_ignores_filenames stub); discriminate.
Defined.
End more_examples.

Section more_examples_2.
Import Fixture Fixture2 PyDict.


(** The confidence may exceed every similarity it averages: three chunks
    of similarity 0.1 give 0.10000000000000002, under either way of
    summing. *)
Remark explanation_confidence_above_highest :
  let request := {| er_filename := "T"; er_sentence := "a probe sentence" |} in
  (∃ top_chunks,
     @get_sentence_explanation stub cpython311 request three_tenths =
       OK {| source_chunks := top_chunks;
             confidence := 0x1.999999999999bp-4%float |} ∧
     map similarity top_chunks = [f0_1; f0_1; f0_1]) ∧
  (∃ top_chunks,
     @get_sentence_explanation stub cpython312 request three_tenths =
       OK {| source_chunks := top_chunks;
             confidence := 0x1.999999999999bp-4%float |} ∧
     map similarity top_chunks = [f0_1; f0_1; f0_1]) ∧
  (float_to_Q f0_1 < float_to_Q 0x1.999999999999bp-4%float)%Q.
Proof.
  split; [eexists; split; vm_compute; reflexivity|].
  split; [eexists; split; vm_compute; reflexivity|].
  vm_compute. reflexivity.
Qed.

Lemma explanation_prefix_of_relevant_witness :
  ∃ retrieved,
    @relevant_chunks stub "a probe sentence" d1_chunks = Returns retrieved ∧
    length retrieved = 4%nat ∧
    @get_sentence_explanation stub cpython312
      {| er_filename := "D1"; er_sentence := "a probe sentence" |}
      four_chunks =
    OK {| source_chunks := take 3 retrieved;
          confidence := @mean_similarity cpython312 (take 3 retrieved) |}.
Proof.
  destruct (@relevant_chunks stub "a probe sentence" d1_chunks)
    as [retrieved|msg] eqn:E; [|vm_compute in E; discriminate].
  exists retrieved. split; [reflexivity|]. split.
  - vm_compute in E. injection E as <-. reflexivity.
  - exact (@explanation_prefix_of_relevant stub cpython312 "a probe sentence"
             "D1" d1_chunks retrieved four_chunks eq_refl E).
Defined.

Lemma chunk_embedding_failure_witness :
  @get_sentence_explanation stub_embed_fails cpython312
    {| er_filename := "D1"; er_sentence := "a probe sentence" |} four_chunks =
    HTTPException 500 "Error getting sentence explanation: rate limit" ∧
  @query_document stub_embed_fails
    {| qd_question := "a probe sentence"; qd_document_id := "D1" |}
    four_chunks =
    HTTPException 500 "Error querying document: rate limit".
Proof.
  apply (@chunk_embedding_failure stub_embed_fails cpython312
           "a probe sentence" "D1"
           [chunk "D1" 0 "c0"; chunk "D1" 1 "c1"] (chunk "D1" 2 "c2")
           [chunk "D1" 3 "c3"] [0%float] "rate limit" four_chunks);
    try reflexivity.
  intros doc Hdoc.
  apply elem_of_cons in Hdoc as [->|Hdoc]; [by eexists|].
  apply elem_of_cons in Hdoc as [->|Hdoc]; [by eexists|].
  by apply elem_of_nil in Hdoc.
Defined.

Lemma wf_same_second : wf (document_sections same_second).
Proof. apply (bool_decide_unpack _). vm_compute. exact I. Qed.

Lemma get_related_documents_entries_witness :
  ∃ rs,
    get_related_documents "20250101_115959_t.pdf" same_second = OK rs ∧
    length rs = 3%nat ∧
    NoDup (map r_filename rs) ∧
    Forall (fun r => 0 < similarity_score r ∧ similarity_score r <= 1)%Q rs.
Proof.
  destruct (get_related_documents "20250101_115959_t.pdf" same_second)
    as [rs|st dt] eqn:E; [|vm_compute in E; discriminate].
  exists rs. split; [reflexivity|].
  destruct (get_related_documents_entries _ _ _ wf_same_second E)
    as (_ & Hnd & infoA & _ & Hall).
  split; [vm_compute in E; injection E as <-; reflexivity|].
  split; [exact Hnd|].
  apply Forall_forall. intros r Hr. by destruct (Hall r Hr) as (_ & ? & _).
Defined.

Lemma related_score_one_witness :
  ∃ rs r,
    get_related_documents "20250101_115959_t.pdf" same_second = OK rs ∧
    r ∈ rs ∧ (similarity_score r == 1)%Q.
Proof.
  destruct (get_related_documents "20250101_115959_t.pdf" same_second)
    as [rs|st dt] eqn:E; [|vm_compute in E; discriminate].
  assert (Hrs : ∃ r, r ∈ rs ∧ r_filename r = "20250101_120000_b.pdf").
  { vm_compute in E. injection E as <-. eexists. split; [left|reflexivity]. }
  destruct Hrs as (r & Hr & Hname).
  exists rs, r. split; [reflexivity|]. split; [exact Hr|].
  destruct (related_score_one _ _ _ r wf_same_second E Hr)
    as (infoA & infoB & HA & HB & Hiff).
  apply Hiff. rewrite Hname in HB.
  injection HA as <-. injection HB as <-. reflexivity.
Defined.

Lemma synthesize_topic_no_valid_witness :
  @synthesize_topic llm_stub
    {| sy_filenames := ["gone.pdf"; "other.pdf"]; sy_synthesis_type := None |}
    one_document =
  HTTPException 400 "No valid papers found for synthesis".
Proof.
  apply (@synthesize_topic_no_valid llm_stub
           {| sy_filenames := ["gone.pdf"; "other.pdf"];
              sy_synthesis_type := None |}
           one_document corpus_ok_one_document).
  intros f Hf. simpl in Hf.
  apply elem_of_cons in Hf as [->|Hf]; [reflexivity|].
  apply elem_of_cons in Hf as [->|Hf]; [reflexivity|].
  by apply elem_of_nil in Hf.
Defined.

Lemma debug_chunks_window_witness :
  ∃ reply,
    debug_chunks "D1" 1 2 four_chunks = OK reply ∧
    dc_total_chunks reply = 4%nat ∧
    map cv_content (dc_chunks reply) = ["c1"; "c2"].
Proof.
  destruct (debug_chunks_window "D1" 1 2 d1_chunks four_chunks eq_refl)
    as (reply & Hrun & Htotal & Hchunks & _); [lia|lia|].
  exists reply. split; [exact Hrun|]. split; [exact Htotal|].
  rewrite Hchunks. reflexivity.
Defined.

Lemma serve_pdf_after_upload_witness :
  ∃ s' reply,
    @upload_pdf stub_accepts "20250101_120000" pdf_upload one_document =
      (s', OK reply) ∧
    serve_pdf (up_filename reply) s' =
      OK "uploads/20250101_120000_paper.pdf".
Proof.
  destruct (@upload_pdf stub_accepts "20250101_120000" pdf_upload one_document)
    as [s' [reply|st dt]] eqn:E; [|vm_compute in E; discriminate].
  exists s', reply. split; [reflexivity|].
  rewrite (@serve_pdf_after_upload stub_accepts _ _ _ _ _ E).
  vm_compute in E. injection E as _ <-. reflexivity.
Defined.
End more_examples_2.

Module StartupMoreExamples.
Import Startup StartupInv StartupMore.

Lemma single_initializer_invariant_witness :
  ∃ l,
    run [FireStartup; FireStartup; Resume 0 Success; FireStartup] initial
      = Some l ∧
    tasks l = [DelayedSleeping] ∧ single_initializer l.
Proof.
  eexists. split; [reflexivity|]. split; [reflexivity|].
  apply (single_initializer_invariant
           [FireStartup; FireStartup; Resume 0 Success; FireStartup]).
  reflexivity.
Defined.

Lemma readiness_monotone_witness :
  ∃ l,
    run [FireStartup; Resume 0 Success; Resume 0 Success; Resume 0 Success;
         Resume 0 Timeout; Resume 0 Success; Resume 0 Timeout] initial
      = Some l ∧
    faiss_initialized (startup_state l) = false ∧
    arxiv_initialized (startup_state l) = false ∧
    ∀ es l', run es l = Some l' →
             faiss_initialized (startup_state l') = true →
             ∃ i, Resume i Success ∈ es.
Proof.
  eexists. split; [reflexivity|]. split; [reflexivity|]. split; [reflexivity|].
  intros es l' Hrun Hon.
  destruct (readiness_monotone es _ l' Hrun) as (_ & _ & Hf & _).
  by apply Hf.
Defined.

End StartupMoreExamples.
